(** * A TCP-like protocol over datagrams: shallow embedding of [protocol.py]

    The development follows [src/hw/1_tcp/protocol.py].  The protocol object
    is a record of its fields; every method is a computation over that
    record.  Python exceptions are outcomes of a small state-and-error
    monad (the state reached when the exception is raised is kept, as in
    Python).  The threads of the object (handshake, sender, receive
    dispatch, flag matcher) are interleaved through explicit schedules:
    a schedule lists, in order, which thread gets to run its next quantum
    and which datagram the transport hands over.

    Conventions of the model:
    - a quantum of a thread (one pass from a blocking point or loop head
      to the next) is atomic;
    - the socket stays open: [sendto] and [recvfrom] do not raise
      [OSError], so the handlers for it are left out; the exception is
      the passive close, whose loop is ended by that handler: its
      schedules have the two failing calls as events;
    - integers are Python's: unbounded [Z], no wrap-around;
    - [close] and the logger play no part in the properties below and
      are not embedded. *)

From Stdlib Require Import String ZArith List Lia Bool.
From Stdlib Require Import Strings.Byte.
Import ListNotations.
Local Open Scope Z_scope.

(* ================================================================== *)
(** ** Bytes and integers *)

Definition bytes := list byte.

Definition len (b : bytes) : Z := Z.of_nat (length b).

Definition byte_to_Z (b : byte) : Z := Z.of_N (Byte.to_N b).

Definition byte_of_Z (z : Z) : byte :=
  match Byte.of_N (Z.to_N (z mod 256)) with
  | Some b => b
  | None => x00
  end.

(** [int.from_bytes(b, 'big')]: total, the empty string reads as 0. *)
Definition int_from_bytes (b : bytes) : Z :=
  fold_left (fun acc x => acc * 256 + byte_to_Z x) b 0.

(** The [n] big-endian digits of [v] in base 256. *)
Fixpoint be_bytes (n : nat) (v : Z) : bytes :=
  match n with
  | O => []
  | S k => be_bytes k (v / 256) ++ [byte_of_Z (v mod 256)]
  end.

(** [v.to_bytes(n, 'big')]: Python raises [OverflowError] for a negative
    [v] and for one that does not fit [n] bytes; [None] stands for that. *)
Definition to_bytes (n : nat) (v : Z) : option bytes :=
  if (0 <=? v) && (v <? 256 ^ Z.of_nat n) then Some (be_bytes n v) else None.

(** Python slicing [l[a:b]] with step 1: a negative index counts from the
    end, and both indices are clamped to [0, len l]. *)
Definition norm_index (n i : Z) : Z :=
  Z.max 0 (Z.min n (if i <? 0 then i + n else i)).

Definition pyslice (a b : Z) (l : bytes) : bytes :=
  let lo := norm_index (len l) a in
  let hi := norm_index (len l) b in
  firstn (Z.to_nat (hi - lo)) (skipn (Z.to_nat lo) l).

(** [l[a:]] *)
Definition pyslice_from (a : Z) (l : bytes) : bytes :=
  pyslice a (len l) l.

(* ================================================================== *)
(** ** [ProtocolConstants] *)

Definition SYN : Z := 2.          (* 0b10 *)
Definition ACK : Z := 16.         (* 0b10000 *)
Definition FIN : Z := 1.          (* 0b1 *)
Definition BANDWIDTH : Z := 1000000.
Definition MSS : Z := 1460.
Definition HEADER : Z := 12.
Definition MTU : Z := MSS + HEADER.

(** [int(BANDWIDTH / 8 * RTT)] with [RTT = 0.01]: the floating-point
    product is exactly 1250.0. *)
Definition initial_window_size : Z := 1250.

(** The two durations the code waits for; only their identity matters. *)
Inductive Duration := timeout_duration | RST_TIMEOUT.

(* ================================================================== *)
(** ** The protocol object *)

(** Python exceptions the modelled code can raise. *)
Inductive Exn := NameError | OverflowError.

(** What the object does to the outside world, in order. *)
Inductive Effect :=
| SendTo (d : bytes)          (* [self.sendto(d)] *)
| Sleep (t : Duration).       (* [sleep(t)] *)

(** Where the thread running [sending] stands. *)
Inductive SenderPC :=
| SDead                                   (* not started, or returned *)
| SStart                                  (* at the join on the handshake *)
| SOuter                                  (* at [while len(self.send_queue)] *)
| SInner (start_seq : Z) (data : bytes)   (* at the inner [while] *)
| SWait (start_seq : Z) (data : bytes)    (* inside [ack_received_event.wait] *)
| SCrashed (e : Exn).                     (* ended by an uncaught exception *)

Record State := mkState {
  window_size : Z;
  sequence_number : Z;
  ack_number : Z;
  remote_sequence_number : Z;
  remote_ack_number : Z;
  received_data : bytes;
  send_queue : list bytes;        (* deque: head is the left end *)
  stop_receiving : bool;
  data_received_event : bool;
  ack_received_event : bool;
  connection_alive : bool;        (* [connection_thread.is_alive()] *)
  sender : SenderPC;              (* [data_sending_thread] *)
  receiver_alive : bool;          (* [data_receiving_thread.is_alive()] *)
  termination_started : bool;     (* [termination_thread] is not [None] *)
  wire : list Effect
}.

Definition set_sequence_number (v : Z) (s : State) : State :=
  mkState (window_size s) v (ack_number s) (remote_sequence_number s)
    (remote_ack_number s) (received_data s) (send_queue s) (stop_receiving s)
    (data_received_event s) (ack_received_event s) (connection_alive s)
    (sender s) (receiver_alive s) (termination_started s) (wire s).

Definition set_ack_number (v : Z) (s : State) : State :=
  mkState (window_size s) (sequence_number s) v (remote_sequence_number s)
    (remote_ack_number s) (received_data s) (send_queue s) (stop_receiving s)
    (data_received_event s) (ack_received_event s) (connection_alive s)
    (sender s) (receiver_alive s) (termination_started s) (wire s).

Definition set_remote_sequence_number (v : Z) (s : State) : State :=
  mkState (window_size s) (sequence_number s) (ack_number s) v
    (remote_ack_number s) (received_data s) (send_queue s) (stop_receiving s)
    (data_received_event s) (ack_received_event s) (connection_alive s)
    (sender s) (receiver_alive s) (termination_started s) (wire s).

Definition set_remote_ack_number (v : Z) (s : State) : State :=
  mkState (window_size s) (sequence_number s) (ack_number s)
    (remote_sequence_number s) v (received_data s) (send_queue s)
    (stop_receiving s) (data_received_event s) (ack_received_event s)
    (connection_alive s) (sender s) (receiver_alive s)
    (termination_started s) (wire s).

Definition set_received_data (v : bytes) (s : State) : State :=
  mkState (window_size s) (sequence_number s) (ack_number s)
    (remote_sequence_number s) (remote_ack_number s) v (send_queue s)
    (stop_receiving s) (data_received_event s) (ack_received_event s)
    (connection_alive s) (sender s) (receiver_alive s)
    (termination_started s) (wire s).

Definition set_send_queue (v : list bytes) (s : State) : State :=
  mkState (window_size s) (sequence_number s) (ack_number s)
    (remote_sequence_number s) (remote_ack_number s) (received_data s) v
    (stop_receiving s) (data_received_event s) (ack_received_event s)
    (connection_alive s) (sender s) (receiver_alive s)
    (termination_started s) (wire s).

Definition set_data_received_event (v : bool) (s : State) : State :=
  mkState (window_size s) (sequence_number s) (ack_number s)
    (remote_sequence_number s) (remote_ack_number s) (received_data s)
    (send_queue s) (stop_receiving s) v (ack_received_event s)
    (connection_alive s) (sender s) (receiver_alive s)
    (termination_started s) (wire s).

Definition set_ack_received_event (v : bool) (s : State) : State :=
  mkState (window_size s) (sequence_number s) (ack_number s)
    (remote_sequence_number s) (remote_ack_number s) (received_data s)
    (send_queue s) (stop_receiving s) (data_received_event s) v
    (connection_alive s) (sender s) (receiver_alive s)
    (termination_started s) (wire s).

Definition set_sender (v : SenderPC) (s : State) : State :=
  mkState (window_size s) (sequence_number s) (ack_number s)
    (remote_sequence_number s) (remote_ack_number s) (received_data s)
    (send_queue s) (stop_receiving s) (data_received_event s)
    (ack_received_event s) (connection_alive s) v (receiver_alive s)
    (termination_started s) (wire s).

Definition set_receiver_alive (v : bool) (s : State) : State :=
  mkState (window_size s) (sequence_number s) (ack_number s)
    (remote_sequence_number s) (remote_ack_number s) (received_data s)
    (send_queue s) (stop_receiving s) (data_received_event s)
    (ack_received_event s) (connection_alive s) (sender s) v
    (termination_started s) (wire s).

Definition set_connection_alive (v : bool) (s : State) : State :=
  mkState (window_size s) (sequence_number s) (ack_number s)
    (remote_sequence_number s) (remote_ack_number s) (received_data s)
    (send_queue s) (stop_receiving s) (data_received_event s)
    (ack_received_event s) v (sender s) (receiver_alive s)
    (termination_started s) (wire s).

Definition set_stop_receiving (v : bool) (s : State) : State :=
  mkState (window_size s) (sequence_number s) (ack_number s)
    (remote_sequence_number s) (remote_ack_number s) (received_data s)
    (send_queue s) v (data_received_event s)
    (ack_received_event s) (connection_alive s) (sender s) (receiver_alive s)
    (termination_started s) (wire s).

Definition set_termination_started (v : bool) (s : State) : State :=
  mkState (window_size s) (sequence_number s) (ack_number s)
    (remote_sequence_number s) (remote_ack_number s) (received_data s)
    (send_queue s) (stop_receiving s) (data_received_event s)
    (ack_received_event s) (connection_alive s) (sender s)
    (receiver_alive s) v (wire s).

Definition set_wire (v : list Effect) (s : State) : State :=
  mkState (window_size s) (sequence_number s) (ack_number s)
    (remote_sequence_number s) (remote_ack_number s) (received_data s)
    (send_queue s) (stop_receiving s) (data_received_event s)
    (ack_received_event s) (connection_alive s) (sender s)
    (receiver_alive s) (termination_started s) v.

(** The fields as [__init__] leaves them; [running] tells whether the
    handshake thread is still alive. *)
Definition init_state (running : bool) : State :=
  mkState initial_window_size 0 0 0 0 [] [] false false false running
    SDead false false [].

(* ================================================================== *)
(** ** Outcomes and the monad of methods *)

Inductive Outcome (A : Type) :=
| Ok (a : A) (s : State)        (* returned [a] *)
| Raised (e : Exn) (s : State)  (* an exception left the method *)
| Blocked (s : State)           (* still waiting when the schedule ended *)
| Livelock (s : State).         (* a loop whose test can no longer change *)

Arguments Ok {A} a s.
Arguments Raised {A} e s.
Arguments Blocked {A} s.
Arguments Livelock {A} s.

Definition M (A : Type) := State -> Outcome A.

Definition ret {A} (a : A) : M A := fun s => Ok a s.

Definition bind {A B} (m : M A) (k : A -> M B) : M B :=
  fun s =>
    match m s with
    | Ok a s' => k a s'
    | Raised e s' => Raised e s'
    | Blocked s' => Blocked s'
    | Livelock s' => Livelock s'
    end.

Definition raise {A} (e : Exn) : M A := fun s => Raised e s.

Definition modify (f : State -> State) : M unit := fun s => Ok tt (f s).

Definition gets {A} (f : State -> A) : M A := fun s => Ok (f s) s.

Notation "x <- m ;; k" := (bind m (fun x => k))
  (at level 61, m at next level, right associativity).
Notation "m ;;; k" := (bind m (fun _ => k))
  (at level 61, right associativity).

(** The state an outcome ends in. *)
Definition final_state {A} (o : Outcome A) : State :=
  match o with
  | Ok _ s | Raised _ s | Blocked s | Livelock s => s
  end.

(** The datagrams among the effects. *)
Fixpoint sent (w : list Effect) : list bytes :=
  match w with
  | [] => []
  | SendTo d :: w' => d :: sent w'
  | Sleep _ :: w' => sent w'
  end.

(* ================================================================== *)
(** ** Sending segments *)

Definition sendto (d : bytes) : M unit :=
  modify (fun s => set_wire (wire s ++ [SendTo d]) s).

(** The twelve header bytes, or [None] when one [to_bytes] overflows. *)
Definition header (seq ack flags window : Z) : option bytes :=
  match to_bytes 4 seq, to_bytes 4 ack, to_bytes 2 flags, to_bytes 2 window with
  | Some a, Some b, Some c, Some d => Some (a ++ b ++ c ++ d)
  | _, _, _, _ => None
  end.

Definition send_flags (flags : Z) : M unit :=
  fun s =>
    match header (sequence_number s) (ack_number s) flags (window_size s) with
    | Some h => sendto h s
    | None => Raised OverflowError s
    end.

Definition send_data (data : bytes) : M unit :=
  fun s =>
    match header (sequence_number s) (ack_number s) 0 (window_size s) with
    | Some h => sendto (h ++ data) s
    | None => Raised OverflowError s
    end.

Fixpoint for_range (n : nat) (body : M unit) : M unit :=
  match n with
  | O => ret tt
  | S k => body ;;; for_range k body
  end.

Definition sleep (t : Duration) : M unit :=
  modify (fun s => set_wire (wire s ++ [Sleep t]) s).

(* ================================================================== *)
(** ** The receive-dispatch thread: [receiving] *)

(** The body of the loop for one datagram [recv] returned by
    [self.recvfrom(MTU)]; the result tells whether the loop goes on
    ([false] is the [break] after a FIN).  The thread [terminate_server]
    started on a FIN is recorded here; its run is [terminate_server]
    below. *)
Definition receiving_body (recv : bytes) : M bool :=
  let flag := int_from_bytes (pyslice 8 10 recv) in
  if flag =? ACK then
    modify (fun s => set_remote_ack_number
                       (Z.max (remote_ack_number s)
                              (int_from_bytes (pyslice 4 8 recv))) s) ;;;
    modify (set_ack_received_event true) ;;;
    ret true
  else if flag =? 0 then
    modify (set_received_data recv) ;;;
    modify (set_remote_sequence_number (int_from_bytes (pyslice 0 4 recv))) ;;;
    modify (set_data_received_event true) ;;;
    ret true
  else if flag =? FIN then
    modify (set_termination_started true) ;;;
    ret false
  else ret true.

(** One quantum of the thread: blocked in [recvfrom], it is handed the
    datagram [d] (cut to [MTU] bytes), runs the body and tests
    [stop_receiving] at the head of the loop. *)
Definition deliver (d : bytes) (s : State) : State :=
  if receiver_alive s then
    match receiving_body (firstn (Z.to_nat MTU) d) s with
    | Ok true s' =>
        if stop_receiving s' then set_receiver_alive false s' else s'
    | o => set_receiver_alive false (final_state o)
    end
  else s.

(** The loop over the datagrams of a list. *)
Definition receiving (ds : list bytes) (s : State) : State :=
  fold_left (fun s d => deliver d s) ds s.

(* ================================================================== *)
(** ** The consumer: [recv] *)

(** A schedule for [recv]: the receive thread handles a datagram, or
    [_wait_for_data] comes back (with the event set, or else because
    [timeout_duration] has passed). *)
Inductive RecvEvent :=
| Deliver (d : bytes)
| Wake.

Definition _wait_for_data : M bool :=
  result <- gets data_received_event ;;
  modify (set_data_received_event false) ;;;
  ret result.

Definition _send_single_ack (not_ack : Z) : M Z :=
  send_flags ACK ;;; ret 0.

Definition _send_final_acks : M unit :=
  for_range 3 (send_flags ACK).

Definition expected_seq (s : State) : Z :=
  ack_number s + len (received_data s) - HEADER.

(** One pass through the body of [while len(data) < n]. *)
Definition recv_iteration (data : bytes) (not_ack : Z) : M (bytes * Z) :=
  woke <- _wait_for_data ;;
  if negb woke then
    na <- _send_single_ack not_ack ;; ret (data, na)
  else
    s <- gets (fun s => s) ;;
    r <- (if expected_seq s =? remote_sequence_number s then
            modify (set_ack_number (remote_sequence_number s)) ;;;
            ret (data ++ pyslice_from HEADER (received_data s),
                 not_ack + (len (received_data s) - HEADER))
          else if expected_seq s <=? remote_sequence_number s then
            na <- _send_single_ack not_ack ;; ret (data, na)
          else ret (data, not_ack)) ;;
    if snd r >=? window_size s then
      na <- _send_single_ack (snd r) ;; ret (fst r, na)
    else ret r.

Fixpoint recv_loop (n : Z) (sched : list RecvEvent) (data : bytes)
  (not_ack : Z) : M (bytes * list RecvEvent) :=
  fun s =>
    if len data <? n then
      match sched with
      | [] => Blocked s
      | Deliver d :: rest => recv_loop n rest data not_ack (deliver d s)
      | Wake :: rest =>
          (r <- recv_iteration data not_ack ;;
           recv_loop n rest (fst r) (snd r)) s
      end
    else (_send_final_acks ;;; ret (data, sched)) s.

(** [recv(n)]: the value is the byte string returned together with the
    part of the schedule that was not used. *)
Definition recv (n : Z) (sched : list RecvEvent)
  : M (bytes * list RecvEvent) :=
  fun s =>
    if connection_alive s then Blocked s
    else recv_loop n sched [] 0 s.

(* ================================================================== *)
(** ** The sender: [send] and the thread running [sending] *)

Definition is_alive (pc : SenderPC) : bool :=
  match pc with
  | SDead | SCrashed _ => false
  | _ => true
  end.

(** [deque.pop()]: the right end and what stays. *)
Fixpoint pop_right (q : list bytes) : option (bytes * list bytes) :=
  match q with
  | [] => None
  | x :: q' =>
      match pop_right q' with
      | None => Some (x, [])
      | Some (y, r) => Some (y, x :: r)
      end
  end.

(** [min(MSS, remote_ack + window - seq, start_seq + len(data) - seq)] *)
Definition send_bytes_of (start_seq : Z) (data : bytes) (s : State) : Z :=
  Z.min MSS
    (Z.min (remote_ack_number s + window_size s - sequence_number s)
           (start_seq + len data - sequence_number s)).

(** One quantum of the sender thread: from one program point of
    [sending] to the next. *)
Definition sender_step (s : State) : State :=
  match sender s with
  | SDead | SCrashed _ => s
  | SStart =>
      if connection_alive s then s else set_sender SOuter s
  | SOuter =>
      match pop_right (send_queue s) with
      | None => set_sender SDead s
      | Some (data, q) =>
          set_sender (SInner (sequence_number s) data) (set_send_queue q s)
      end
  | SInner start_seq data =>
      if remote_ack_number s <? start_seq + len data then
        if (sequence_number s <? start_seq + len data)
           && (sequence_number s <? remote_ack_number s + window_size s)
        then
          let send_bytes := send_bytes_of start_seq data s in
          let s1 := set_sequence_number (sequence_number s + send_bytes) s in
          match send_data
                  (pyslice (sequence_number s1 - start_seq - send_bytes)
                           (sequence_number s1 - start_seq) data) s1 with
          | Ok _ s2 => s2
          | Raised e s2 => set_sender (SCrashed e) s2
          | Blocked s2 | Livelock s2 => s2
          end
        else set_sender (SWait start_seq data) (set_ack_received_event false s)
      else set_sender SOuter s
  | SWait start_seq data =>
      if ack_received_event s then
        set_sender (SInner start_seq data)
                   (set_sequence_number (remote_ack_number s) s)
      else s
  end.

(** [RST_TIMEOUT] passes while the sender is inside the wait: the wait
    returns [False] and [sending] returns. *)
Definition sender_expire (s : State) : State :=
  match sender s with
  | SWait _ _ => if ack_received_event s then s else set_sender SDead s
  | _ => s
  end.

Definition send (data : bytes) : M Z :=
  modify (fun s => set_send_queue (data :: send_queue s) s) ;;;
  pc <- gets sender ;;
  (if negb (is_alive pc) then modify (set_sender SStart) else ret tt) ;;;
  ret (len data).

(** A schedule of the sending side. *)
Inductive SysEvent :=
| Arrive (d : bytes)       (* the receive thread handles a datagram *)
| SenderRun                (* the sender thread runs one quantum *)
| SenderExpire             (* [RST_TIMEOUT] passes for the sender's wait *)
| AppSend (data : bytes).  (* the application calls [send(data)] *)

Definition sys_step (s : State) (e : SysEvent) : State :=
  match e with
  | Arrive d => deliver d s
  | SenderRun => sender_step s
  | SenderExpire => sender_expire s
  | AppSend data => final_state (send data s)
  end.

Definition run (evs : list SysEvent) (s : State) : State :=
  fold_left sys_step evs s.



(* ================================================================== *)
(** ** Flag matching: [recv_flags] *)

(** A schedule of a method that waits for a control segment: a datagram
    comes in, or the waiting thread gets its turn (the join on the
    matcher timed out). *)
Inductive MatchEvent :=
| Incoming (d : bytes)
| JoinExpire.

(** [recv_flags] on one datagram, read through [recvfrom(HEADER)]: the
    result tells whether the flags matched, which ends the method. *)
Definition recv_flags_step (flags : Z) (d : bytes) : M bool :=
  modify (set_received_data (firstn (Z.to_nat HEADER) d)) ;;;
  rd <- gets received_data ;;
  if int_from_bytes (pyslice 8 10 rd) =? flags then
    modify (set_remote_ack_number (int_from_bytes (pyslice 4 8 rd))) ;;;
    modify (set_remote_sequence_number (int_from_bytes (pyslice 0 4 rd))) ;;;
    ret true
  else ret false.

(** [recv_flags] called in the waiting thread itself. *)
Fixpoint recv_flags (flags : Z) (sched : list MatchEvent)
  : M (list MatchEvent) :=
  fun s =>
    match sched with
    | [] => Blocked s
    | JoinExpire :: rest => recv_flags flags rest s
    | Incoming d :: rest =>
        (m <- recv_flags_step flags d ;;
         if m then ret rest else recv_flags flags rest) s
    end.

(* ================================================================== *)
(** ** Connection establishment *)

(** The names bound at module level: the five imports and the three
    classes.  [random] is not among them. *)
Definition module_globals : list string :=
  ["socket"; "threading"; "deque"; "sleep"; "TCPLogger";
   "ProtocolConstants"; "UDPBasedProtocol"; "MyTCPProtocol"]%string.

(** Looking a global name up at run time. *)
Definition load_global (name : string) : M unit :=
  if existsb (String.eqb name) module_globals then ret tt
  else raise NameError.

(** [random.randint(0, 2 ** 32 - 1)]; [rnd] is the number drawn. *)
Definition randint (rnd : Z) : M Z :=
  load_global "random" ;;; ret rnd.

Definition _init_client_sequence (rnd : Z) : M unit :=
  v <- randint rnd ;;
  modify (set_sequence_number v) ;;;
  modify (set_ack_number 0).

Definition _init_server_sequence (rnd : Z) : M unit :=
  v <- randint rnd ;;
  modify (set_sequence_number v).

Fixpoint syn_ack_loop (sched : list MatchEvent) : M (list MatchEvent) :=
  fun s =>
    match sched with
    | [] => Blocked s
    | JoinExpire :: rest => (send_flags SYN ;;; syn_ack_loop rest) s
    | Incoming d :: rest =>
        (m <- recv_flags_step (Z.lor SYN ACK) d ;;
         if m then ret rest else syn_ack_loop rest) s
    end.

Definition _wait_for_syn_ack (sched : list MatchEvent)
  : M (list MatchEvent) :=
  rest <- syn_ack_loop sched ;;
  modify (fun s => set_ack_number (remote_sequence_number s) s) ;;;
  ret rest.

Definition _finalize_client_connection : M unit :=
  send_flags ACK ;;;
  modify (fun s => set_remote_ack_number (sequence_number s) s) ;;;
  modify (fun s => set_remote_sequence_number (ack_number s) s) ;;;
  modify (set_receiver_alive true).

Definition establish_client (rnd : Z) (sched : list MatchEvent)
  : M (list MatchEvent) :=
  _init_client_sequence rnd ;;;
  rest <- _wait_for_syn_ack sched ;;
  _finalize_client_connection ;;;
  ret rest.

Definition _wait_for_syn (sched : list MatchEvent) : M (list MatchEvent) :=
  rest <- recv_flags SYN sched ;;
  modify (fun s => set_ack_number (remote_sequence_number s) s) ;;;
  ret rest.

Fixpoint _wait_for_ack (sched : list MatchEvent) : M (list MatchEvent) :=
  fun s =>
    match sched with
    | [] => Blocked s
    | JoinExpire :: rest =>
        (send_flags (Z.lor SYN ACK) ;;; _wait_for_ack rest) s
    | Incoming d :: rest =>
        (m <- recv_flags_step ACK d ;;
         if m then ret rest else _wait_for_ack rest) s
    end.

Definition _finalize_server_connection : M unit :=
  modify (fun s => set_remote_ack_number (sequence_number s) s) ;;;
  modify (fun s => set_remote_sequence_number (ack_number s) s) ;;;
  modify (set_receiver_alive true).

Definition establish_server (rnd : Z) (sched : list MatchEvent)
  : M (list MatchEvent) :=
  _init_server_sequence rnd ;;;
  r1 <- _wait_for_syn sched ;;
  r2 <- _wait_for_ack r1 ;;
  _finalize_server_connection ;;;
  ret r2.

(** The handshake thread: it is over when its target has returned or an
    exception has left it. *)
Definition connection_thread {A} (target : M A) (s : State) : State :=
  match target s with
  | Ok _ s' | Raised _ s' => set_connection_alive false s'
  | Blocked s' | Livelock s' => s'
  end.

(* ================================================================== *)
(** ** Active close: [terminate_client] *)

Fixpoint _stop_receiving_loop (sched : list MatchEvent)
  : M (list MatchEvent) :=
  fun s =>
    if receiver_alive s then
      match sched with
      | [] => Blocked s
      | JoinExpire :: rest => (send_flags FIN ;;; _stop_receiving_loop rest) s
      | Incoming d :: rest => _stop_receiving_loop rest (deliver d s)
      end
    else Ok sched s.

Definition _stop_receiving_thread (sched : list MatchEvent)
  : M (list MatchEvent) :=
  modify (set_stop_receiving true) ;;;
  _stop_receiving_loop sched.

(** The loop of [_wait_for_fin_ack] while the matcher thread is alive.
    Once the matcher has returned, nothing writes [remote_sequence_number]
    or [ack_number] any more: the test
    [remote_sequence_number != ack_number + 1] is settled, and when it
    holds the loop resends FIN without end. *)
Fixpoint fin_ack_loop (sched : list MatchEvent) : M (list MatchEvent) :=
  fun s =>
    match sched with
    | [] => Blocked s
    | JoinExpire :: rest => (send_flags FIN ;;; fin_ack_loop rest) s
    | Incoming d :: rest =>
        (m <- recv_flags_step (Z.lor FIN ACK) d ;;
         if m then
           fun s' =>
             if remote_sequence_number s' =? ack_number s' + 1
             then Ok rest s' else Livelock s'
         else fin_ack_loop rest) s
    end.

Definition _wait_for_fin_ack (sched : list MatchEvent)
  : M (list MatchEvent) :=
  rest <- fin_ack_loop sched ;;
  modify (fun s => set_ack_number (remote_sequence_number s) s) ;;;
  ret rest.

Definition _send_final_client_ack : M unit :=
  modify (fun s => set_sequence_number (sequence_number s + 1) s) ;;;
  for_range 3 (send_flags ACK) ;;;
  sleep timeout_duration.

Definition terminate_client (sched : list MatchEvent)
  : M (list MatchEvent) :=
  r1 <- _stop_receiving_thread sched ;;
  r2 <- _wait_for_fin_ack r1 ;;
  _send_final_client_ack ;;;
  ret r2.

(* ================================================================== *)
(** ** Segments and states used in the statements *)

(** The datagram [send_data] builds from header fields that fit. *)
Definition segment (seq ack flags window : Z) (payload : bytes) : bytes :=
  be_bytes 4 seq ++ be_bytes 4 ack ++ be_bytes 2 flags ++ be_bytes 2 window
  ++ payload.

(** The header fields as [receiving] and [recv_flags] read them. *)
Definition flags_field (d : bytes) : Z := int_from_bytes (pyslice 8 10 d).
Definition ack_field (d : bytes) : Z := int_from_bytes (pyslice 4 8 d).
Definition seq_field (d : bytes) : Z := int_from_bytes (pyslice 0 4 d).

(** The header fields of a state can be encoded. *)
Definition encodable (s : State) : Prop :=
  0 <= sequence_number s < 2 ^ 32 /\
  0 <= ack_number s < 2 ^ 32 /\
  0 <= window_size s < 2 ^ 16.

(** The fields right after [_finalize_server_connection], for the
    initial sequence number [isn] and the peer's [peer]. *)
Definition established (isn peer : Z) : State :=
  mkState initial_window_size isn peer peer isn [] [] false false false false
    SDead true false [].

Definition hello_world : bytes := list_byte_of_string "hello world".
Definition hello : bytes := list_byte_of_string "hello".
Definition hi : bytes := list_byte_of_string "hi".
Definition yo : bytes := list_byte_of_string "yo".

(** The control segment a state would send with [send_flags flags]. *)
Definition control_segment (flags : Z) (s : State) : bytes :=
  segment (sequence_number s) (ack_number s) flags (window_size s) [].

(** How many times the waiting thread got its turn. *)
Fixpoint turns (sched : list MatchEvent) : nat :=
  match sched with
  | [] => O
  | JoinExpire :: rest => S (turns rest)
  | Incoming _ :: rest => turns rest
  end.

(** No datagram of the schedule carries [flags] in its first 12 bytes. *)
Fixpoint unmatched (flags : Z) (sched : list MatchEvent) : Prop :=
  match sched with
  | [] => True
  | JoinExpire :: rest => unmatched flags rest
  | Incoming d :: rest =>
      flags_field (firstn (Z.to_nat HEADER) d) <> flags /\ unmatched flags rest
  end.


(** How an outcome ends. *)
Inductive Kind := Returns | Raises (e : Exn) | Blocks | Spins.

Definition kind {A} (o : Outcome A) : Kind :=
  match o with
  | Ok _ _ => Returns
  | Raised e _ => Raises e
  | Blocked _ => Blocks
  | Livelock _ => Spins
  end.

(** The value an outcome returns, when it returns. *)
Definition returned {A} (o : Outcome A) : option A :=
  match o with
  | Ok a _ => Some a
  | _ => None
  end.

(** The three final ACKs and the linger, as one change of the state. *)
Definition finalized (s : State) : State :=
  set_wire
    (wire s
     ++ repeat (SendTo (segment (sequence_number s + 1) (ack_number s) ACK
                          (window_size s) [])) 3
     ++ [Sleep timeout_duration])
    (set_sequence_number (sequence_number s + 1) s).

(* ================================================================== *)
(** ** Passive close: [terminate_server] *)

(** [close] closes the socket [RST_TIMEOUT] after the termination thread
    was started, whatever that thread is doing; from then on [sendto]
    and [recvfrom] raise [OSError].  The loop of [_send_server_fin_ack]
    and the matcher [recv_flags] both catch it and return.  A schedule
    of the passive close has the events of [MatchEvent] (the call
    succeeds) and the two failing calls. *)
Inductive CloseEvent :=
| Peer (e : MatchEvent)
| SendRaises     (* the loop's turn, [sendto] raising [OSError] *)
| RecvRaises.    (* the matcher's [recvfrom] raising [OSError] *)

(** [send_flags] when [sendto] raises [OSError] and the caller catches
    it: the header is built before [sendto] is called, so a field that
    does not fit raises [OverflowError] all the same. *)
Definition send_flags_OSError (flags : Z) : M unit :=
  fun s =>
    match header (sequence_number s) (ack_number s) flags (window_size s) with
    | Some _ => Ok tt s
    | None => Raised OverflowError s
    end.

(** The loop of [_send_server_fin_ack] once the matcher has returned
    with [remote_sequence_number != ack_number + 1]: nothing writes the
    two fields any more and the join returns at once, so the loop sends
    FIN|ACK turn after turn until [sendto] raises [OSError]; no thread
    reads the socket. *)
Fixpoint server_fin_ack_spin (sched : list CloseEvent)
  : M (list CloseEvent) :=
  fun s =>
    match sched with
    | [] => Livelock s
    | Peer JoinExpire :: rest =>
        (send_flags (Z.lor FIN ACK) ;;; server_fin_ack_spin rest) s
    | SendRaises :: rest =>
        (send_flags_OSError (Z.lor FIN ACK) ;;; ret rest) s
    | Peer (Incoming _) :: rest | RecvRaises :: rest =>
        server_fin_ack_spin rest s
    end.

(** The loop test once the matcher has returned. *)
Definition server_fin_ack_test (rest : list CloseEvent)
  : M (list CloseEvent) :=
  fun s =>
    if remote_sequence_number s =? ack_number s + 1
    then Ok rest s else server_fin_ack_spin rest s.

(** The loop of [_send_server_fin_ack] while the matcher thread (waiting
    for a plain ACK) is alive.  The matcher returns when it has taken a
    plain ACK, or, writing nothing, when its [recvfrom] raises. *)
Fixpoint server_fin_ack_loop (sched : list CloseEvent)
  : M (list CloseEvent) :=
  fun s =>
    match sched with
    | [] => Blocked s
    | Peer JoinExpire :: rest =>
        (send_flags (Z.lor FIN ACK) ;;; server_fin_ack_loop rest) s
    | SendRaises :: rest =>
        (send_flags_OSError (Z.lor FIN ACK) ;;; ret rest) s
    | Peer (Incoming d) :: rest =>
        (m <- recv_flags_step ACK d ;;
         if m then server_fin_ack_test rest
         else server_fin_ack_loop rest) s
    | RecvRaises :: rest => server_fin_ack_test rest s
    end.

Definition _send_server_fin_ack (sched : list CloseEvent)
  : M (list CloseEvent) :=
  modify (fun s => set_sequence_number (sequence_number s + 1) s) ;;;
  server_fin_ack_loop sched.

(** [terminate_server] first joins the sender thread. *)
Definition terminate_server (sched : list CloseEvent)
  : M (list CloseEvent) :=
  fun s =>
    if is_alive (sender s) then Blocked s
    else _send_server_fin_ack sched s.

(* ================================================================== *)
(** ** The role of an endpoint *)

Inductive Role := Server | Client.

(** The choice [__init__] makes between [establish_server] and
    [establish_client], from the local and the remote port. *)
Definition role (local_port remote_port : Z) : Role :=
  if local_port <? remote_port then Server else Client.

(* ================================================================== *)
(** ** More notions used in the statements *)

(** The peer's chunks arriving one by one and in order, each followed by
    an iteration of [recv]: the segment of a chunk carries the offset
    after its last byte; [a] and [w] are the peer's ack and window
    fields. *)
Fixpoint in_order (a w : Z) (ack : Z) (chunks : list bytes)
  : list RecvEvent :=
  match chunks with
  | [] => []
  | c :: cs =>
      Deliver (segment (ack + len c) a 0 w c) :: Wake
      :: in_order a w (ack + len c) cs
  end.

(** Both numbers learnt from the peer fit the four header bytes. *)
Definition peer_numbers_fit (s : State) : Prop :=
  0 <= ack_number s < 2 ^ 32 /\ 0 <= remote_sequence_number s < 2 ^ 32.

(** The client's part of the handshake after its initialisation, and
    the server's. *)
Definition client_after_init (sched : list MatchEvent)
  : M (list MatchEvent) :=
  rest <- _wait_for_syn_ack sched ;;
  _finalize_client_connection ;;;
  ret rest.

Definition server_after_init (sched : list MatchEvent)
  : M (list MatchEvent) :=
  r1 <- _wait_for_syn sched ;;
  r2 <- _wait_for_ack r1 ;;
  _finalize_server_connection ;;;
  ret r2.

(** The state after the flag matcher has taken the datagram [d]. *)
Definition matched_on (d : bytes) (s : State) : State :=
  let h := firstn (Z.to_nat HEADER) d in
  set_remote_sequence_number (seq_field h)
    (set_remote_ack_number (ack_field h) (set_received_data h s)).

(** The state after the same control segment has been sent [n] times. *)
Definition resent (flags : Z) (n : nat) (s : State) : State :=
  set_wire (wire s ++ repeat (SendTo (control_segment flags s)) n) s.

(** A buffer cut into pieces of [MSS] bytes, the last one shorter; the
    fuel bounds the number of pieces. *)
Fixpoint chunks_of (fuel : nat) (data : bytes) : list bytes :=
  match fuel with
  | O => []
  | S f =>
      match data with
      | [] => []
      | _ :: _ =>
          firstn (Z.to_nat MSS) data
          :: chunks_of f (skipn (Z.to_nat MSS) data)
      end
  end.

Definition chunks (data : bytes) : list bytes :=
  chunks_of (length data) data.

(** The data segments that carry the chunks [cs] from offset [seq] on;
    [a] and [w] are the sender's ack and window fields. *)
Fixpoint segments (a w seq : Z) (cs : list bytes) : list bytes :=
  match cs with
  | [] => []
  | c :: cs' => segment (seq + len c) a 0 w c :: segments a w (seq + len c) cs'
  end.

(** Each datagram arrives and is followed by an iteration of [recv]. *)
Definition arrivals (ds : list bytes) : list RecvEvent :=
  flat_map (fun d => [Deliver d; Wake]) ds.

(** Each datagram arrives twice, each arrival followed by an iteration
    of [recv]. *)
Definition arrivals_twice (ds : list bytes) : list RecvEvent :=
  flat_map (fun d => [Deliver d; Wake; Deliver d; Wake]) ds.

(* ================================================================== *)
(** * Properties *)

(** Unfolds the monad of methods. *)
Ltac munfold :=
  unfold sendto, sleep in *; unfold bind, ret, modify, gets, raise in *.

(** Splits an iteration of [recv] into its paths. *)
Ltac recv_paths :=
  unfold recv_iteration, _wait_for_data, _send_single_ack, send_flags;
  munfold; cbn;
  repeat match goal with
         | |- context [header ?a ?b ?c ?d] => destruct (header a b c d); cbn
         | |- context [if ?c then _ else _] => destruct c eqn:?; cbn
         | H : context [header ?a ?b ?c ?d] |- _ =>
             destruct (header a b c d); cbn in H
         | H : context [if ?c then _ else _] |- _ => destruct c eqn:?; cbn in H
         end.

(** ** The codec *)

Lemma len_nonneg (b : bytes) : 0 <= len b.
Proof. unfold len. lia. Qed.

Lemma len_app (a b : bytes) : len (a ++ b) = len a + len b.
Proof. unfold len. rewrite length_app. lia. Qed.

Lemma to_bytes_fits (n : nat) (v : Z) :
  0 <= v < 256 ^ Z.of_nat n -> to_bytes n v = Some (be_bytes n v).
Proof.
  intros [H0 H1]. unfold to_bytes.
  apply Z.leb_le in H0. apply Z.ltb_lt in H1.
  now rewrite H0, H1.
Qed.

Lemma to_bytes_overflow (n : nat) (v : Z) :
  256 ^ Z.of_nat n <= v -> to_bytes n v = None.
Proof.
  intros H. unfold to_bytes.
  replace (v <? 256 ^ Z.of_nat n) with false.
  - now rewrite andb_false_r.
  - symmetry. apply Z.ltb_ge. exact H.
Qed.

Lemma to_bytes_negative (n : nat) (v : Z) : v < 0 -> to_bytes n v = None.
Proof.
  intros H. unfold to_bytes.
  replace (0 <=? v) with false; [reflexivity|].
  symmetry. apply Z.leb_gt. exact H.
Qed.

Lemma header_fits (seq ack flags window : Z) :
  0 <= seq < 2 ^ 32 -> 0 <= ack < 2 ^ 32 ->
  0 <= flags < 2 ^ 16 -> 0 <= window < 2 ^ 16 ->
  header seq ack flags window = Some (segment seq ack flags window []).
Proof.
  intros Hs Ha Hf Hw. unfold header, segment.
  rewrite (to_bytes_fits 4 seq), (to_bytes_fits 4 ack),
    (to_bytes_fits 2 flags), (to_bytes_fits 2 window);
    try (change (256 ^ Z.of_nat 4) with (2 ^ 32));
    try (change (256 ^ Z.of_nat 2) with (2 ^ 16)); try assumption.
  now rewrite app_nil_r.
Qed.

Lemma header_seq_overflow (seq ack flags window : Z) :
  2 ^ 32 <= seq -> header seq ack flags window = None.
Proof.
  intros H. unfold header. now rewrite (to_bytes_overflow 4 seq H).
Qed.

Lemma segment_payload (seq ack flags window : Z) (payload : bytes) :
  segment seq ack flags window [] ++ payload
  = segment seq ack flags window payload.
Proof.
  unfold segment. rewrite app_nil_r. now rewrite <- !app_assoc.
Qed.

Lemma send_flags_fits (flags : Z) (s : State) :
  encodable s -> 0 <= flags < 2 ^ 16 ->
  send_flags flags s
  = Ok tt (set_wire (wire s ++ [SendTo (control_segment flags s)]) s).
Proof.
  intros (Hs & Ha & Hw) Hf. unfold send_flags, control_segment.
  now rewrite header_fits.
Qed.

Lemma send_data_fits (data : bytes) (s : State) :
  encodable s ->
  send_data data s
  = Ok tt (set_wire (wire s ++ [SendTo (segment (sequence_number s)
             (ack_number s) 0 (window_size s) data)]) s).
Proof.
  intros (Hs & Ha & Hw). unfold send_data.
  rewrite header_fits; try assumption; [|split; [lia|reflexivity]].
  unfold sendto, modify. now rewrite segment_payload.
Qed.

(** ** [recv] *)

Lemma encodable_set_wire (w : list Effect) (s : State) :
  encodable s -> encodable (set_wire w s).
Proof. intros H. exact H. Qed.

Lemma ACK_fits : 0 <= ACK < 2 ^ 16.
Proof. unfold ACK. split; [lia|reflexivity]. Qed.

Lemma FIN_fits : 0 <= FIN < 2 ^ 16.
Proof. unfold FIN. split; [lia|reflexivity]. Qed.

Lemma send_final_acks_fits (s : State) :
  encodable s ->
  _send_final_acks s
  = Ok tt (set_wire (wire s ++ repeat (SendTo (control_segment ACK s)) 3) s).
Proof.
  intros He. unfold _send_final_acks. cbn [for_range]. munfold.
  rewrite (send_flags_fits ACK s He ACK_fits).
  rewrite send_flags_fits by (auto using encodable_set_wire, ACK_fits).
  rewrite send_flags_fits by (auto using encodable_set_wire, ACK_fits).
  cbn. unfold control_segment. cbn. now rewrite <- !app_assoc.
Qed.

(** [recv] never returns fewer bytes than it was asked for. *)
Lemma recv_loop_at_least (n : Z) (sched : list RecvEvent) :
  forall data not_ack s r s',
    recv_loop n sched data not_ack s = Ok r s' -> n <= len (fst r).
Proof.
  induction sched as [|e rest IH]; intros data not_ack s r s' H;
    cbn [recv_loop] in H; destruct (len data <? n) eqn:Hlt.
  - discriminate.
  - munfold. destruct (_send_final_acks s); inversion H; subst; cbn.
    apply Z.ltb_ge in Hlt. exact Hlt.
  - destruct e.
    + eapply IH. exact H.
    + unfold bind in H.
      destruct (recv_iteration data not_ack s) as [[d' na'] s1| | |];
        try discriminate.
      eapply IH. exact H.
  - munfold. destruct (_send_final_acks s); inversion H; subst; cbn.
    apply Z.ltb_ge in Hlt. exact Hlt.
Qed.

Lemma recv_at_least (n : Z) (sched : list RecvEvent) (s s' : State)
  (r : bytes * list RecvEvent) :
  recv n sched s = Ok r s' -> n <= len (fst r).
Proof.
  unfold recv. destruct (connection_alive s); [discriminate|].
  apply recv_loop_at_least.
Qed.

(** A segment that lies behind the expected offset: the iteration sends
    nothing and keeps the counter (while it is below the window). *)
Lemma recv_iteration_behind (data : bytes) (not_ack : Z) (s : State) :
  data_received_event s = true ->
  remote_sequence_number s < expected_seq s ->
  not_ack < window_size s ->
  recv_iteration data not_ack s
  = Ok (data, not_ack) (set_data_received_event false s).
Proof.
  intros Hev Hlt Hna. unfold recv_iteration, _wait_for_data. munfold.
  rewrite Hev. cbn.
  change (expected_seq (set_data_received_event false s))
    with (expected_seq s).
  destruct (expected_seq s =? remote_sequence_number s) eqn:E1.
  { apply Z.eqb_eq in E1. lia. }
  destruct (expected_seq s <=? remote_sequence_number s) eqn:E2.
  { apply Z.leb_le in E2. lia. }
  cbn. destruct (not_ack >=? window_size s) eqn:E3.
  { apply Z.geb_le in E3. lia. }
  reflexivity.
Qed.

(** A segment that lies ahead of the expected offset: the iteration
    sends an ACK for the current [ack_number] and resets the counter. *)
Lemma recv_iteration_ahead (data : bytes) (not_ack : Z) (s : State) :
  data_received_event s = true ->
  expected_seq s < remote_sequence_number s ->
  encodable s -> 0 < window_size s ->
  recv_iteration data not_ack s
  = Ok (data, 0)
       (set_wire (wire s ++ [SendTo (control_segment ACK s)])
                 (set_data_received_event false s)).
Proof.
  intros Hev Hlt He Hw. unfold recv_iteration, _wait_for_data. munfold.
  rewrite Hev. cbn.
  change (expected_seq (set_data_received_event false s))
    with (expected_seq s).
  destruct (expected_seq s =? remote_sequence_number s) eqn:E1.
  { apply Z.eqb_eq in E1. lia. }
  destruct (expected_seq s <=? remote_sequence_number s) eqn:E2.
  2:{ apply Z.leb_gt in E2. lia. }
  unfold _send_single_ack. munfold.
  rewrite send_flags_fits by (auto using ACK_fits).
  cbn. destruct (0 >=? window_size s) eqn:E3.
  { apply Z.geb_le in E3. lia. }
  reflexivity.
Qed.

(** C1, at the failing input: the peer's segment carries the 11 bytes of
    "hello world" at the expected offset and the caller asks for 5 bytes;
    [recv(5)] returns all 11 bytes, more than the 5 its docstring
    promises. *)
Theorem recv_returns_more_than_asked :
  exists s',
    recv 5 [Deliver (segment 111 7 0 1250 hello_world); Wake]
      (established 7 100)
    = Ok (hello_world, []) s'
    /\ len hello_world = 11.
Proof. eexists. split; vm_compute; reflexivity. Qed.

(** C4, at the failing input: with bytes up to offset 100 accepted, a
    segment ending at offset 100 is a duplicate; the iteration that
    consumes it sends no ACK and leaves the unacked counter at 5. *)
Theorem recv_duplicate_sends_no_ack :
  let s := deliver (segment 100 7 0 1250 hello) (established 7 100) in
  data_received_event s = true /\
  remote_sequence_number s = 100 /\ expected_seq s = 105 /\
  recv_iteration [] 5 s = Ok ([], 5) (set_data_received_event false s) /\
  wire (set_data_received_event false s) = wire (established 7 100).
Proof. repeat split; vm_compute; reflexivity. Qed.

(** ** Connection establishment *)

(** [established] is what the handshake thread leaves when its last
    step runs on the fields set by the steps before it. *)
Lemma established_after_finalize (isn peer : Z) :
  connection_thread _finalize_server_connection
    (set_ack_number peer (set_sequence_number isn (init_state true)))
  = established isn peer.
Proof. reflexivity. Qed.

(** C5, on every input: the module never imports [random], so the first
    step of either initialisation raises [NameError] and the sequence
    number stays as it was. *)
Theorem init_sequence_raises_NameError (rnd : Z) (s : State) :
  _init_client_sequence rnd s = Raised NameError s /\
  _init_server_sequence rnd s = Raised NameError s.
Proof. split; reflexivity. Qed.

(** The handshake thread ends there, on either side and whatever comes
    in: no segment is sent and the fields keep their values. *)
Lemma establish_raises_NameError (rnd : Z) (sched : list MatchEvent)
  (s : State) :
  establish_client rnd sched s = Raised NameError s /\
  establish_server rnd sched s = Raised NameError s /\
  connection_thread (establish_client rnd sched) s
  = set_connection_alive false s.
Proof. repeat split. Qed.

(** ** Slices *)

Lemma pyslice_beyond (a b : Z) (l : bytes) :
  len l <= a -> pyslice a b l = [].
Proof.
  intros H. unfold pyslice, norm_index.
  pose proof (len_nonneg l) as Hl.
  assert (Ha : (a <? 0) = false) by (apply Z.ltb_ge; lia).
  rewrite Ha.
  replace (Z.max 0 (Z.min (len l) a)) with (len l) by lia.
  rewrite skipn_all2; [now rewrite firstn_nil|].
  unfold len. rewrite Nat2Z.id. apply Nat.le_refl.
Qed.

Lemma pyslice_prefix (k : Z) (l : bytes) :
  0 <= k <= len l -> pyslice 0 k l = firstn (Z.to_nat k) l.
Proof.
  intros [H0 Hk]. unfold pyslice, norm_index.
  destruct (k <? 0) eqn:E; [apply Z.ltb_lt in E; lia|].
  cbn [Z.ltb Z.compare].
  replace (Z.max 0 (Z.min (len l) 0)) with 0 by lia.
  replace (Z.max 0 (Z.min (len l) k)) with k by lia.
  now rewrite Z.sub_0_r.
Qed.

(** ** Reading back what was encoded *)

Lemma byte_to_of_Z (z : Z) : byte_to_Z (byte_of_Z z) = z mod 256.
Proof.
  unfold byte_to_Z, byte_of_Z.
  assert (Hr : 0 <= z mod 256 < 256) by (apply Z.mod_pos_bound; lia).
  destruct (Byte.of_N (Z.to_N (z mod 256))) as [b|] eqn:E.
  - apply Byte.to_of_N in E. rewrite E. apply Z2N.id. lia.
  - apply Byte.of_N_None_iff in E. lia.
Qed.

Lemma int_from_bytes_snoc (l : bytes) (b : byte) :
  int_from_bytes (l ++ [b]) = int_from_bytes l * 256 + byte_to_Z b.
Proof. unfold int_from_bytes. now rewrite fold_left_app. Qed.

Lemma be_bytes_length (n : nat) : forall v, length (be_bytes n v) = n.
Proof.
  induction n as [|n IH]; intros v; cbn [be_bytes]; [reflexivity|].
  rewrite length_app, IH. cbn. lia.
Qed.

Lemma int_from_be_bytes (n : nat) :
  forall v, 0 <= v < 256 ^ Z.of_nat n -> int_from_bytes (be_bytes n v) = v.
Proof.
  induction n as [|n IH]; intros v Hv.
  - cbn in *. lia.
  - cbn [be_bytes]. rewrite int_from_bytes_snoc, byte_to_of_Z.
    rewrite IH.
    + rewrite Z.mod_mod by lia. symmetry. rewrite Z.mul_comm.
      apply Z.div_mod. lia.
    + rewrite Nat2Z.inj_succ, Z.pow_succ_r in Hv by lia.
      split; [apply Z.div_pos; lia|].
      apply Z.div_lt_upper_bound; lia.
Qed.

Lemma pyslice_middle (a b rest : bytes) :
  pyslice (len a) (len a + len b) (a ++ b ++ rest) = b.
Proof.
  unfold pyslice, norm_index.
  pose proof (len_nonneg a). pose proof (len_nonneg b).
  pose proof (len_nonneg rest).
  rewrite !len_app.
  destruct (len a <? 0) eqn:E1; [apply Z.ltb_lt in E1; lia|].
  destruct (len a + len b <? 0) eqn:E2; [apply Z.ltb_lt in E2; lia|].
  replace (Z.max 0 (Z.min (len a + (len b + len rest)) (len a)))
    with (len a) by lia.
  replace (Z.max 0 (Z.min (len a + (len b + len rest)) (len a + len b)))
    with (len a + len b) by lia.
  replace (len a + len b - len a) with (len b) by lia.
  unfold len. rewrite !Nat2Z.id.
  rewrite skipn_app, skipn_all, Nat.sub_diag. cbn [skipn app].
  rewrite firstn_app, firstn_all, Nat.sub_diag. cbn [firstn].
  apply app_nil_r.
Qed.

Lemma segment_fields (seq ack flags window : Z) (payload : bytes) :
  0 <= seq < 2 ^ 32 -> 0 <= ack < 2 ^ 32 -> 0 <= flags < 2 ^ 16 ->
  seq_field (segment seq ack flags window payload) = seq /\
  ack_field (segment seq ack flags window payload) = ack /\
  flags_field (segment seq ack flags window payload) = flags /\
  pyslice_from HEADER (segment seq ack flags window payload) = payload.
Proof.
  intros Hs Ha Hf. unfold seq_field, ack_field, flags_field, segment.
  set (a := be_bytes 4 seq). set (b := be_bytes 4 ack).
  set (c := be_bytes 2 flags). set (d := be_bytes 2 window).
  assert (La : len a = 4) by (unfold len, a; now rewrite be_bytes_length).
  assert (Lb : len b = 4) by (unfold len, b; now rewrite be_bytes_length).
  assert (Lc : len c = 2) by (unfold len, c; now rewrite be_bytes_length).
  assert (Ld : len d = 2) by (unfold len, d; now rewrite be_bytes_length).
  repeat split.
  - change (pyslice 0 4 (a ++ b ++ c ++ d ++ payload))
      with (pyslice 0 4 ([] ++ a ++ b ++ c ++ d ++ payload)).
    replace 0 with (len []) at 1 by reflexivity.
    replace 4 with (len [] + len a) by (rewrite La; reflexivity).
    rewrite pyslice_middle. now apply (int_from_be_bytes 4).
  - replace 4 with (len a) at 1 by exact La.
    replace 8 with (len a + len b) by lia.
    rewrite pyslice_middle. now apply (int_from_be_bytes 4).
  - rewrite (app_assoc a b).
    replace 8 with (len (a ++ b)) at 1 by (rewrite len_app; lia).
    replace 10 with (len (a ++ b) + len c) by (rewrite len_app; lia).
    rewrite pyslice_middle. now apply (int_from_be_bytes 2).
  - unfold pyslice_from.
    replace (a ++ b ++ c ++ d ++ payload)
      with ((a ++ b ++ c ++ d) ++ payload ++ [])
      by (now rewrite app_nil_r, <- !app_assoc).
    replace HEADER with (len (a ++ b ++ c ++ d))
      by (rewrite !len_app; unfold HEADER; lia).
    replace (len ((a ++ b ++ c ++ d) ++ payload ++ []))
      with (len (a ++ b ++ c ++ d) + len payload)
      by (rewrite !len_app; change (len (@nil byte)) with 0; lia).
    apply pyslice_middle.
Qed.

(** A control segment reads back as the fields it was built from. *)
Lemma control_segment_fields (flags : Z) (s : State) :
  encodable s -> 0 <= flags < 2 ^ 16 ->
  seq_field (control_segment flags s) = sequence_number s /\
  ack_field (control_segment flags s) = ack_number s /\
  flags_field (control_segment flags s) = flags.
Proof.
  intros (Hs & Ha & _) Hf. unfold control_segment.
  destruct (segment_fields (sequence_number s) (ack_number s) flags
              (window_size s) [] Hs Ha Hf) as (H1 & H2 & H3 & _).
  repeat split; assumption.
Qed.

(** ** The receive-dispatch thread *)

Lemma receiving_body_ack (recv : bytes) (s : State) :
  flags_field recv = ACK ->
  receiving_body recv s
  = Ok true (set_ack_received_event true
               (set_remote_ack_number
                  (Z.max (remote_ack_number s) (ack_field recv)) s)).
Proof.
  intros H. unfold receiving_body. fold (flags_field recv). rewrite H.
  reflexivity.
Qed.

Lemma receiving_body_data (recv : bytes) (s : State) :
  flags_field recv = 0 ->
  receiving_body recv s
  = Ok true (set_data_received_event true
               (set_remote_sequence_number (seq_field recv)
                  (set_received_data recv s))).
Proof.
  intros H. unfold receiving_body. fold (flags_field recv). rewrite H.
  reflexivity.
Qed.

(** The body never raises, whatever the datagram. *)
Lemma receiving_body_total (recv : bytes) (s : State) :
  exists b s', receiving_body recv s = Ok b s'.
Proof.
  unfold receiving_body.
  destruct (_ =? ACK); [|destruct (_ =? 0); [|destruct (_ =? FIN)]];
    eexists; eexists; reflexivity.
Qed.

Lemma receiving_body_remote_ack (recv : bytes) (s : State) :
  remote_ack_number s <= remote_ack_number (final_state (receiving_body recv s)).
Proof.
  unfold receiving_body.
  destruct (_ =? ACK); [|destruct (_ =? 0); [|destruct (_ =? FIN)]];
    cbn; lia.
Qed.

Lemma deliver_remote_ack (d : bytes) (s : State) :
  remote_ack_number s <= remote_ack_number (deliver d s).
Proof.
  unfold deliver. destruct (receiver_alive s); [|lia].
  pose proof (receiving_body_remote_ack (firstn (Z.to_nat MTU) d) s) as H.
  destruct (receiving_body _ s) as [[|] s'| | |]; cbn in *;
    try destruct (stop_receiving s'); cbn; exact H.
Qed.

Lemma receiving_app (ds1 ds2 : list bytes) (s : State) :
  receiving (ds1 ++ ds2) s = receiving ds2 (receiving ds1 s).
Proof. unfold receiving. apply fold_left_app. Qed.

Lemma receiving_remote_ack (ds : list bytes) :
  forall s, remote_ack_number s <= remote_ack_number (receiving ds s).
Proof.
  induction ds as [|d ds IH]; intros s; cbn.
  - lia.
  - etransitivity; [apply (deliver_remote_ack d)|apply IH].
Qed.

Lemma deliver_ack (d : bytes) (s : State) :
  receiver_alive s = true -> stop_receiving s = false ->
  flags_field (firstn (Z.to_nat MTU) d) = ACK ->
  deliver d s
  = set_ack_received_event true
      (set_remote_ack_number
         (Z.max (remote_ack_number s) (ack_field (firstn (Z.to_nat MTU) d))) s).
Proof.
  intros Ha Hs Hf. unfold deliver. rewrite Ha.
  rewrite receiving_body_ack by exact Hf. cbn. now rewrite Hs.
Qed.

Lemma deliver_data (d : bytes) (s : State) :
  receiver_alive s = true -> stop_receiving s = false ->
  flags_field (firstn (Z.to_nat MTU) d) = 0 ->
  deliver d s
  = set_data_received_event true
      (set_remote_sequence_number (seq_field (firstn (Z.to_nat MTU) d))
         (set_received_data (firstn (Z.to_nat MTU) d) s)).
Proof.
  intros Ha Hs Hf. unfold deliver. rewrite Ha.
  rewrite receiving_body_data by exact Hf. cbn. now rewrite Hs.
Qed.

Lemma receiving_acks_max (ds : list bytes) :
  forall s,
    receiver_alive s = true -> stop_receiving s = false ->
    Forall (fun d => flags_field (firstn (Z.to_nat MTU) d) = ACK) ds ->
    remote_ack_number (receiving ds s)
    = fold_left Z.max
        (map (fun d => ack_field (firstn (Z.to_nat MTU) d)) ds)
        (remote_ack_number s).
Proof.
  induction ds as [|d ds IH]; intros s Ha Hs Hall; [reflexivity|].
  inversion Hall as [|? ? Hd Hds]; subst.
  cbn [receiving fold_left map]. fold (receiving ds (deliver d s)).
  rewrite (deliver_ack d s Ha Hs Hd).
  rewrite IH; [reflexivity|exact Ha|exact Hs|exact Hds].
Qed.

(** C3: a segment whose flags are exactly ACK sets [remote_ack_number]
    to the maximum of its old value and the decoded ack and signals the
    ack event; over any list of ACK segments, in any order and with any
    repetition, [remote_ack_number] never decreases from one prefix of
    the list to a longer one, and ends as the maximum of all. *)
Theorem ack_updates_are_monotone (ds : list bytes) (s : State) :
  Forall (fun d => flags_field (firstn (Z.to_nat MTU) d) = ACK) ds ->
  receiver_alive s = true -> stop_receiving s = false ->
  (forall recv s0, flags_field recv = ACK ->
     exists s1, receiving_body recv s0 = Ok true s1 /\
       remote_ack_number s1 = Z.max (remote_ack_number s0) (ack_field recv) /\
       ack_received_event s1 = true) /\
  (forall ds1 ds2, ds = ds1 ++ ds2 ->
     remote_ack_number s <= remote_ack_number (receiving ds1 s) /\
     remote_ack_number (receiving ds1 s) <= remote_ack_number (receiving ds s)) /\
  remote_ack_number (receiving ds s)
  = fold_left Z.max (map (fun d => ack_field (firstn (Z.to_nat MTU) d)) ds)
      (remote_ack_number s).
Proof.
  intros Hall Ha Hs. split; [|split].
  - intros recv s0 Hf. eexists. split; [apply receiving_body_ack, Hf|].
    split; reflexivity.
  - intros ds1 ds2 ->. split; [apply receiving_remote_ack|].
    rewrite receiving_app. apply receiving_remote_ack.
  - now apply receiving_acks_max.
Qed.

Lemma ack_updates_are_monotone_witness :
  remote_ack_number
    (receiving [segment 0 30 ACK 1250 []; segment 0 10 ACK 1250 [];
                segment 0 30 ACK 1250 []; segment 0 20 ACK 1250 []]
       (established 7 100))
  = 30.
Proof.
  destruct (ack_updates_are_monotone
              [segment 0 30 ACK 1250 []; segment 0 10 ACK 1250 [];
               segment 0 30 ACK 1250 []; segment 0 20 ACK 1250 []]
              (established 7 100)) as (_ & _ & H).
  - repeat constructor.
  - reflexivity.
  - reflexivity.
  - rewrite H. reflexivity.
Defined.

(** C8, as stated, fails: the empty datagram does not make the dispatch
    loop fail; it is stored as a data segment. *)
Lemma short_datagram_does_not_fail :
  ~ (forall recv s, len recv < 12 ->
       exists e s', receiving_body recv s = Raised (A:=bool) e s').
Proof.
  intros H. destruct (H [] (established 7 100)) as (e & s' & He).
  - reflexivity.
  - discriminate He.
Qed.

(** C8, amended: a datagram shorter than 12 bytes never makes decoding
    fail, neither in the dispatch loop nor in [recv_flags]; the header
    fields are read by slicing, and a datagram of at most 8 bytes reads
    as flags 0 and is stored as a data segment. *)
Theorem short_datagram_is_dispatched (recv : bytes) (s : State) :
  len recv < 12 ->
  (exists b s', receiving_body recv s = Ok b s') /\
  (forall flags, exists b s', recv_flags_step flags recv s = Ok b s') /\
  (len recv <= 8 ->
     flags_field recv = 0 /\
     receiving_body recv s
     = Ok true (set_data_received_event true
                  (set_remote_sequence_number (seq_field recv)
                     (set_received_data recv s)))).
Proof.
  intros Hlen. split; [apply receiving_body_total|]. split.
  - intros flags. unfold recv_flags_step. munfold. cbn.
    destruct (_ =? flags); eexists; eexists; reflexivity.
  - intros H8.
    assert (Hf : flags_field recv = 0).
    { unfold flags_field. now rewrite pyslice_beyond. }
    split; [exact Hf|]. now apply receiving_body_data.
Qed.

Lemma short_datagram_is_dispatched_witness :
  receiving_body [x01; x02] (established 7 100)
  = Ok true (set_data_received_event true
               (set_remote_sequence_number 258
                  (set_received_data [x01; x02] (established 7 100)))).
Proof.
  destruct (short_datagram_is_dispatched [x01; x02] (established 7 100))
    as (_ & _ & H).
  - reflexivity.
  - destruct H as [_ H]; [discriminate|]. exact H.
Defined.

(** ** The iteration of [recv] on a data segment *)

(** What an iteration never touches. *)
Lemma recv_iteration_frame (data : bytes) (not_ack : Z) (s : State) :
  let s' := final_state (recv_iteration data not_ack s) in
  received_data s' = received_data s /\
  remote_sequence_number s' = remote_sequence_number s /\
  receiver_alive s' = receiver_alive s /\
  stop_receiving s' = stop_receiving s.
Proof. recv_paths; repeat split. Qed.

(** The iteration on a segment out of place: [ack_number] stays, also
    when sending the ACK raises. *)
Lemma recv_iteration_mismatch_ack (data : bytes) (not_ack : Z) (s : State) :
  data_received_event s = true ->
  expected_seq s <> remote_sequence_number s ->
  ack_number (final_state (recv_iteration data not_ack s)) = ack_number s.
Proof.
  intros Hev Hne.
  assert (E : (expected_seq (set_data_received_event false s)
               =? remote_sequence_number s) = false)
    by (apply Z.eqb_neq; exact Hne).
  unfold recv_iteration, _wait_for_data. munfold. rewrite Hev. cbn.
  rewrite E.
  unfold _send_single_ack, send_flags. munfold. cbn.
  repeat match goal with
         | |- context [header ?a ?b ?c ?d] => destruct (header a b c d); cbn
         | |- context [if ?c then _ else _] => destruct c eqn:?; cbn
         end; reflexivity.
Qed.

Lemma recv_iteration_mismatch_data (data : bytes) (not_ack : Z) (s : State)
  (r : bytes * Z) (s' : State) :
  data_received_event s = true ->
  expected_seq s <> remote_sequence_number s ->
  recv_iteration data not_ack s = Ok r s' ->
  fst r = data.
Proof.
  intros Hev Hne.
  assert (E : (expected_seq (set_data_received_event false s)
               =? remote_sequence_number s) = false)
    by (apply Z.eqb_neq; exact Hne).
  unfold recv_iteration, _wait_for_data. munfold. rewrite Hev. cbn.
  rewrite E.
  unfold _send_single_ack, send_flags. munfold. cbn.
  repeat match goal with
         | |- context [header ?a ?b ?c ?d] => destruct (header a b c d); cbn
         | |- context [if ?c then _ else _] => destruct c eqn:?; cbn
         end; intros H; inversion H; reflexivity.
Qed.

(** The iteration on a segment in place: the payload is appended and
    [ack_number] moves to the segment's sequence number. *)
Lemma recv_iteration_match (data : bytes) (not_ack : Z) (s : State)
  (r : bytes * Z) (s' : State) :
  data_received_event s = true ->
  expected_seq s = remote_sequence_number s ->
  recv_iteration data not_ack s = Ok r s' ->
  fst r = data ++ pyslice_from HEADER (received_data s) /\
  ack_number s' = remote_sequence_number s.
Proof.
  intros Hev Heq.
  assert (E : (expected_seq (set_data_received_event false s)
               =? remote_sequence_number s) = true)
    by (apply Z.eqb_eq; exact Heq).
  unfold recv_iteration, _wait_for_data. munfold. rewrite Hev. cbn.
  rewrite E.
  unfold _send_single_ack, send_flags. munfold. cbn.
  repeat match goal with
         | |- context [header ?a ?b ?c ?d] => destruct (header a b c d); cbn
         | |- context [if ?c then _ else _] => destruct c eqn:?; cbn
         end; intros H; inversion H; split; reflexivity.
Qed.

Lemma expected_seq_deliver (d : bytes) (s : State) :
  receiver_alive s = true -> stop_receiving s = false ->
  flags_field (firstn (Z.to_nat MTU) d) = 0 ->
  expected_seq (deliver d s)
  = ack_number s + len (firstn (Z.to_nat MTU) d) - HEADER /\
  remote_sequence_number (deliver d s) = seq_field (firstn (Z.to_nat MTU) d) /\
  received_data (deliver d s) = firstn (Z.to_nat MTU) d /\
  data_received_event (deliver d s) = true /\
  ack_number (deliver d s) = ack_number s.
Proof.
  intros Ha Hs Hf. rewrite (deliver_data d s Ha Hs Hf).
  repeat split.
Qed.

(** C2: an iteration of [recv] on a data segment whose sequence number
    is not the expected offset leaves [ack_number] and the assembled
    bytes as they were; and when the receive thread hands the same data
    segment over twice, each time followed by an iteration, the second
    iteration changes neither, so that the payload of a segment in place
    is in the output once. *)
Theorem recv_out_of_place_is_ignored :
  (forall data not_ack s,
     data_received_event s = true ->
     expected_seq s <> remote_sequence_number s ->
     ack_number (final_state (recv_iteration data not_ack s)) = ack_number s /\
     (forall r s', recv_iteration data not_ack s = Ok r s' -> fst r = data)) /\
  (forall d data not_ack s r1 s1 r2 s2,
     receiver_alive s = true -> stop_receiving s = false ->
     flags_field (firstn (Z.to_nat MTU) d) = 0 ->
     recv_iteration data not_ack (deliver d s) = Ok r1 s1 ->
     recv_iteration (fst r1) (snd r1) (deliver d s1) = Ok r2 s2 ->
     fst r2 = fst r1 /\ ack_number s2 = ack_number s1 /\
     (expected_seq (deliver d s) = remote_sequence_number (deliver d s) ->
      fst r2 = data ++ pyslice_from HEADER (firstn (Z.to_nat MTU) d))).
Proof.
  split.
  - intros data not_ack s Hev Hne. split.
    + now apply recv_iteration_mismatch_ack.
    + intros r s' H. eapply recv_iteration_mismatch_data; eassumption.
  - intros d data not_ack s r1 s1 r2 s2 Ha Hs Hf H1 H2.
    set (d' := firstn (Z.to_nat MTU) d) in *.
    destruct (expected_seq_deliver d s Ha Hs Hf)
      as (He0 & Hr0 & Hd0 & Hev0 & Hack0).
    fold d' in He0, Hr0, Hd0.
    pose proof (recv_iteration_frame data not_ack (deliver d s)) as Hfr.
    rewrite H1 in Hfr. cbn in Hfr. destruct Hfr as (_ & _ & Ha1 & Hs1).
    rewrite (deliver_data d s Ha Hs Hf) in Ha1, Hs1. cbn in Ha1, Hs1.
    rewrite Ha in Ha1. rewrite Hs in Hs1.
    destruct (expected_seq_deliver d s1 Ha1 Hs1 Hf)
      as (He1 & Hr1 & Hd1 & Hev1 & Hack1).
    fold d' in He1, Hr1, Hd1.
    destruct (Z.eq_dec (expected_seq (deliver d s))
                (remote_sequence_number (deliver d s))) as [Heq|Hne].
    + (* in place the first time *)
      destruct (recv_iteration_match _ _ _ _ _ Hev0 Heq H1) as [Hdata1 Hack1'].
      rewrite Hd0 in Hdata1.
      destruct (Z.eq_dec (expected_seq (deliver d s1))
                  (remote_sequence_number (deliver d s1))) as [Heq2|Hne2].
      * (* in place again: the header alone, nothing to append *)
        destruct (recv_iteration_match _ _ _ _ _ Hev1 Heq2 H2)
          as [Hdata2 Hack2].
        assert (Hlen : len d' = HEADER).
        { rewrite He1, Hr1, Hack1', Hr0 in Heq2. lia. }
        assert (Hnil : pyslice_from HEADER d' = []).
        { unfold pyslice_from. apply pyslice_beyond. lia. }
        rewrite Hd1, Hnil, app_nil_r in Hdata2.
        split; [exact Hdata2|]. split.
        -- rewrite Hack2, Hr1, Hack1', Hr0. reflexivity.
        -- intros _. rewrite Hdata2. exact Hdata1.
      * pose proof (recv_iteration_mismatch_ack (fst r1) (snd r1) _ Hev1 Hne2)
          as Hack2.
        rewrite H2 in Hack2. cbn in Hack2.
        pose proof (recv_iteration_mismatch_data _ _ _ _ _ Hev1 Hne2 H2)
          as Hdata2.
        split; [exact Hdata2|]. split.
        -- rewrite Hack2. exact Hack1.
        -- intros _. rewrite Hdata2. exact Hdata1.
    + (* out of place the first time: the same happens again *)
      pose proof (recv_iteration_mismatch_ack data not_ack _ Hev0 Hne)
        as Hack1'.
      rewrite H1 in Hack1'. cbn in Hack1'.
      assert (Hne2 : expected_seq (deliver d s1)
                     <> remote_sequence_number (deliver d s1)).
      { rewrite He1, Hr1, Hack1', Hack0. rewrite He0, Hr0 in Hne. exact Hne. }
      pose proof (recv_iteration_mismatch_ack (fst r1) (snd r1) _ Hev1 Hne2)
        as Hack2.
      rewrite H2 in Hack2. cbn in Hack2.
      pose proof (recv_iteration_mismatch_data _ _ _ _ _ Hev1 Hne2 H2)
        as Hdata2.
      split; [exact Hdata2|]. split.
      * rewrite Hack2. exact Hack1.
      * intros Heq. contradiction.
Qed.

Lemma recv_out_of_place_is_ignored_witness :
  exists r1 s1 r2 s2,
    recv_iteration [] 0
      (deliver (segment 111 7 0 1250 hello_world) (established 7 100))
    = Ok r1 s1 /\
    recv_iteration (fst r1) (snd r1)
      (deliver (segment 111 7 0 1250 hello_world) s1)
    = Ok r2 s2 /\
    fst r2 = hello_world /\ ack_number s2 = 111.
Proof.
  destruct recv_out_of_place_is_ignored as [_ H].
  do 4 eexists. split; [vm_compute; reflexivity|].
  split; [vm_compute; reflexivity|].
  edestruct (H (segment 111 7 0 1250 hello_world) [] 0 (established 7 100))
    as (Hd & Hack & Hdata);
    [reflexivity|reflexivity|vm_compute; reflexivity
    |vm_compute; reflexivity|vm_compute; reflexivity|].
  split; [rewrite Hdata by (vm_compute; reflexivity)|]; vm_compute; reflexivity.
Defined.

(** ** The sender *)

(** The quantum that transmits: the sender is at the inner loop, the
    buffer is not yet acknowledged and the window is open. *)
Lemma sender_step_transmit (s : State) (start : Z) (data : bytes) :
  sender s = SInner start data ->
  remote_ack_number s < start + len data ->
  sequence_number s < start + len data ->
  sequence_number s < remote_ack_number s + window_size s ->
  sender_step s
  = let k := send_bytes_of start data s in
    let s1 := set_sequence_number (sequence_number s + k) s in
    match send_data (pyslice (sequence_number s + k - start - k)
                             (sequence_number s + k - start) data) s1 with
    | Ok _ s2 => s2
    | Raised e s2 => set_sender (SCrashed e) s2
    | Blocked s2 | Livelock s2 => s2
    end.
Proof.
  intros Hpc H1 H2 H3. unfold sender_step. rewrite Hpc.
  apply Z.ltb_lt in H1, H2, H3. rewrite H1, H2, H3. reflexivity.
Qed.

(** A dead sender is started again by [send]: after the call and two
    quanta the new thread stands at the inner loop with the buffer. *)
Lemma send_restarts_sender (payload : bytes) (s : State) :
  is_alive (sender s) = false ->
  connection_alive s = false ->
  send_queue s = [] ->
  send payload s = Ok (len payload)
                      (set_sender SStart (set_send_queue [payload] s)) /\
  run [AppSend payload; SenderRun; SenderRun] s
  = set_sender (SInner (sequence_number s) payload) s.
Proof.
  intros Hd Hc Hq. destruct s as [w sq a rs ra rd q st de ae ca pc rc ts wr].
  cbn in Hd, Hc, Hq. subst ca q.
  unfold send, run. munfold. cbn.
  destruct pc; try discriminate Hd; cbn; split; reflexivity.
Qed.

Lemma run_app (evs1 evs2 : list SysEvent) (s : State) :
  run (evs1 ++ evs2) s = run evs2 (run evs1 s).
Proof. unfold run. apply fold_left_app. Qed.

(** While nobody calls [send], a dead sender stays dead and nothing is
    put on the wire. *)
Lemma deliver_frame (d : bytes) (s : State) :
  sender (deliver d s) = sender s /\ wire (deliver d s) = wire s /\
  send_queue (deliver d s) = send_queue s.
Proof.
  unfold deliver, receiving_body. munfold.
  destruct (receiver_alive s); [|repeat split].
  destruct (_ =? ACK); [|destruct (_ =? 0); [|destruct (_ =? FIN)]]; cbn;
    try destruct (stop_receiving s); repeat split.
Qed.


(** C9: the sequence number is a plain integer, never reduced modulo
    2^32.  A state whose sequence number has passed 2^32 - 1 cannot send
    a control or a data segment: encoding the header raises
    [OverflowError].  From the initial sequence number 2^32 - 1 this
    happens on the first data segment: the sender adds the chunk size to
    the sequence number, encoding raises, nothing is transmitted and the
    sender thread ends.  The same state is reached from the initial
    sequence number 0 once the peer acknowledges offset 2^32 - 1: the
    sender moves its sequence number there and fails on the next buffer. *)
Theorem sequence_number_overflow_raises :
  (forall flags s, 2 ^ 32 <= sequence_number s ->
     send_flags flags s = Raised OverflowError s) /\
  (forall data s, 2 ^ 32 <= sequence_number s ->
     send_data data s = Raised OverflowError s) /\
  (forall peer payload, payload <> [] ->
     let s := run [AppSend payload; SenderRun; SenderRun; SenderRun]
                  (established (2 ^ 32 - 1) peer) in
     sender s = SCrashed OverflowError /\
     sequence_number s
     = 2 ^ 32 - 1 + Z.min MSS (Z.min initial_window_size (len payload)) /\
     2 ^ 32 - 1 < sequence_number s /\
     wire s = []) /\
  (let s := run [AppSend hi; SenderRun; SenderRun; SenderRun; SenderRun;
                 Arrive (segment 0 (2 ^ 32 - 1) ACK 1250 []);
                 SenderRun; SenderRun; AppSend yo; SenderRun; SenderRun]
                (established 0 100) in
   sender s = SCrashed OverflowError /\
   sequence_number s = 2 ^ 32 + 1 /\
   sent (wire s) = [segment 2 100 0 1250 hi]).
Proof.
  split; [|split; [|split]].
  4:{ repeat split; vm_compute; reflexivity. }
  - intros flags s H. unfold send_flags. now rewrite header_seq_overflow.
  - intros data s H. unfold send_data. now rewrite header_seq_overflow.
  - intros peer payload Hne.
    assert (Hlen : 0 < len payload).
    { destruct payload; [contradiction|]. unfold len. cbn [length]. lia. }
    change [AppSend payload; SenderRun; SenderRun; SenderRun]
      with ([AppSend payload; SenderRun; SenderRun] ++ [SenderRun]).
    rewrite run_app.
    destruct (send_restarts_sender payload (established (2 ^ 32 - 1) peer))
      as [_ Hrun]; try reflexivity.
    rewrite Hrun. cbn [run fold_left sys_step].
    set (s0 := set_sender _ _).
    assert (Hk : send_bytes_of (2 ^ 32 - 1) payload s0
                 = Z.min MSS (Z.min initial_window_size (len payload))).
    { unfold send_bytes_of, s0. cbn [remote_ack_number window_size
        sequence_number set_sender established].
      f_equal. f_equal; lia. }
    rewrite (sender_step_transmit s0 (2 ^ 32 - 1) payload);
      try reflexivity;
      try (unfold s0; cbn [remote_ack_number window_size sequence_number
             set_sender established]; unfold initial_window_size; lia).
    cbv zeta. rewrite Hk.
    set (k := Z.min MSS (Z.min initial_window_size (len payload))).
    assert (Hkpos : 0 < k) by (unfold k, MSS, initial_window_size; lia).
    assert (Hraise : forall data,
      send_data data (set_sequence_number (sequence_number s0 + k) s0)
      = Raised OverflowError
          (set_sequence_number (sequence_number s0 + k) s0)).
    { intros data. unfold send_data.
      rewrite header_seq_overflow; [reflexivity|].
      unfold s0. cbn [sequence_number set_sequence_number set_sender
                      established]. lia. }
    rewrite Hraise. unfold s0.
    cbn [sender sequence_number wire set_sender set_sequence_number
         established].
    repeat split; lia.
Qed.

Lemma sequence_number_overflow_raises_witness :
  send_flags ACK (set_sequence_number (2 ^ 32) (established 7 100))
  = Raised OverflowError (set_sequence_number (2 ^ 32) (established 7 100)) /\
  sender (run [AppSend hi; SenderRun; SenderRun; SenderRun]
              (established (2 ^ 32 - 1) 100))
  = SCrashed OverflowError.
Proof.
  destruct sequence_number_overflow_raises as (H1 & _ & H3 & _). split.
  - apply H1. vm_compute. congruence.
  - apply (H3 100 hi). discriminate.
Defined.




(** ** Active close *)

Lemma header_some (seq ack flags window : Z) (h : bytes) :
  header seq ack flags window = Some h ->
  h = segment seq ack flags window [] /\
  0 <= seq < 2 ^ 32 /\ 0 <= ack < 2 ^ 32.
Proof.
  unfold header, to_bytes, segment.
  destruct ((0 <=? seq) && (seq <? 256 ^ Z.of_nat 4)) eqn:E1; [|discriminate].
  destruct ((0 <=? ack) && (ack <? 256 ^ Z.of_nat 4)) eqn:E2; [|discriminate].
  destruct ((0 <=? flags) && (flags <? 256 ^ Z.of_nat 2)); [|discriminate].
  destruct ((0 <=? window) && (window <? 256 ^ Z.of_nat 2)); [|discriminate].
  intros H. inversion H. rewrite app_nil_r.
  apply andb_prop in E1, E2. destruct E1 as [E1 E1'], E2 as [E2 E2'].
  apply Z.leb_le in E1, E2. apply Z.ltb_lt in E1', E2'.
  change (256 ^ Z.of_nat 4) with (2 ^ 32) in E1', E2'.
  repeat split; assumption.
Qed.

Lemma send_flags_ok (flags : Z) (s s' : State) :
  send_flags flags s = Ok tt s' ->
  s' = set_wire (wire s ++ [SendTo (control_segment flags s)]) s.
Proof.
  unfold send_flags.
  destruct (header _ _ _ _) as [h|] eqn:E; [|discriminate].
  apply header_some in E. destruct E as [-> _].
  unfold sendto, modify. intros H. now inversion H.
Qed.

Lemma recv_flags_step_eq (flags : Z) (d : bytes) (s : State) :
  let h := firstn (Z.to_nat HEADER) d in
  recv_flags_step flags d s
  = if flags_field h =? flags then
      Ok true (set_remote_sequence_number (seq_field h)
                 (set_remote_ack_number (ack_field h)
                    (set_received_data h s)))
    else Ok false (set_received_data h s).
Proof.
  cbv zeta. unfold recv_flags_step. munfold.
  cbn [received_data set_received_data].
  fold (flags_field (firstn (Z.to_nat HEADER) d)).
  destruct (_ =? flags); reflexivity.
Qed.

Lemma repeat_snoc_cons {A} (x : A) (n : nat) :
  [x] ++ repeat x n = repeat x (S n).
Proof. reflexivity. Qed.

(** When the loop of [_wait_for_fin_ack] ends, the matcher has taken the
    first FIN|ACK of the schedule, and its sequence field is
    [ack_number + 1]. *)
Lemma fin_ack_loop_sound (sched : list MatchEvent) :
  forall s rest s',
    fin_ack_loop sched s = Ok rest s' ->
    exists pre d,
      sched = pre ++ Incoming d :: rest /\
      unmatched (Z.lor FIN ACK) pre /\
      flags_field (firstn (Z.to_nat HEADER) d) = Z.lor FIN ACK /\
      seq_field (firstn (Z.to_nat HEADER) d) = ack_number s + 1 /\
      remote_sequence_number s' = seq_field (firstn (Z.to_nat HEADER) d) /\
      ack_number s' = ack_number s /\
      sequence_number s' = sequence_number s /\
      window_size s' = window_size s /\
      wire s' = wire s ++ repeat (SendTo (control_segment FIN s)) (turns pre).
Proof.
  induction sched as [|e sched IH]; intros s rest s' H; cbn [fin_ack_loop] in H.
  - discriminate.
  - destruct e as [d|].
    + unfold bind in H. rewrite recv_flags_step_eq in H. cbv zeta in H.
      destruct (flags_field (firstn (Z.to_nat HEADER) d) =? Z.lor FIN ACK)
        eqn:Ef.
      * cbn [remote_sequence_number ack_number set_remote_sequence_number
               set_remote_ack_number set_received_data] in H.
        destruct (seq_field (firstn (Z.to_nat HEADER) d) =? ack_number s + 1)
          eqn:Es; [|discriminate].
        inversion H; subst. exists [], d.
        apply Z.eqb_eq in Ef, Es. cbn. rewrite app_nil_r.
        repeat split; assumption.
      * apply IH in H.
        destruct H as (pre & d' & -> & Hun & Hf & Hs & Hr & Ha & Hq & Hw & Hwire).
        exists (Incoming d :: pre), d'. apply Z.eqb_neq in Ef.
        cbn in *. repeat split; assumption.
    + unfold bind in H.
      destruct (send_flags FIN s) as [[] s1| | |] eqn:Esend; try discriminate.
      apply send_flags_ok in Esend. subst s1. apply IH in H.
      destruct H as (pre & d' & -> & Hun & Hf & Hs & Hr & Ha & Hq & Hw & Hwire).
      exists (JoinExpire :: pre), d'.
      cbn [ack_number sequence_number window_size wire set_wire] in *.
      change (control_segment FIN (set_wire _ s))
        with (control_segment FIN s) in Hwire.
      rewrite <- app_assoc, repeat_snoc_cons in Hwire.
      cbn [app unmatched turns]. repeat split; assumption.
Qed.

(** Conversely, on a schedule whose first FIN|ACK has the sequence field
    [ack_number + 1] the loop ends. *)
Lemma fin_ack_loop_complete (pre : list MatchEvent) :
  forall d rest s,
    unmatched (Z.lor FIN ACK) pre ->
    flags_field (firstn (Z.to_nat HEADER) d) = Z.lor FIN ACK ->
    seq_field (firstn (Z.to_nat HEADER) d) = ack_number s + 1 ->
    encodable s ->
    exists s', fin_ack_loop (pre ++ Incoming d :: rest) s = Ok rest s'.
Proof.
  induction pre as [|e pre IH]; intros d rest s Hun Hf Hs He;
    cbn [app fin_ack_loop].
  - unfold bind. rewrite recv_flags_step_eq. cbv zeta.
    apply Z.eqb_eq in Hf. rewrite Hf.
    cbn [remote_sequence_number ack_number set_remote_sequence_number
           set_remote_ack_number set_received_data].
    apply Z.eqb_eq in Hs. rewrite Hs. eexists. reflexivity.
  - destruct e as [d0|]; cbn [unmatched] in Hun.
    + destruct Hun as [Hne Hun]. unfold bind.
      rewrite recv_flags_step_eq. cbv zeta.
      apply Z.eqb_neq in Hne. rewrite Hne.
      apply IH; assumption.
    + unfold bind. rewrite (send_flags_fits FIN s He FIN_fits).
      apply IH; assumption.
Qed.

Lemma stop_receiving_thread_dead (sched : list MatchEvent) (s : State) :
  receiver_alive s = false ->
  _stop_receiving_thread sched s = Ok sched (set_stop_receiving true s).
Proof.
  intros H. unfold _stop_receiving_thread. munfold.
  destruct sched; cbn [_stop_receiving_loop receiver_alive set_stop_receiving];
    now rewrite H.
Qed.

Lemma send_final_client_ack_ok (s s' : State) :
  _send_final_client_ack s = Ok tt s' -> s' = finalized s.
Proof.
  unfold _send_final_client_ack. cbn [for_range]. munfold.
  set (s0 := set_sequence_number (sequence_number s + 1) s).
  destruct (send_flags ACK s0) as [[] s1| | |] eqn:E1; try discriminate.
  apply send_flags_ok in E1. subst s1.
  destruct (send_flags ACK _) as [[] s2| | |] eqn:E2; try discriminate.
  apply send_flags_ok in E2. subst s2.
  destruct (send_flags ACK _) as [[] s3| | |] eqn:E3; try discriminate.
  apply send_flags_ok in E3. subst s3.
  intros H. inversion H. unfold finalized, control_segment, s0. cbn.
  now rewrite <- !app_assoc.
Qed.

Lemma send_final_client_ack_fits (s : State) :
  encodable (set_sequence_number (sequence_number s + 1) s) ->
  _send_final_client_ack s = Ok tt (finalized s).
Proof.
  intros He. unfold _send_final_client_ack. cbn [for_range]. munfold.
  rewrite (send_flags_fits ACK _ He ACK_fits).
  rewrite send_flags_fits by (auto using encodable_set_wire, ACK_fits).
  rewrite send_flags_fits by (auto using encodable_set_wire, ACK_fits).
  unfold finalized, control_segment. cbn. now rewrite <- !app_assoc.
Qed.

(** C7, as stated, fails: the closer goes by the sequence field of the
    FIN|ACK, not by its ack field.  With [ack_number = 500], a FIN|ACK
    with sequence field 501 and ack field 999 ends the close; a FIN|ACK
    with ack field 501 and sequence field 7 never does. *)
Lemma fin_ack_is_matched_on_its_sequence_field :
  let s := set_receiver_alive false (established 40 500) in
  let o1 := terminate_client
              [JoinExpire; Incoming (segment 501 999 (Z.lor FIN ACK) 1250 [])]
              s in
  let o2 := terminate_client
              [JoinExpire; Incoming (segment 7 501 (Z.lor FIN ACK) 1250 []);
               JoinExpire] s in
  ack_number s + 1 = 501 /\
  ack_field (segment 501 999 (Z.lor FIN ACK) 1250 []) = 999 /\
  returned o1 = Some [] /\
  ack_number (final_state o1) = 501 /\
  sequence_number (final_state o1) = 41 /\
  ack_field (segment 7 501 (Z.lor FIN ACK) 1250 []) = 501 /\
  kind o2 = Spins.
Proof. repeat split; vm_compute; reflexivity. Qed.

(** C7, amended: after the receive-dispatch loop has stopped, the closer
    resends FIN at each of its turns until the matcher has taken the
    first FIN|ACK segment; it goes on to finalization exactly when that
    segment's sequence field equals [ack_number + 1]: it then sets
    [ack_number] to that sequence number, adds 1 to [sequence_number],
    sends three ACKs and sleeps one [timeout_duration]. *)
Theorem active_close_finalizes_on_sequence_match (s : State)
  (sched : list MatchEvent) :
  receiver_alive s = false ->
  (forall rest s',
     terminate_client sched s = Ok rest s' ->
     exists pre d,
       sched = pre ++ Incoming d :: rest /\
       unmatched (Z.lor FIN ACK) pre /\
       flags_field (firstn (Z.to_nat HEADER) d) = Z.lor FIN ACK /\
       seq_field (firstn (Z.to_nat HEADER) d) = ack_number s + 1 /\
       remote_sequence_number s' = ack_number s + 1 /\
       ack_number s' = ack_number s + 1 /\
       sequence_number s' = sequence_number s + 1 /\
       wire s'
       = wire s
         ++ repeat (SendTo (control_segment FIN s)) (turns pre)
         ++ repeat (SendTo (segment (sequence_number s + 1) (ack_number s + 1)
                              ACK (window_size s) [])) 3
         ++ [Sleep timeout_duration]) /\
  (forall pre d rest,
     sched = pre ++ Incoming d :: rest ->
     unmatched (Z.lor FIN ACK) pre ->
     flags_field (firstn (Z.to_nat HEADER) d) = Z.lor FIN ACK ->
     seq_field (firstn (Z.to_nat HEADER) d) = ack_number s + 1 ->
     encodable s ->
     sequence_number s + 1 < 2 ^ 32 -> ack_number s + 1 < 2 ^ 32 ->
     exists s', terminate_client sched s = Ok rest s').
Proof.
  intros Hdead. split.
  - intros rest s' H. unfold terminate_client in H. unfold bind at 1 in H.
    rewrite (stop_receiving_thread_dead sched s Hdead) in H.
    unfold _wait_for_fin_ack in H. munfold.
    destruct (fin_ack_loop sched (set_stop_receiving true s))
      as [r1 s1| | |] eqn:Eloop; try discriminate.
    apply fin_ack_loop_sound in Eloop.
    destruct Eloop as (pre & d & -> & Hun & Hf & Hs & Hr & Ha & Hq & Hw & Hwire).
    cbn [ack_number sequence_number window_size wire set_stop_receiving]
      in Hs, Ha, Hq, Hw, Hwire.
    change (control_segment FIN (set_stop_receiving true s))
      with (control_segment FIN s) in Hwire.
    destruct (_send_final_client_ack _) as [[] s2| | |] eqn:Efin;
      try discriminate.
    apply send_final_client_ack_ok in Efin. inversion H; subst.
    exists pre, d. unfold finalized.
    cbn [remote_sequence_number ack_number sequence_number window_size wire
           set_wire set_sequence_number set_ack_number].
    rewrite Hr, Hs, Hq, Hw, Hwire, <- !app_assoc.
    repeat split; assumption.
  - intros pre d rest -> Hun Hf Hs He Hseq Hack.
    unfold terminate_client. unfold bind at 1.
    rewrite (stop_receiving_thread_dead _ s Hdead).
    unfold _wait_for_fin_ack. munfold.
    destruct (fin_ack_loop_complete pre d rest (set_stop_receiving true s)
                Hun Hf Hs He) as (s1 & Hloop).
    rewrite Hloop.
    apply fin_ack_loop_sound in Hloop.
    destruct Hloop as (pre' & d' & _ & _ & _ & Hs1 & Hr & Ha & Hq & Hw & _).
    cbn [ack_number sequence_number window_size set_stop_receiving]
      in Hs1, Ha, Hq, Hw.
    rewrite send_final_client_ack_fits; [eexists; reflexivity|].
    destruct He as (He1 & He2 & He3).
    unfold encodable.
    cbn [sequence_number ack_number window_size set_sequence_number
           set_ack_number].
    rewrite Hr, Hs1, Hq, Hw. repeat split; lia.
Qed.

Lemma active_close_finalizes_on_sequence_match_witness :
  exists s',
    terminate_client
      [JoinExpire; Incoming (segment 501 999 (Z.lor FIN ACK) 1250 [])]
      (set_receiver_alive false (established 40 500))
    = Ok [] s'.
Proof.
  destruct (active_close_finalizes_on_sequence_match
              (set_receiver_alive false (established 40 500))
              [JoinExpire; Incoming (segment 501 999 (Z.lor FIN ACK) 1250 [])]
              eq_refl) as [_ H].
  apply (H [JoinExpire] (segment 501 999 (Z.lor FIN ACK) 1250 []) []);
    try reflexivity; try (vm_compute; repeat split; congruence).
Defined.

(** ** [recv] with nothing to receive *)

Lemma header_none (seq ack flags window : Z) :
  ~ (0 <= seq < 2 ^ 32 /\ 0 <= ack < 2 ^ 32 /\
     0 <= flags < 2 ^ 16 /\ 0 <= window < 2 ^ 16) ->
  header seq ack flags window = None.
Proof.
  intros H. unfold header, to_bytes.
  change (256 ^ Z.of_nat 4) with (2 ^ 32).
  change (256 ^ Z.of_nat 2) with (2 ^ 16).
  destruct ((0 <=? seq) && (seq <? 2 ^ 32)) eqn:E1; [|reflexivity].
  destruct ((0 <=? ack) && (ack <? 2 ^ 32)) eqn:E2; [|reflexivity].
  destruct ((0 <=? flags) && (flags <? 2 ^ 16)) eqn:E3; [|reflexivity].
  destruct ((0 <=? window) && (window <? 2 ^ 16)) eqn:E4; [|reflexivity].
  exfalso. apply H.
  apply andb_prop in E1, E2, E3, E4.
  destruct E1 as [A1 B1], E2 as [A2 B2], E3 as [A3 B3], E4 as [A4 B4].
  apply Z.leb_le in A1, A2, A3, A4. apply Z.ltb_lt in B1, B2, B3, B4.
  repeat split; assumption.
Qed.

Lemma segment_length (seq ack flags window : Z) (payload : bytes) :
  len (segment seq ack flags window payload) = HEADER + len payload.
Proof.
  unfold segment. rewrite !len_app. unfold len at 1 2 3 4.
  rewrite !be_bytes_length. unfold HEADER. lia.
Qed.

Lemma segment_window (seq ack flags window : Z) (payload : bytes) :
  0 <= window < 2 ^ 16 ->
  int_from_bytes (pyslice 10 12 (segment seq ack flags window payload))
  = window.
Proof.
  intros Hw. unfold segment.
  set (a := be_bytes 4 seq). set (b := be_bytes 4 ack).
  set (c := be_bytes 2 flags). set (d := be_bytes 2 window).
  assert (La : len a = 4) by (unfold len, a; now rewrite be_bytes_length).
  assert (Lb : len b = 4) by (unfold len, b; now rewrite be_bytes_length).
  assert (Lc : len c = 2) by (unfold len, c; now rewrite be_bytes_length).
  assert (Ld : len d = 2) by (unfold len, d; now rewrite be_bytes_length).
  replace (a ++ b ++ c ++ d ++ payload)
    with ((a ++ b ++ c) ++ d ++ payload)
    by (now rewrite <- !app_assoc).
  replace 10 with (len (a ++ b ++ c)) at 1 by (rewrite !len_app; lia).
  replace 12 with (len (a ++ b ++ c) + len d) by (rewrite !len_app; lia).
  rewrite pyslice_middle. now apply (int_from_be_bytes 2).
Qed.

(** C10, as stated, fails.  The handshake is over and the sender has run
    past the last sequence number that four bytes hold (the second run
    of C9: the peer acknowledged offset 2^32 - 1 and a further buffer
    was sent).  [recv(0)] then raises [OverflowError] at its first ACK:
    it returns nothing and transmits nothing. *)
Lemma recv_zero_raises_past_the_sequence_range :
  let s := run [AppSend hi; SenderRun; SenderRun; SenderRun; SenderRun;
                Arrive (segment 0 (2 ^ 32 - 1) ACK 1250 []);
                SenderRun; SenderRun; AppSend yo; SenderRun; SenderRun]
               (established 0 100) in
  connection_alive s = false /\
  sequence_number s = 2 ^ 32 + 1 /\
  kind (recv 0 [] s) = Raises OverflowError /\
  returned (recv 0 [] s) = None /\
  wire (final_state (recv 0 [] s)) = wire s.
Proof. intros s. repeat apply conj; vm_compute; reflexivity. Qed.

(** C10, amended: after the handshake and while the sequence number,
    the ack number and the window size fit their header fields,
    [recv(0)] returns the empty byte string, uses nothing of the
    schedule, changes no field of the object and transmits three
    datagrams.  Each of them is an ACK control segment: twelve bytes
    that read back as the current sequence number, the current ack
    number, the flags ACK and the window size.  When a field does not
    fit, [recv(0)] raises [OverflowError] and transmits nothing. *)
Theorem recv_zero_returns_empty (sched : list RecvEvent) (s : State) :
  connection_alive s = false ->
  let a := control_segment ACK s in
  (encodable s ->
   recv 0 sched s
   = Ok ([], sched) (set_wire (wire s ++ [SendTo a; SendTo a; SendTo a]) s) /\
   len a = HEADER /\
   seq_field a = sequence_number s /\
   ack_field a = ack_number s /\
   flags_field a = ACK /\
   int_from_bytes (pyslice 10 12 a) = window_size s) /\
  (~ encodable s -> recv 0 sched s = Raised OverflowError s).
Proof.
  intros Hc a.
  assert (Hloop : recv 0 sched s = (_send_final_acks ;;; ret ([], sched)) s).
  { unfold recv. rewrite Hc. destruct sched; reflexivity. }
  split.
  - intros He. split.
    + rewrite Hloop. munfold. now rewrite send_final_acks_fits.
    + destruct (control_segment_fields ACK s He ACK_fits) as (F1 & F2 & F3).
      destruct He as (_ & _ & Hw).
      unfold a, control_segment in *.
      rewrite segment_length, segment_window by exact Hw.
      repeat split; assumption.
  - intros Hne. rewrite Hloop. unfold _send_final_acks. cbn [for_range].
    munfold. unfold send_flags. rewrite header_none; [reflexivity|].
    intros (Hs & Ha & _ & Hw). apply Hne. exact (conj Hs (conj Ha Hw)).
Qed.

Lemma recv_zero_returns_empty_witness :
  recv 0 [Deliver (segment 111 7 0 1250 hello_world); Wake]
    (established 7 100)
  = Ok ([], [Deliver (segment 111 7 0 1250 hello_world); Wake])
       (set_wire
          (repeat
             (SendTo [x00; x00; x00; x07; x00; x00; x00; x64;
                      x00; x10; x04; xe2]) 3)
          (established 7 100)) /\
  recv 0 [Wake] (set_sequence_number (2 ^ 32) (established 7 100))
  = Raised OverflowError (set_sequence_number (2 ^ 32) (established 7 100)).
Proof.
  split.
  - destruct (recv_zero_returns_empty
                [Deliver (segment 111 7 0 1250 hello_world); Wake]
                (established 7 100) eq_refl) as [H _].
    destruct H as [H _]; [repeat split; vm_compute; congruence|].
    rewrite H. vm_compute. reflexivity.
  - destruct (recv_zero_returns_empty [Wake]
                (set_sequence_number (2 ^ 32) (established 7 100)) eq_refl)
      as [_ H].
    apply H. intros ((_ & Hs) & _). vm_compute in Hs. discriminate Hs.
Defined.

(* ================================================================== *)
(** * Further properties *)

(** ** Encoding the header *)

(** X1: [send_flags] and [send_data] put exactly one datagram on the
    wire, the 12 header bytes followed by the payload, and change
    nothing else, when the header fields fit their widths; when the
    sequence number, the ack number or the window does not fit, they
    raise [OverflowError] and send nothing. *)
Theorem header_encoding_fails_exactly_out_of_range (flags : Z)
  (data : bytes) (s : State) :
  (encodable s /\ 0 <= flags < 2 ^ 16 ->
   send_flags flags s
   = Ok tt (set_wire (wire s ++ [SendTo (control_segment flags s)]) s) /\
   len (control_segment flags s) = HEADER /\
   send_data data s
   = Ok tt (set_wire (wire s ++ [SendTo (segment (sequence_number s)
              (ack_number s) 0 (window_size s) data)]) s) /\
   len (segment (sequence_number s) (ack_number s) 0 (window_size s) data)
   = HEADER + len data) /\
  (~ encodable s ->
   send_flags flags s = Raised OverflowError s /\
   send_data data s = Raised OverflowError s).
Proof.
  split.
  - intros [He Hf]. split; [now apply send_flags_fits|].
    split; [unfold control_segment; rewrite segment_length;
            change (len []) with 0; lia|].
    split; [now apply send_data_fits|apply segment_length].
  - intros Hne. unfold send_flags, send_data.
    rewrite !header_none; [split; reflexivity| |];
      intros (H1 & H2 & H3 & H4); apply Hne; repeat split;
      first [apply H1 | apply H2 | apply H4].
Qed.

Lemma header_encoding_fails_exactly_out_of_range_witness :
  send_flags ACK (set_ack_number (-1) (established 7 100))
  = Raised OverflowError (set_ack_number (-1) (established 7 100)) /\
  send_data hi (established 7 100)
  = Ok tt (set_wire [SendTo (segment 7 100 0 1250 hi)] (established 7 100)).
Proof.
  split.
  - apply (header_encoding_fails_exactly_out_of_range ACK hi
             (set_ack_number (-1) (established 7 100))).
    intros (_ & [H _] & _). vm_compute in H. congruence.
  - apply (header_encoding_fails_exactly_out_of_range ACK hi
             (established 7 100)).
    repeat split; vm_compute; congruence.
Defined.

(** ** From [send_data] to the peer's receive thread *)

Lemma firstn_MTU_id (d : bytes) :
  len d <= MTU -> firstn (Z.to_nat MTU) d = d.
Proof. intros H. apply firstn_all2. unfold len in H. lia. Qed.

(** X2: a data segment built by [send_data] with a payload of at most
    [MSS] bytes reaches the peer's receive thread whole: the thread
    stores the datagram as the pending segment, reads the sender's
    sequence number from it and signals the data event, and what lies
    behind the header is the payload. *)
Theorem data_segment_round_trip (data : bytes) (s p : State) :
  encodable s -> len data <= MSS ->
  receiver_alive p = true -> stop_receiving p = false ->
  let d := segment (sequence_number s) (ack_number s) 0 (window_size s) data in
  send_data data s = Ok tt (set_wire (wire s ++ [SendTo d]) s) /\
  deliver d p
  = set_data_received_event true
      (set_remote_sequence_number (sequence_number s)
         (set_received_data d p)) /\
  pyslice_from HEADER d = data /\
  ack_field d = ack_number s.
Proof.
  intros He Hlen Ha Hs d.
  destruct He as (Hq & Hk & Hw).
  destruct (segment_fields (sequence_number s) (ack_number s) 0
              (window_size s) data Hq Hk) as (F1 & F2 & F3 & F4);
    [split; [lia|reflexivity]|].
  fold d in F1, F2, F3, F4.
  assert (Hcut : firstn (Z.to_nat MTU) d = d).
  { apply firstn_MTU_id. unfold d. rewrite segment_length.
    unfold MTU, HEADER, MSS in *. lia. }
  split; [apply send_data_fits; exact (conj Hq (conj Hk Hw))|].
  split; [|split; assumption].
  rewrite deliver_data; rewrite ?Hcut; try assumption.
  now rewrite F1.
Qed.

Lemma data_segment_round_trip_witness :
  deliver (segment 7 100 0 1250 hi) (established 100 7)
  = set_data_received_event true
      (set_remote_sequence_number 7
         (set_received_data (segment 7 100 0 1250 hi) (established 100 7))).
Proof.
  apply (data_segment_round_trip hi (established 7 100) (established 100 7));
    try reflexivity; try (vm_compute; congruence).
  repeat split; vm_compute; congruence.
Defined.

(** ** What the receive thread leaves alone *)

Lemma deliver_owns (d : bytes) (s : State) :
  sequence_number (deliver d s) = sequence_number s /\
  ack_number (deliver d s) = ack_number s /\
  window_size (deliver d s) = window_size s /\
  connection_alive (deliver d s) = connection_alive s /\
  stop_receiving (deliver d s) = stop_receiving s.
Proof.
  unfold deliver, receiving_body. munfold.
  destruct (receiver_alive s); [|repeat split].
  destruct (_ =? ACK); [|destruct (_ =? 0); [|destruct (_ =? FIN)]]; cbn;
    try (destruct (stop_receiving s) eqn:E; cbn; rewrite ?E);
    repeat split.
Qed.

Lemma receiving_dead (ds : list bytes) :
  forall s, receiver_alive s = false -> receiving ds s = s.
Proof.
  induction ds as [|d ds IH]; intros s H; [reflexivity|].
  cbn [receiving fold_left]. fold (receiving ds (deliver d s)).
  assert (Hd : deliver d s = s) by (unfold deliver; now rewrite H).
  rewrite Hd. now apply IH.
Qed.

(** X3: the receive-dispatch thread sends nothing and never touches the
    local sequence number, the local ack number, the window, the send
    queue or the sender thread, whatever datagrams come in. *)
Theorem receive_thread_owns_its_fields (ds : list bytes) (s : State) :
  wire (receiving ds s) = wire s /\
  sequence_number (receiving ds s) = sequence_number s /\
  ack_number (receiving ds s) = ack_number s /\
  window_size (receiving ds s) = window_size s /\
  send_queue (receiving ds s) = send_queue s /\
  sender (receiving ds s) = sender s.
Proof.
  revert s. induction ds as [|d ds IH]; intros s; [repeat split|].
  cbn [receiving fold_left]. fold (receiving ds (deliver d s)).
  destruct (IH (deliver d s)) as (H1 & H2 & H3 & H4 & H5 & H6).
  destruct (deliver_frame d s) as (G6 & G1 & G5).
  destruct (deliver_owns d s) as (G2 & G3 & G4 & _).
  rewrite H1, H2, H3, H4, H5, H6. repeat split; assumption.
Qed.

(** X4: a FIN ends the dispatch loop: the termination thread is started
    and no later datagram is dispatched; and once [stop_receiving] is
    set the loop dispatches one more datagram and ends. *)
Theorem dispatch_loop_ends (d : bytes) (ds : list bytes) (s : State) :
  receiver_alive s = true ->
  (flags_field (firstn (Z.to_nat MTU) d) = FIN ->
   receiving (d :: ds) s
   = set_receiver_alive false (set_termination_started true s)) /\
  (stop_receiving s = true ->
   receiving (d :: ds) s = deliver d s /\
   receiver_alive (deliver d s) = false).
Proof.
  intros Ha. split.
  - intros Hf. cbn [receiving fold_left]. fold (receiving ds (deliver d s)).
    assert (Hd : deliver d s
                 = set_receiver_alive false (set_termination_started true s)).
    { unfold deliver, receiving_body. rewrite Ha.
      fold (flags_field (firstn (Z.to_nat MTU) d)). rewrite Hf.
      reflexivity. }
    rewrite Hd. now apply receiving_dead.
  - intros Hs. cbn [receiving fold_left]. fold (receiving ds (deliver d s)).
    assert (Hd : receiver_alive (deliver d s) = false).
    { unfold deliver, receiving_body. munfold. rewrite Ha.
      destruct (_ =? ACK); [|destruct (_ =? 0); [|destruct (_ =? FIN)]];
        cbn; rewrite ?Hs; reflexivity. }
    split; [now apply receiving_dead|exact Hd].
Qed.

Lemma dispatch_loop_ends_witness :
  receiving [segment 9 9 FIN 1250 []; segment 0 500 ACK 1250 []]
    (established 7 100)
  = set_receiver_alive false (set_termination_started true (established 7 100)).
Proof.
  apply (proj1 (dispatch_loop_ends (segment 9 9 FIN 1250 [])
                  [segment 0 500 ACK 1250 []] (established 7 100) eq_refl)).
  vm_compute. reflexivity.
Defined.

(** ** Invariants of the sending side *)

Lemma pyslice_length (a b : Z) (l : bytes) :
  a <= b -> len (pyslice a b l) <= b - a.
Proof.
  intros Hab. unfold pyslice, norm_index.
  pose proof (len_nonneg l) as Hl.
  set (lo := Z.max 0 (Z.min (len l) (if a <? 0 then a + len l else a))).
  set (hi := Z.max 0 (Z.min (len l) (if b <? 0 then b + len l else b))).
  assert (Hd : hi - lo <= b - a).
  { unfold lo, hi.
    destruct (a <? 0) eqn:Ea; destruct (b <? 0) eqn:Eb;
      try apply Z.ltb_lt in Ea; try apply Z.ltb_lt in Eb;
      try apply Z.ltb_ge in Ea; try apply Z.ltb_ge in Eb; lia. }
  unfold len at 1. rewrite length_firstn. lia.
Qed.

Lemma pyslice_exact (a b : Z) (l : bytes) :
  0 <= a <= b -> b <= len l -> len (pyslice a b l) = b - a.
Proof.
  intros [Ha Hab] Hb. unfold pyslice, norm_index.
  destruct (a <? 0) eqn:Ea; [apply Z.ltb_lt in Ea; lia|].
  destruct (b <? 0) eqn:Eb; [apply Z.ltb_lt in Eb; lia|].
  replace (Z.max 0 (Z.min (len l) a)) with a by lia.
  replace (Z.max 0 (Z.min (len l) b)) with b by lia.
  unfold len in *. rewrite length_firstn, length_skipn. lia.
Qed.

Lemma sent_app (w1 w2 : list Effect) : sent (w1 ++ w2) = sent w1 ++ sent w2.
Proof.
  induction w1 as [|e w1 IH]; [reflexivity|].
  destruct e; cbn; now rewrite IH.
Qed.

(** What one quantum of the sender puts on the wire. *)
Lemma sender_step_wire (s : State) :
  wire (sender_step s) = wire s \/
  exists d, wire (sender_step s) = wire s ++ [SendTo d] /\ len d <= MTU.
Proof.
  unfold sender_step.
  destruct (sender s) as [| | |start data|start data|e]; try (left; reflexivity).
  - destruct (connection_alive s); left; reflexivity.
  - destruct (pop_right (send_queue s)) as [[x q]|]; left; reflexivity.
  - destruct (remote_ack_number s <? start + len data); [|left; reflexivity].
    destruct ((sequence_number s <? start + len data)
              && (sequence_number s <? remote_ack_number s + window_size s))
      eqn:E; [|left; reflexivity].
    apply andb_prop in E. destruct E as [E1 E2].
    apply Z.ltb_lt in E1, E2.
    set (k := send_bytes_of start data s).
    assert (Hk : 0 < k <= MSS) by (unfold k, send_bytes_of, MSS; lia).
    cbn [sequence_number set_sequence_number].
    set (chunk := pyslice _ _ data).
    assert (Hc : len chunk <= MSS).
    { unfold chunk. etransitivity; [apply pyslice_length; lia|lia]. }
    unfold send_data.
    cbn [sequence_number ack_number window_size set_sequence_number].
    destruct (header _ _ _ _) as [h|] eqn:Eh; [|left; reflexivity].
    apply header_some in Eh. destruct Eh as [-> _].
    right. eexists. split; [reflexivity|].
    rewrite segment_payload, segment_length. unfold MTU, HEADER. lia.
  - destruct (ack_received_event s); left; reflexivity.
Qed.

Lemma sys_step_wire (s : State) (e : SysEvent) :
  wire (sys_step s e) = wire s \/
  exists d, wire (sys_step s e) = wire s ++ [SendTo d] /\ len d <= MTU.
Proof.
  destruct e; cbn [sys_step].
  - left. apply deliver_frame.
  - apply sender_step_wire.
  - left. unfold sender_expire.
    destruct (sender s); try reflexivity.
    destruct (ack_received_event s); reflexivity.
  - left. unfold send. munfold. cbn.
    destruct (is_alive (sender s)); reflexivity.
Qed.

(** X5: whatever the schedule, every datagram the sending side puts on
    the wire is at most [MTU] bytes long (a header and at most [MSS]
    bytes of payload), so the peer's [recvfrom(MTU)] never cuts it. *)
Theorem sent_datagrams_fit_MTU (evs : list SysEvent) (s : State) :
  Forall (fun d => len d <= MTU) (sent (wire s)) ->
  Forall (fun d => len d <= MTU) (sent (wire (run evs s))).
Proof.
  revert s. induction evs as [|e evs IH]; intros s H; [exact H|].
  cbn [run fold_left]. fold (run evs (sys_step s e)). apply IH.
  destruct (sys_step_wire s e) as [->|(d & -> & Hd)]; [exact H|].
  rewrite sent_app. apply Forall_app. split; [exact H|].
  cbn. constructor; [exact Hd|constructor].
Qed.

Lemma sent_datagrams_fit_MTU_witness :
  Forall (fun d => len d <= MTU)
    (sent (wire (run [AppSend hello_world; SenderRun; SenderRun; SenderRun]
                     (established 7 100)))).
Proof.
  apply sent_datagrams_fit_MTU. constructor.
Defined.

Lemma sender_step_window (s : State) :
  0 <= window_size s ->
  sequence_number s <= remote_ack_number s + window_size s ->
  sequence_number (sender_step s)
  <= remote_ack_number (sender_step s) + window_size (sender_step s) /\
  remote_ack_number (sender_step s) = remote_ack_number s /\
  window_size (sender_step s) = window_size s.
Proof.
  intros Hw Hi. unfold sender_step.
  destruct (sender s) as [| | |start data|start data|e];
    try (repeat split; assumption).
  - destruct (connection_alive s); repeat split; assumption.
  - destruct (pop_right (send_queue s)) as [[x q]|]; repeat split; assumption.
  - destruct (remote_ack_number s <? start + len data);
      [|repeat split; assumption].
    destruct ((sequence_number s <? start + len data)
              && (sequence_number s <? remote_ack_number s + window_size s))
      eqn:E; [|repeat split; assumption].
    apply andb_prop in E. destruct E as [E1 E2].
    apply Z.ltb_lt in E1, E2.
    assert (Hk : sequence_number s + send_bytes_of start data s
                 <= remote_ack_number s + window_size s)
      by (unfold send_bytes_of; lia).
    unfold send_data.
    cbn [sequence_number ack_number window_size set_sequence_number].
    destruct (header _ _ _ _); cbn; repeat split; assumption.
  - destruct (ack_received_event s); cbn; repeat split; try assumption; lia.
Qed.

(** X6: the sender keeps inside the window: if the window is not
    negative and the sequence number is at most [remote_ack_number +
    window_size], this stays so along every schedule of calls of
    [send], sender quanta, timeouts and incoming datagrams; along it
    [remote_ack_number] never decreases and the window never changes. *)
Theorem sender_keeps_inside_window (evs : list SysEvent) (s : State) :
  0 <= window_size s ->
  sequence_number s <= remote_ack_number s + window_size s ->
  sequence_number (run evs s)
  <= remote_ack_number (run evs s) + window_size (run evs s) /\
  remote_ack_number s <= remote_ack_number (run evs s) /\
  window_size (run evs s) = window_size s.
Proof.
  revert s. induction evs as [|e evs IH]; intros s Hw Hi;
    [cbn [run fold_left]; repeat split; [exact Hi|lia]|].
  cbn [run fold_left]. fold (run evs (sys_step s e)).
  assert (Hstep : sequence_number (sys_step s e)
                  <= remote_ack_number (sys_step s e)
                     + window_size (sys_step s e) /\
                  remote_ack_number s <= remote_ack_number (sys_step s e) /\
                  window_size (sys_step s e) = window_size s).
  { destruct e; cbn [sys_step].
    - destruct (deliver_owns d s) as (G1 & _ & G3 & _).
      pose proof (deliver_remote_ack d s). rewrite G1, G3.
      repeat split; lia.
    - destruct (sender_step_window s Hw Hi) as (G1 & G2 & G3).
      rewrite G2 in *. repeat split; [exact G1|lia|exact G3].
    - unfold sender_expire. destruct (sender s); try (repeat split; lia).
      destruct (ack_received_event s); repeat split; cbn; lia.
    - unfold send. munfold. cbn.
      destruct (is_alive (sender s)); cbn; repeat split; lia. }
  destruct Hstep as (G1 & G2 & G3).
  destruct (IH (sys_step s e)) as (H1 & H2 & H3); [lia|exact G1|].
  rewrite H3, G3 in *. repeat split; [exact H1|lia].
Qed.

Lemma sender_keeps_inside_window_witness :
  sequence_number
    (run [AppSend hello_world; SenderRun; SenderRun; SenderRun]
         (established 7 100))
  <= remote_ack_number
       (run [AppSend hello_world; SenderRun; SenderRun; SenderRun]
            (established 7 100))
     + window_size
         (run [AppSend hello_world; SenderRun; SenderRun; SenderRun]
              (established 7 100)).
Proof.
  apply sender_keeps_inside_window; vm_compute; congruence.
Defined.

(** ** Runs of the sender *)

(** Reduces the fields of an updated state. *)
Ltac fields :=
  cbn [window_size sequence_number ack_number remote_sequence_number
       remote_ack_number received_data send_queue stop_receiving
       data_received_event ack_received_event connection_alive sender
       receiver_alive termination_started wire
       set_sequence_number set_ack_number set_remote_sequence_number
       set_remote_ack_number set_received_data set_send_queue
       set_data_received_event set_ack_received_event set_sender
       set_receiver_alive set_connection_alive set_stop_receiving
       set_termination_started set_wire] in *.

Lemma run_cons (e : SysEvent) (evs : list SysEvent) (s : State) :
  run (e :: evs) s = run evs (sys_step s e).
Proof. reflexivity. Qed.

Lemma run_nil (s : State) : run [] s = s.
Proof. reflexivity. Qed.

Lemma sender_step_wait (s : State) (start : Z) (data : bytes) :
  sender s = SInner start data ->
  remote_ack_number s < start + len data ->
  start + len data <= sequence_number s
  \/ remote_ack_number s + window_size s <= sequence_number s ->
  sender_step s
  = set_sender (SWait start data) (set_ack_received_event false s).
Proof.
  intros Hpc H1 H2. unfold sender_step. rewrite Hpc.
  apply Z.ltb_lt in H1. rewrite H1.
  destruct ((sequence_number s <? start + len data)
            && (sequence_number s <? remote_ack_number s + window_size s))
    eqn:E; [|reflexivity].
  apply andb_prop in E. destruct E as [E1 E2].
  apply Z.ltb_lt in E1, E2. lia.
Qed.

Lemma sender_step_wake (s : State) (start : Z) (data : bytes) :
  sender s = SWait start data -> ack_received_event s = true ->
  sender_step s
  = set_sender (SInner start data)
      (set_sequence_number (remote_ack_number s) s).
Proof. intros Hpc He. unfold sender_step. now rewrite Hpc, He. Qed.

Lemma sender_step_done (s : State) (start : Z) (data : bytes) :
  sender s = SInner start data ->
  start + len data <= remote_ack_number s ->
  sender_step s = set_sender SOuter s.
Proof.
  intros Hpc H. unfold sender_step. rewrite Hpc.
  apply Z.ltb_ge in H. now rewrite H.
Qed.

Lemma sender_step_exit (s : State) :
  sender s = SOuter -> send_queue s = [] ->
  sender_step s = set_sender SDead s.
Proof. intros Hpc Hq. unfold sender_step. now rewrite Hpc, Hq. Qed.

(** A buffer that fits one segment: from the call of [send] to the wait
    for its acknowledgment. *)
Lemma send_one_segment (payload : bytes) (s : State) :
  is_alive (sender s) = false -> connection_alive s = false ->
  send_queue s = [] ->
  remote_ack_number s = sequence_number s ->
  0 < len payload -> len payload <= MSS -> len payload <= window_size s ->
  0 <= sequence_number s -> sequence_number s + len payload < 2 ^ 32 ->
  0 <= ack_number s < 2 ^ 32 -> window_size s < 2 ^ 16 ->
  run [AppSend payload; SenderRun; SenderRun; SenderRun; SenderRun] s
  = set_sender (SWait (sequence_number s) payload)
      (set_ack_received_event false
         (set_wire
            (wire s ++ [SendTo (segment (sequence_number s + len payload)
                              (ack_number s) 0 (window_size s) payload)])
            (set_sequence_number (sequence_number s + len payload) s))).
Proof.
  intros Hd Hc Hq Hra Hpos Hmss Hwin Hs0 Hs1 Hack Hw.
  change [AppSend payload; SenderRun; SenderRun; SenderRun; SenderRun]
    with ([AppSend payload; SenderRun; SenderRun] ++ [SenderRun; SenderRun]).
  rewrite run_app.
  destruct (send_restarts_sender payload s Hd Hc Hq) as [_ ->].
  cbn [run fold_left sys_step].
  set (s1 := set_sender (SInner (sequence_number s) payload) s).
  assert (Hk : send_bytes_of (sequence_number s) payload s1 = len payload).
  { unfold send_bytes_of, s1. fields. lia. }
  rewrite (sender_step_transmit s1 (sequence_number s) payload);
    [|reflexivity|unfold s1; fields; lia ..].
  cbv zeta. rewrite Hk.
  change (sequence_number s1) with (sequence_number s).
  replace (sequence_number s + len payload - sequence_number s - len payload)
    with 0 by lia.
  replace (sequence_number s + len payload - sequence_number s)
    with (len payload) by lia.
  rewrite pyslice_prefix by lia.
  replace (firstn (Z.to_nat (len payload)) payload) with payload
    by (symmetry; apply firstn_all2; unfold len; lia).
  rewrite send_data_fits
    by (unfold s1, encodable; fields; repeat split; lia).
  unfold s1. fields.
  rewrite sender_step_wait with (start := sequence_number s) (data := payload);
    [reflexivity|reflexivity|fields; lia|fields; lia].
Qed.

(** X7: a buffer that fits one segment and the window is sent as one
    data segment carrying the offset after its last byte; when the ACK
    for that offset comes in, the sender thread takes it, finds the
    queue empty and ends.  Nothing is sent twice. *)
Theorem single_segment_transfer (payload a : bytes) (s : State) :
  is_alive (sender s) = false -> connection_alive s = false ->
  send_queue s = [] ->
  receiver_alive s = true -> stop_receiving s = false ->
  remote_ack_number s = sequence_number s ->
  0 < len payload -> len payload <= MSS -> len payload <= window_size s ->
  0 <= sequence_number s -> sequence_number s + len payload < 2 ^ 32 ->
  0 <= ack_number s < 2 ^ 32 -> window_size s < 2 ^ 16 ->
  flags_field (firstn (Z.to_nat MTU) a) = ACK ->
  ack_field (firstn (Z.to_nat MTU) a) = sequence_number s + len payload ->
  let s' := run [AppSend payload; SenderRun; SenderRun; SenderRun; SenderRun;
                 Arrive a; SenderRun; SenderRun; SenderRun] s in
  sender s' = SDead /\ send_queue s' = [] /\
  sequence_number s' = sequence_number s + len payload /\
  remote_ack_number s' = sequence_number s + len payload /\
  wire s' = wire s ++ [SendTo (segment (sequence_number s + len payload)
                                 (ack_number s) 0 (window_size s) payload)].
Proof.
  intros Hd Hc Hq Hra Hrs Hsync Hpos Hmss Hwin Hs0 Hs1 Hack Hw Hf Ha.
  cbv zeta.
  change [AppSend payload; SenderRun; SenderRun; SenderRun; SenderRun;
          Arrive a; SenderRun; SenderRun; SenderRun]
    with ([AppSend payload; SenderRun; SenderRun; SenderRun; SenderRun]
          ++ [Arrive a; SenderRun; SenderRun; SenderRun]).
  rewrite run_app, send_one_segment by assumption.
  rewrite run_cons. cbn [sys_step].
  rewrite deliver_ack by (fields; assumption).
  rewrite Ha. fields.
  replace (Z.max (remote_ack_number s) (sequence_number s + len payload))
    with (sequence_number s + len payload) by lia.
  rewrite run_cons. cbn [sys_step].
  rewrite (sender_step_wake (set_ack_received_event _ _)
             (sequence_number s) payload) by reflexivity.
  fields.
  rewrite run_cons. cbn [sys_step].
  rewrite (sender_step_done (set_sender _ _) (sequence_number s) payload)
    by (fields; first [reflexivity|lia]).
  rewrite run_cons. cbn [sys_step].
  rewrite (sender_step_exit (set_sender _ _))
    by (fields; first [reflexivity|assumption]).
  rewrite run_nil. fields. repeat split. exact Hq.
Qed.

Lemma single_segment_transfer_witness :
  sender (run [AppSend hi; SenderRun; SenderRun; SenderRun; SenderRun;
               Arrive (segment 100 1002 ACK 1250 []);
               SenderRun; SenderRun; SenderRun] (established 1000 100))
  = SDead.
Proof.
  apply (single_segment_transfer hi (segment 100 1002 ACK 1250 [])
           (established 1000 100));
    try reflexivity; vm_compute; try split; congruence.
Defined.

(** X8: go-back-N.  When the sender waits for the acknowledgment of a
    segment and an ACK comes in that acknowledges nothing new, the
    sender goes back to [remote_ack_number] and sends the same segment
    again. *)
Theorem stale_ack_causes_retransmission (payload a : bytes) (s : State) :
  is_alive (sender s) = false -> connection_alive s = false ->
  send_queue s = [] ->
  receiver_alive s = true -> stop_receiving s = false ->
  remote_ack_number s = sequence_number s ->
  0 < len payload -> len payload <= MSS -> len payload <= window_size s ->
  0 <= sequence_number s -> sequence_number s + len payload < 2 ^ 32 ->
  0 <= ack_number s < 2 ^ 32 -> window_size s < 2 ^ 16 ->
  flags_field (firstn (Z.to_nat MTU) a) = ACK ->
  ack_field (firstn (Z.to_nat MTU) a) <= sequence_number s ->
  let d := segment (sequence_number s + len payload) (ack_number s) 0
             (window_size s) payload in
  let s' := run [AppSend payload; SenderRun; SenderRun; SenderRun; SenderRun;
                 Arrive a; SenderRun; SenderRun] s in
  sender s' = SInner (sequence_number s) payload /\
  remote_ack_number s' = sequence_number s /\
  sequence_number s' = sequence_number s + len payload /\
  wire s' = wire s ++ [SendTo d; SendTo d].
Proof.
  intros Hd Hc Hq Hra Hrs Hsync Hpos Hmss Hwin Hs0 Hs1 Hack Hw Hf Ha.
  cbv zeta.
  change [AppSend payload; SenderRun; SenderRun; SenderRun; SenderRun;
          Arrive a; SenderRun; SenderRun]
    with ([AppSend payload; SenderRun; SenderRun; SenderRun; SenderRun]
          ++ [Arrive a; SenderRun; SenderRun]).
  rewrite run_app, send_one_segment by assumption.
  rewrite run_cons. cbn [sys_step].
  rewrite deliver_ack by (fields; assumption).
  fields.
  replace (Z.max (remote_ack_number s) (ack_field (firstn (Z.to_nat MTU) a)))
    with (sequence_number s) by lia.
  rewrite run_cons. cbn [sys_step].
  rewrite (sender_step_wake (set_ack_received_event _ _)
             (sequence_number s) payload) by reflexivity.
  fields.
  rewrite run_cons, run_nil. cbn [sys_step].
  set (s1 := set_sender _ _).
  assert (Hk : send_bytes_of (sequence_number s) payload s1 = len payload).
  { unfold send_bytes_of, s1. fields. lia. }
  rewrite (sender_step_transmit s1 (sequence_number s) payload);
    [|reflexivity|unfold s1; fields; lia ..].
  cbv zeta. rewrite Hk.
  change (sequence_number s1) with (sequence_number s).
  replace (sequence_number s + len payload - sequence_number s - len payload)
    with 0 by lia.
  replace (sequence_number s + len payload - sequence_number s)
    with (len payload) by lia.
  rewrite pyslice_prefix by lia.
  replace (firstn (Z.to_nat (len payload)) payload) with payload
    by (symmetry; apply firstn_all2; unfold len; lia).
  rewrite send_data_fits
    by (unfold s1, encodable; fields; repeat split; lia).
  unfold s1. fields. rewrite <- app_assoc. repeat split.
Qed.

Lemma stale_ack_causes_retransmission_witness :
  sent (wire (run [AppSend hi; SenderRun; SenderRun; SenderRun; SenderRun;
                   Arrive (segment 100 1000 ACK 1250 []);
                   SenderRun; SenderRun] (established 1000 100)))
  = [segment 1002 100 0 1250 hi; segment 1002 100 0 1250 hi].
Proof.
  destruct (stale_ack_causes_retransmission hi (segment 100 1000 ACK 1250 [])
              (established 1000 100)) as (_ & _ & _ & H);
    [try reflexivity; vm_compute; try split; congruence ..
    |rewrite H; vm_compute; reflexivity].
Defined.

Lemma pop_right_snoc (q : list bytes) (x : bytes) :
  pop_right (q ++ [x]) = Some (x, q).
Proof.
  induction q as [|y q IH]; [reflexivity|].
  cbn [app pop_right]. now rewrite IH.
Qed.

(** X9: the send queue is first in, first out: whatever is passed to
    [send] later, the sender thread takes the oldest buffer next, and
    the value [send] returns is the length of its argument. *)
Theorem send_queue_is_fifo (s : State) (q : list bytes) (oldest b : bytes) :
  send_queue s = q ++ [oldest] ->
  exists s',
    send b s = Ok (len b) s' /\
    pop_right (send_queue s') = Some (oldest, b :: q) /\
    (sender s' = SOuter ->
     sender (sender_step s') = SInner (sequence_number s) oldest /\
     send_queue (sender_step s') = b :: q).
Proof.
  intros Hq.
  assert (Hpop : pop_right (b :: send_queue s) = Some (oldest, b :: q)).
  { rewrite Hq. change (b :: q ++ [oldest]) with ((b :: q) ++ [oldest]).
    apply pop_right_snoc. }
  unfold send. munfold. cbn.
  destruct (is_alive (sender s)) eqn:Ea; cbn; eexists;
    (split; [reflexivity|]); fields; (split; [exact Hpop|]); intros Hpc.
  - unfold sender_step. fields. rewrite Hpc, Hpop. fields.
    split; reflexivity.
  - discriminate Hpc.
Qed.

Lemma send_queue_is_fifo_witness :
  exists s',
    send yo (set_send_queue [hello; hi] (established 7 100)) = Ok 2 s' /\
    pop_right (send_queue s') = Some (hi, [yo; hello]).
Proof.
  destruct (send_queue_is_fifo (set_send_queue [hello; hi] (established 7 100))
              [hello] hi yo eq_refl) as (s' & H1 & H2 & _).
  exists s'. split; [exact H1|exact H2].
Defined.

(** ** More on [recv] *)

(** X10: when [recv(n)] returns, it returns at least [n] bytes: the
    loop is left only once that many bytes are assembled. *)
Theorem recv_never_returns_less (n : Z) (sched rest : list RecvEvent)
  (data : bytes) (s s' : State) :
  recv n sched s = Ok (data, rest) s' -> n <= len data.
Proof.
  unfold recv. destruct (connection_alive s); [discriminate|].
  intros H. apply recv_loop_at_least in H. exact H.
Qed.

Lemma recv_never_returns_less_witness :
  5 <= len hello_world.
Proof.
  apply (recv_never_returns_less 5
           [Deliver (segment 111 7 0 1250 hello_world); Wake] []
           hello_world (established 7 100)
           (final_state
              (recv 5 [Deliver (segment 111 7 0 1250 hello_world); Wake]
                 (established 7 100)))).
  vm_compute. reflexivity.
Defined.

(** The iteration of [recv] when the pending segment is in place. *)
Lemma recv_iteration_in_place (data : bytes) (not_ack : Z)
  (s : State) :
  data_received_event s = true ->
  expected_seq s = remote_sequence_number s ->
  let n := len (received_data s) - HEADER in
  let s1 := set_ack_number (remote_sequence_number s)
              (set_data_received_event false s) in
  (not_ack + n < window_size s ->
   recv_iteration data not_ack s
   = Ok (data ++ pyslice_from HEADER (received_data s), not_ack + n) s1) /\
  (window_size s <= not_ack + n -> encodable s1 ->
   recv_iteration data not_ack s
   = Ok (data ++ pyslice_from HEADER (received_data s), 0)
        (set_wire (wire s ++ [SendTo (control_segment ACK s1)]) s1)).
Proof.
  intros Hev Heq n s1.
  assert (E : (expected_seq (set_data_received_event false s)
               =? remote_sequence_number s) = true)
    by (apply Z.eqb_eq; exact Heq).
  split.
  - intros Hlt. unfold recv_iteration, _wait_for_data. munfold.
    rewrite Hev. cbn [negb]. fields. rewrite E. cbn [fst snd].
    destruct (not_ack + (len (received_data s) - HEADER) >=? window_size s)
      eqn:G; [apply Z.geb_le in G; unfold n in Hlt; lia|reflexivity].
  - intros Hge He. unfold recv_iteration, _wait_for_data. munfold.
    rewrite Hev. cbn [negb]. fields. rewrite E. cbn [fst snd].
    destruct (not_ack + (len (received_data s) - HEADER) >=? window_size s)
      eqn:G.
    2:{ assert (G' : ~ window_size s
                       <= not_ack + (len (received_data s) - HEADER)).
        { intros C. apply Z.geb_le in C. congruence. }
        unfold n in Hge. lia. }
    unfold _send_single_ack. munfold.
    fold s1. rewrite (send_flags_fits ACK s1 He ACK_fits). reflexivity.
Qed.

(** X11: an iteration of [recv] on a data segment that the receive
    thread has just handed over and that is in place (its sequence
    number is [ack_number] plus its payload length) appends the bytes
    behind the header, moves [ack_number] to the segment's sequence
    number and adds the payload length to the unacked counter; no ACK is
    sent while the counter stays below the window, and when it reaches
    the window one ACK carrying the new [ack_number] is sent and the
    counter starts again from 0. *)
Theorem in_place_segment_is_appended (d data : bytes) (not_ack : Z)
  (s : State) :
  receiver_alive s = true -> stop_receiving s = false ->
  let d' := firstn (Z.to_nat MTU) d in
  flags_field d' = 0 ->
  seq_field d' = ack_number s + (len d' - HEADER) ->
  let n := len d' - HEADER in
  let s1 := set_ack_number (seq_field d')
              (set_data_received_event false (deliver d s)) in
  (not_ack + n < window_size s ->
   recv_iteration data not_ack (deliver d s)
   = Ok (data ++ pyslice_from HEADER d', not_ack + n) s1) /\
  (window_size s <= not_ack + n -> encodable s1 ->
   recv_iteration data not_ack (deliver d s)
   = Ok (data ++ pyslice_from HEADER d', 0)
        (set_wire (wire s ++ [SendTo (control_segment ACK s1)]) s1)).
Proof.
  intros Ha Hs d' Hf Hseq n s1.
  assert (Hd : deliver d s
               = set_data_received_event true
                   (set_remote_sequence_number (seq_field d')
                      (set_received_data d' s)))
    by (now apply deliver_data).
  destruct (recv_iteration_in_place data not_ack (deliver d s)) as [H1 H2].
  - rewrite Hd. reflexivity.
  - rewrite Hd. unfold expected_seq. fields. lia.
  - unfold s1. rewrite Hd in *. fields. split; assumption.
Qed.

Lemma in_place_segment_is_appended_witness :
  recv_iteration [] 0
    (deliver (segment 111 7 0 1250 hello_world) (established 7 100))
  = Ok (hello_world, 11)
       (set_ack_number 111
          (set_data_received_event false
             (deliver (segment 111 7 0 1250 hello_world)
                (established 7 100)))).
Proof.
  apply (in_place_segment_is_appended (segment 111 7 0 1250 hello_world)
           [] 0 (established 7 100));
    vm_compute; reflexivity.
Defined.

Lemma recv_loop_deliver (n : Z) (d : bytes) (rest : list RecvEvent)
  (data : bytes) (not_ack : Z) (s : State) :
  len data < n ->
  recv_loop n (Deliver d :: rest) data not_ack s
  = recv_loop n rest data not_ack (deliver d s).
Proof.
  intros H. cbn [recv_loop]. apply Z.ltb_lt in H. now rewrite H.
Qed.

Lemma recv_loop_wake (n : Z) (rest : list RecvEvent) (data : bytes)
  (not_ack : Z) (s : State) :
  len data < n ->
  recv_loop n (Wake :: rest) data not_ack s
  = (r <- recv_iteration data not_ack ;;
     recv_loop n rest (fst r) (snd r)) s.
Proof.
  intros H. cbn [recv_loop]. apply Z.ltb_lt in H. now rewrite H.
Qed.

Lemma recv_loop_done (n : Z) (sched : list RecvEvent) (data : bytes)
  (not_ack : Z) (s : State) :
  n <= len data ->
  recv_loop n sched data not_ack s
  = (_send_final_acks ;;; ret (data, sched)) s.
Proof.
  intros H. apply Z.ltb_ge in H.
  destruct sched; cbn [recv_loop]; now rewrite H.
Qed.

(** The iteration on the next chunk of the peer, in place. *)
Lemma recv_iteration_chunk (a w : Z) (c data : bytes) (not_ack : Z)
  (s : State) :
  receiver_alive s = true -> stop_receiving s = false ->
  0 < len c <= MSS -> 0 <= a < 2 ^ 32 ->
  0 <= sequence_number s < 2 ^ 32 -> 0 <= window_size s < 2 ^ 16 ->
  0 <= ack_number s -> ack_number s + len c < 2 ^ 32 ->
  exists na' s',
    recv_iteration data not_ack
      (deliver (segment (ack_number s + len c) a 0 w c) s)
    = Ok (data ++ c, na') s' /\
    ack_number s' = ack_number s + len c /\
    receiver_alive s' = true /\ stop_receiving s' = false /\
    sequence_number s' = sequence_number s /\
    window_size s' = window_size s.
Proof.
  intros Ha Hs Hc Hpa Hseq Hw Hack0 Hack1.
  set (d := segment (ack_number s + len c) a 0 w c).
  destruct (segment_fields (ack_number s + len c) a 0 w c)
    as (F1 & F2 & F3 & F4); [lia|lia|split; [lia|reflexivity]|].
  fold d in F1, F2, F3, F4.
  assert (Hlen : len d = HEADER + len c) by apply segment_length.
  assert (Hcut : firstn (Z.to_nat MTU) d = d).
  { apply firstn_MTU_id. unfold MTU, HEADER, MSS in *. lia. }
  rewrite deliver_data by (rewrite ?Hcut; assumption).
  rewrite Hcut, F1.
  set (s0 := set_data_received_event true _).
  destruct (recv_iteration_in_place data not_ack s0) as [H1 H2].
  { reflexivity. }
  { unfold expected_seq, s0. fields. lia. }
  unfold s0 in H1, H2. fields. fold s0 in H1, H2.
  rewrite F4 in H1, H2.
  destruct (Z_lt_le_dec (not_ack + (len d - HEADER)) (window_size s))
    as [Hlt|Hge].
  - rewrite (H1 Hlt). do 2 eexists. split; [reflexivity|].
    unfold s0. fields. repeat split; assumption.
  - rewrite (H2 Hge).
    + do 2 eexists. split; [reflexivity|].
      unfold s0. fields. repeat split; assumption.
    + unfold encodable, s0. fields. repeat split; lia.
Qed.

Lemma recv_loop_in_order (a w : Z) (chunks : list bytes) :
  forall data not_ack s,
    receiver_alive s = true -> stop_receiving s = false ->
    Forall (fun c => 0 < len c <= MSS) chunks ->
    0 <= a < 2 ^ 32 ->
    0 <= sequence_number s < 2 ^ 32 -> 0 <= window_size s < 2 ^ 16 ->
    0 <= ack_number s -> ack_number s + len (concat chunks) < 2 ^ 32 ->
    exists s',
      recv_loop (len data + len (concat chunks))
        (in_order a w (ack_number s) chunks) data not_ack s
      = Ok (data ++ concat chunks, []) s' /\
      ack_number s' = ack_number s + len (concat chunks).
Proof.
  induction chunks as [|c cs IH];
    intros data not_ack s Ha Hs Hall Hpa Hseq Hw Hack0 Hack1.
  - cbn [concat in_order] in *. change (len []) with 0 in *.
    rewrite recv_loop_done by lia. munfold.
    rewrite send_final_acks_fits by (repeat split; lia).
    eexists. split; [now rewrite app_nil_r|]. fields. lia.
  - inversion Hall as [|? ? Hc Hcs]; subst.
    cbn [concat in_order] in *. rewrite len_app in *.
    pose proof (len_nonneg (concat cs)) as Hn.
    rewrite recv_loop_deliver by lia.
    rewrite recv_loop_wake by lia. unfold bind.
    destruct (recv_iteration_chunk a w c data not_ack s)
      as (na' & s1 & -> & Hack & Ha1 & Hs1 & Hseq1 & Hw1);
      try assumption; try lia.
    cbn [fst snd].
    destruct (IH (data ++ c) na' s1) as (s' & Hrun & Hack');
      try assumption; try (rewrite ?Hseq1, ?Hw1, ?Hack; lia).
    rewrite len_app in Hrun. rewrite Hack in Hrun.
    replace (len data + (len c + len (concat cs)))
      with (len data + len c + len (concat cs)) by lia.
    rewrite Hrun. exists s'. split; [now rewrite <- app_assoc|].
    rewrite Hack'. lia.
Qed.

(** X12: when the peer's chunks come in one by one and in order, each
    in a data segment carrying the offset after its last byte,
    [recv(n)] with [n] the total length returns their concatenation,
    uses the whole schedule and leaves [ack_number] advanced by [n]. *)
Theorem recv_assembles_in_order (a w : Z) (chunks : list bytes) (s : State) :
  connection_alive s = false ->
  receiver_alive s = true -> stop_receiving s = false ->
  Forall (fun c => 0 < len c <= MSS) chunks ->
  0 <= a < 2 ^ 32 ->
  0 <= sequence_number s < 2 ^ 32 -> 0 <= window_size s < 2 ^ 16 ->
  0 <= ack_number s -> ack_number s + len (concat chunks) < 2 ^ 32 ->
  exists s',
    recv (len (concat chunks)) (in_order a w (ack_number s) chunks) s
    = Ok (concat chunks, []) s' /\
    ack_number s' = ack_number s + len (concat chunks).
Proof.
  intros Hc Ha Hs Hall Hpa Hseq Hw Hack0 Hack1.
  unfold recv. rewrite Hc.
  destruct (recv_loop_in_order a w chunks [] 0 s) as (s' & H & Hack);
    try assumption.
  change (len []) with 0 in H. rewrite Z.add_0_l in H.
  exists s'. split; assumption.
Qed.

Lemma recv_assembles_in_order_witness :
  exists s',
    recv 11 (in_order 7 1250 100 [hello; list_byte_of_string " world"])
      (established 7 100)
    = Ok (hello_world, []) s' /\ ack_number s' = 111.
Proof.
  apply (recv_assembles_in_order 7 1250
           [hello; list_byte_of_string " world"] (established 7 100));
    try reflexivity; try (vm_compute; split; congruence);
    try (vm_compute; congruence).
  repeat constructor; vm_compute; congruence.
Defined.

Lemma recv_iteration_timed_out (data : bytes) (not_ack : Z) (s : State) :
  data_received_event s = false -> encodable s ->
  recv_iteration data not_ack s
  = Ok (data, 0)
       (set_wire (wire s ++ [SendTo (control_segment ACK s)])
          (set_data_received_event false s)).
Proof.
  intros Hev He. unfold recv_iteration, _wait_for_data, _send_single_ack.
  munfold. rewrite Hev. cbn [negb].
  now rewrite (send_flags_fits ACK (set_data_received_event false s) He
                 ACK_fits).
Qed.

Lemma recv_loop_timeouts (n : Z) (k : nat) :
  forall data not_ack s,
    len data < n -> data_received_event s = false -> encodable s ->
    kind (recv_loop n (repeat Wake k) data not_ack s) = Blocks /\
    wire (final_state (recv_loop n (repeat Wake k) data not_ack s))
    = wire s ++ repeat (SendTo (control_segment ACK s)) k /\
    ack_number (final_state (recv_loop n (repeat Wake k) data not_ack s))
    = ack_number s.
Proof.
  induction k as [|k IH]; intros data not_ack s Hlt Hev He.
  - cbn [repeat recv_loop]. apply Z.ltb_lt in Hlt. rewrite Hlt. cbn.
    now rewrite app_nil_r.
  - cbn [repeat]. rewrite recv_loop_wake by exact Hlt. unfold bind.
    rewrite recv_iteration_timed_out by assumption. cbn [fst snd].
    set (s1 := set_wire _ _).
    destruct (IH data 0 s1 Hlt eq_refl He) as (H1 & H2 & H3).
    rewrite H1, H2, H3. unfold s1. fields.
    change (control_segment ACK (set_wire _ (set_data_received_event false s)))
      with (control_segment ACK s).
    rewrite <- app_assoc. repeat split.
Qed.

(** X13: without data [recv] does not return: while no data segment
    arrives, each expiry of the wait sends one ACK for the current
    [ack_number] and the call goes on waiting. *)
Theorem recv_waits_for_data (n : Z) (k : nat) (s : State) :
  0 < n -> connection_alive s = false ->
  data_received_event s = false -> encodable s ->
  kind (recv n (repeat Wake k) s) = Blocks /\
  wire (final_state (recv n (repeat Wake k) s))
  = wire s ++ repeat (SendTo (control_segment ACK s)) k /\
  ack_number (final_state (recv n (repeat Wake k) s)) = ack_number s.
Proof.
  intros Hn Hc Hev He. unfold recv. rewrite Hc.
  apply recv_loop_timeouts; assumption.
Qed.

Lemma recv_waits_for_data_witness :
  kind (recv 5 [Wake; Wake; Wake] (established 7 100)) = Blocks.
Proof.
  apply (recv_waits_for_data 5 3 (established 7 100));
    try reflexivity. repeat split; vm_compute; congruence.
Defined.

(** X14: [ack_number] can move backwards.  A datagram of at most 8
    bytes is taken for a data segment; when its first four bytes read
    [ack_number + len - 12] it counts as in place, and the iteration of
    [recv] sets [ack_number] to that smaller number, takes the same
    amount off the unacked counter and appends nothing. *)
Theorem short_datagram_moves_ack_back (d data : bytes) (not_ack : Z)
  (s : State) :
  receiver_alive s = true -> stop_receiving s = false ->
  len d <= 8 ->
  seq_field d = ack_number s + len d - HEADER ->
  not_ack + (len d - HEADER) < window_size s ->
  recv_iteration data not_ack (deliver d s)
  = Ok (data, not_ack + (len d - HEADER))
       (set_ack_number (ack_number s + len d - HEADER)
          (set_data_received_event false (deliver d s))) /\
  ack_number s + len d - HEADER < ack_number s.
Proof.
  intros Ha Hs Hlen Hseq Hna.
  assert (Hcut : firstn (Z.to_nat MTU) d = d).
  { apply firstn_MTU_id. unfold MTU, MSS, HEADER. lia. }
  assert (Hf : flags_field d = 0).
  { unfold flags_field. now rewrite pyslice_beyond. }
  assert (Hd : deliver d s
               = set_data_received_event true
                   (set_remote_sequence_number (seq_field d)
                      (set_received_data d s))).
  { rewrite deliver_data; rewrite ?Hcut; auto. }
  split; [|unfold HEADER; lia].
  destruct (recv_iteration_in_place data not_ack (deliver d s))
    as [H _].
  - rewrite Hd. reflexivity.
  - rewrite Hd. unfold expected_seq. fields. lia.
  - rewrite H.
    + rewrite Hd. fields. rewrite Hseq.
      replace (pyslice_from HEADER d) with (@nil byte);
        [now rewrite app_nil_r|].
      symmetry. unfold pyslice_from. apply pyslice_beyond.
      unfold HEADER. lia.
    + rewrite Hd. fields. exact Hna.
Qed.

Lemma short_datagram_moves_ack_back_witness :
  ack_number
    (final_state
       (recv_iteration [] 0
          (deliver (be_bytes 4 96 ++ be_bytes 4 0) (established 7 100))))
  = 96.
Proof.
  destruct (short_datagram_moves_ack_back (be_bytes 4 96 ++ be_bytes 4 0)
              [] 0 (established 7 100)) as [H _];
    [reflexivity|reflexivity|vm_compute; congruence|vm_compute; reflexivity
    |vm_compute; reflexivity|].
  rewrite H. reflexivity.
Defined.

(** ** Numbers read from the peer *)

Lemma byte_to_Z_bound (b : byte) : 0 <= byte_to_Z b < 256.
Proof.
  unfold byte_to_Z. pose proof (Byte.to_N_bounded b). lia.
Qed.

Lemma int_from_bytes_bound (l : bytes) :
  0 <= int_from_bytes l < 256 ^ len l.
Proof.
  induction l as [|b l IH] using rev_ind.
  - cbn. lia.
  - rewrite int_from_bytes_snoc, len_app. change (len [b]) with 1.
    rewrite Z.pow_add_r by (pose proof (len_nonneg l); lia).
    pose proof (byte_to_Z_bound b). change (256 ^ 1) with 256. nia.
Qed.

Lemma seq_field_bound (d : bytes) : 0 <= seq_field d < 2 ^ 32.
Proof.
  unfold seq_field.
  pose proof (int_from_bytes_bound (pyslice 0 4 d)) as H.
  pose proof (pyslice_length 0 4 d ltac:(lia)) as Hl.
  pose proof (len_nonneg (pyslice 0 4 d)) as Hn.
  assert (256 ^ len (pyslice 0 4 d) <= 256 ^ 4)
    by (apply Z.pow_le_mono_r; lia).
  change (2 ^ 32) with (256 ^ 4). lia.
Qed.

Lemma deliver_fit (d : bytes) (s : State) :
  peer_numbers_fit s -> peer_numbers_fit (deliver d s).
Proof.
  intros [H1 H2]. unfold peer_numbers_fit, deliver, receiving_body. munfold.
  destruct (receiver_alive s); [|split; assumption].
  pose proof (seq_field_bound (firstn (Z.to_nat MTU) d)) as Hb.
  unfold seq_field in Hb.
  destruct (_ =? ACK); [|destruct (_ =? 0); [|destruct (_ =? FIN)]]; cbn;
    try destruct (stop_receiving s); cbn; split; assumption.
Qed.

Lemma recv_iteration_fit (data : bytes) (not_ack : Z) (s : State) :
  peer_numbers_fit s ->
  peer_numbers_fit (final_state (recv_iteration data not_ack s)).
Proof.
  intros [H1 H2]. unfold peer_numbers_fit.
  recv_paths; split; assumption.
Qed.

Lemma send_final_acks_fit (s : State) :
  peer_numbers_fit s -> peer_numbers_fit (final_state (_send_final_acks s)).
Proof.
  intros [H1 H2]. unfold peer_numbers_fit, _send_final_acks, send_flags.
  cbn [for_range]. munfold. cbn.
  repeat match goal with
         | |- context [header ?a ?b ?c ?d] => destruct (header a b c d); cbn
         end; split; assumption.
Qed.

Lemma recv_loop_fit (n : Z) (sched : list RecvEvent) :
  forall data not_ack s,
    peer_numbers_fit s ->
    peer_numbers_fit (final_state (recv_loop n sched data not_ack s)).
Proof.
  induction sched as [|e rest IH]; intros data not_ack s H;
    cbn [recv_loop]; destruct (len data <? n).
  - exact H.
  - pose proof (send_final_acks_fit s H) as Hf. munfold.
    destruct (_send_final_acks s); exact Hf.
  - destruct e.
    + apply IH. now apply deliver_fit.
    + pose proof (recv_iteration_fit data not_ack s H) as Hi. unfold bind.
      destruct (recv_iteration data not_ack s) as [r s1| | |];
        cbn [final_state] in *; try exact Hi.
      now apply IH.
  - pose proof (send_final_acks_fit s H) as Hf. munfold.
    destruct (_send_final_acks s); exact Hf.
Qed.

(** X15: [ack_number] and [remote_sequence_number] always fit the four
    bytes of a header field: if they do when [recv] is called they do
    in the state [recv] ends in, however it ends and whatever arrives;
    and the sending side never changes [ack_number]. *)
Theorem peer_numbers_always_fit (n : Z) (sched : list RecvEvent)
  (evs : list SysEvent) (s : State) :
  peer_numbers_fit s ->
  peer_numbers_fit (final_state (recv n sched s)) /\
  peer_numbers_fit (run evs s) /\
  ack_number (run evs s) = ack_number s.
Proof.
  intros H. split; [|].
  - unfold recv. destruct (connection_alive s); [exact H|].
    now apply recv_loop_fit.
  - revert s H. induction evs as [|e evs IH]; intros s H; [split; tauto|].
    cbn [run fold_left]. fold (run evs (sys_step s e)).
    assert (Hstep : peer_numbers_fit (sys_step s e) /\
                    ack_number (sys_step s e) = ack_number s).
    { destruct e; cbn [sys_step].
      - split; [now apply deliver_fit|apply deliver_owns].
      - destruct H as [H1 H2]. unfold peer_numbers_fit, sender_step, send_data.
        destruct (sender s) as [| | |start data|start data|e]; fields;
          try (split; [split; assumption|reflexivity]).
        + destruct (connection_alive s); fields; (split; [split; assumption|reflexivity]).
        + destruct (pop_right (send_queue s)) as [[x q]|]; fields;
            (split; [split; assumption|reflexivity]).
        + destruct (_ <? _); [|fields; (split; [split; assumption|reflexivity])].
          destruct (_ && _); [|fields; (split; [split; assumption|reflexivity])].
          fields. destruct (header _ _ _ _); munfold; fields;
            (split; [split; assumption|reflexivity]).
        + destruct (ack_received_event s); fields; (split; [split; assumption|reflexivity]).
      - destruct H as [H1 H2]. unfold peer_numbers_fit, sender_expire.
        destruct (sender s); try (split; [split; assumption|reflexivity]).
        destruct (ack_received_event s); fields; (split; [split; assumption|reflexivity]).
      - destruct H as [H1 H2]. unfold peer_numbers_fit, send. munfold. cbn.
        destruct (is_alive (sender s)); fields; (split; [split; assumption|reflexivity]). }
    destruct Hstep as [Hfit Hack].
    destruct (IH _ Hfit) as [G1 G2]. split; [exact G1|]. now rewrite G2.
Qed.

Lemma peer_numbers_always_fit_witness :
  peer_numbers_fit
    (final_state
       (recv 5 [Deliver (segment 111 7 0 1250 hello_world); Wake]
          (established 7 100))).
Proof.
  apply (peer_numbers_always_fit 5
           [Deliver (segment 111 7 0 1250 hello_world); Wake] []
           (established 7 100)).
  repeat split; vm_compute; congruence.
Defined.

(** ** A transmitted chunk at the peer *)

(** X16: what the sender transmits is what the peer's [recv] accepts.
    When the sender, at or after the start of its buffer, sends the next
    chunk, and the datagram reaches a peer whose [ack_number] is the
    sender's sequence number before the step, the peer's iteration of
    [recv] finds the segment in place, appends exactly that chunk and
    moves its [ack_number] to the sender's new sequence number. *)
Theorem transmitted_chunk_is_accepted (s p : State) (start : Z)
  (data acc : bytes) (not_ack : Z) :
  sender s = SInner start data ->
  start <= sequence_number s ->
  remote_ack_number s < start + len data ->
  sequence_number s < start + len data ->
  sequence_number s < remote_ack_number s + window_size s ->
  let k := send_bytes_of start data s in
  let chunk := pyslice (sequence_number s - start)
                 (sequence_number s - start + k) data in
  0 <= sequence_number s -> sequence_number s + k < 2 ^ 32 ->
  0 <= ack_number s < 2 ^ 32 -> 0 <= window_size s < 2 ^ 16 ->
  receiver_alive p = true -> stop_receiving p = false ->
  ack_number p = sequence_number s ->
  not_ack + k < window_size p ->
  exists d,
    wire (sender_step s) = wire s ++ [SendTo d] /\
    sequence_number (sender_step s) = sequence_number s + k /\
    len chunk = k /\
    recv_iteration acc not_ack (deliver d p)
    = Ok (acc ++ chunk, not_ack + k)
         (set_ack_number (sequence_number s + k)
            (set_data_received_event false (deliver d p))).
Proof.
  intros Hpc Hstart H1 H2 H3 k chunk Hs0 Hs1 Hack Hw Hra Hrs Hsync Hna.
  assert (Hk : 0 < k <= MSS /\ k <= start + len data - sequence_number s)
    by (unfold k, send_bytes_of, MSS; lia).
  assert (Hchunk : len chunk = k).
  { unfold chunk. rewrite pyslice_exact; lia. }
  set (d := segment (sequence_number s + k) (ack_number s) 0
              (window_size s) chunk).
  exists d.
  rewrite (sender_step_transmit s start data Hpc H1 H2 H3). cbv zeta.
  fold k.
  replace (sequence_number s + k - start - k)
    with (sequence_number s - start) by lia.
  replace (sequence_number s + k - start)
    with (sequence_number s - start + k) by lia.
  fold chunk.
  rewrite send_data_fits by (unfold encodable; fields; repeat split; lia).
  fields. fold d.
  split; [reflexivity|]. split; [reflexivity|]. split; [exact Hchunk|].
  destruct (segment_fields (sequence_number s + k) (ack_number s) 0
              (window_size s) chunk) as (F1 & _ & F3 & F4);
    [lia|lia|split; [lia|reflexivity]|].
  fold d in F1, F3, F4.
  assert (Hlen : len d = HEADER + k)
    by (unfold d; rewrite segment_length; lia).
  assert (Hcut : firstn (Z.to_nat MTU) d = d).
  { apply firstn_MTU_id. unfold MTU, HEADER, MSS in *. lia. }
  assert (Hd : deliver d p
               = set_data_received_event true
                   (set_remote_sequence_number (sequence_number s + k)
                      (set_received_data d p))).
  { rewrite deliver_data; rewrite ?Hcut; auto. now rewrite F1. }
  destruct (recv_iteration_in_place acc not_ack (deliver d p))
    as [H _].
  - rewrite Hd. reflexivity.
  - rewrite Hd. unfold expected_seq. fields. lia.
  - rewrite H.
    + rewrite Hd. fields. rewrite F4, Hlen.
      replace (HEADER + k - HEADER) with k by lia. reflexivity.
    + rewrite Hd. fields. lia.
Qed.

Lemma transmitted_chunk_is_accepted_witness :
  exists d,
    wire (sender_step (set_sender (SInner 1000 hi) (established 1000 100)))
    = [SendTo d] /\
    recv_iteration [] 0 (deliver d (established 100 1000))
    = Ok (hi, 2)
         (set_ack_number 1002
            (set_data_received_event false
               (deliver d (established 100 1000)))).
Proof.
  destruct (transmitted_chunk_is_accepted
              (set_sender (SInner 1000 hi) (established 1000 100))
              (established 100 1000) 1000 hi [] 0)
    as (d & H1 & _ & _ & H2);
    [reflexivity|vm_compute; repeat split; congruence ..|].
  exists d. split; [exact H1|exact H2].
Defined.

(** ** Loops that wait for a control segment *)

Lemma resent_zero (flags : Z) (s : State) : resent flags 0 s = s.
Proof.
  unfold resent. cbn [repeat]. rewrite app_nil_r. now destruct s.
Qed.

Lemma resent_succ (flags : Z) (n : nat) (s : State) :
  resent flags n
    (set_wire (wire s ++ [SendTo (control_segment flags s)]) s)
  = resent flags (S n) s.
Proof.
  unfold resent. fields.
  change (control_segment flags (set_wire _ s))
    with (control_segment flags s).
  now rewrite <- app_assoc.
Qed.

Lemma recv_flags_step_match (flags : Z) (d : bytes) (s : State) :
  flags_field (firstn (Z.to_nat HEADER) d) = flags ->
  recv_flags_step flags d s = Ok true (matched_on d s).
Proof.
  intros H. rewrite recv_flags_step_eq. cbv zeta.
  apply Z.eqb_eq in H. now rewrite H.
Qed.

Lemma recv_flags_step_other (flags : Z) (d : bytes) (s : State) :
  flags_field (firstn (Z.to_nat HEADER) d) <> flags ->
  recv_flags_step flags d s
  = Ok false (set_received_data (firstn (Z.to_nat HEADER) d) s).
Proof.
  intros H. rewrite recv_flags_step_eq. cbv zeta.
  apply Z.eqb_neq in H. now rewrite H.
Qed.

Lemma SYN_fits : 0 <= SYN < 2 ^ 16.
Proof. unfold SYN. split; [lia|reflexivity]. Qed.

Lemma SYN_ACK_fits : 0 <= Z.lor SYN ACK < 2 ^ 16.
Proof. split; [discriminate|reflexivity]. Qed.

Lemma FIN_ACK_fits : 0 <= Z.lor FIN ACK < 2 ^ 16.
Proof. split; [discriminate|reflexivity]. Qed.

(** The common shape of the proofs about the four loops: induction on
    the part of the schedule before the matching datagram. *)
Ltac loop_until_match loop fits :=
  let pre := fresh "pre" in
  let IH := fresh "IH" in
  intros pre; induction pre as [|[d0|] pre IH];
    intros d rest s Hun Hf He; cbn [app loop turns unmatched] in *;
    unfold bind;
    [ rewrite recv_flags_step_match by exact Hf; cbn beta iota;
      rewrite ?resent_zero
    | destruct Hun as [Hne Hun];
      rewrite recv_flags_step_other by exact Hne; cbn beta iota;
      rewrite IH by assumption
    | rewrite (send_flags_fits _ s He fits);
      rewrite IH by assumption; rewrite resent_succ ].

Lemma syn_ack_loop_matches :
  forall pre d rest s,
    unmatched (Z.lor SYN ACK) pre ->
    flags_field (firstn (Z.to_nat HEADER) d) = Z.lor SYN ACK ->
    encodable s ->
    syn_ack_loop (pre ++ Incoming d :: rest) s
    = Ok rest (matched_on d (resent SYN (turns pre) s)).
Proof. loop_until_match syn_ack_loop SYN_fits; reflexivity. Qed.

Lemma wait_for_ack_matches :
  forall pre d rest s,
    unmatched ACK pre ->
    flags_field (firstn (Z.to_nat HEADER) d) = ACK ->
    encodable s ->
    _wait_for_ack (pre ++ Incoming d :: rest) s
    = Ok rest (matched_on d (resent (Z.lor SYN ACK) (turns pre) s)).
Proof. loop_until_match _wait_for_ack SYN_ACK_fits; reflexivity. Qed.

Lemma recv_flags_matches (flags : Z) :
  forall pre d rest s,
    unmatched flags pre ->
    flags_field (firstn (Z.to_nat HEADER) d) = flags ->
    recv_flags flags (pre ++ Incoming d :: rest) s
    = Ok rest (matched_on d s).
Proof.
  intros pre. induction pre as [|[d0|] pre IH]; intros d rest s Hun Hf;
    cbn [app recv_flags unmatched] in *; unfold bind.
  - now rewrite recv_flags_step_match by exact Hf.
  - destruct Hun as [Hne Hun].
    rewrite recv_flags_step_other by exact Hne. cbn beta iota.
    now rewrite IH by assumption.
  - now apply IH.
Qed.

Lemma fin_ack_loop_matches :
  forall pre d rest s,
    unmatched (Z.lor FIN ACK) pre ->
    flags_field (firstn (Z.to_nat HEADER) d) = Z.lor FIN ACK ->
    encodable s ->
    fin_ack_loop (pre ++ Incoming d :: rest) s
    = if seq_field (firstn (Z.to_nat HEADER) d) =? ack_number s + 1
      then Ok rest (matched_on d (resent FIN (turns pre) s))
      else Livelock (matched_on d (resent FIN (turns pre) s)).
Proof. loop_until_match fin_ack_loop FIN_fits; reflexivity. Qed.

Lemma server_fin_ack_loop_matches :
  forall pre d rest s,
    unmatched ACK pre ->
    flags_field (firstn (Z.to_nat HEADER) d) = ACK ->
    encodable s ->
    server_fin_ack_loop (map Peer pre ++ Peer (Incoming d) :: rest) s
    = server_fin_ack_test rest
        (matched_on d (resent (Z.lor FIN ACK) (turns pre) s)).
Proof.
  intros pre; induction pre as [|[d0|] pre IH]; intros d rest s Hun Hf He;
    cbn [map app server_fin_ack_loop turns unmatched] in *; unfold bind.
  - rewrite recv_flags_step_match by exact Hf. cbn beta iota.
    now rewrite resent_zero.
  - destruct Hun as [Hne Hun].
    rewrite recv_flags_step_other by exact Hne. cbn beta iota.
    now rewrite IH by assumption.
  - rewrite (send_flags_fits _ s He FIN_ACK_fits).
    rewrite IH by assumption. now rewrite resent_succ.
Qed.




(** ** The handshake after the initialisation *)

(** The handshake of either role is its initialisation followed by the
    rest. *)
Lemma establish_after_init (rnd : Z) (sched : list MatchEvent) :
  establish_client rnd sched
  = (_init_client_sequence rnd ;;; client_after_init sched) /\
  establish_server rnd sched
  = (_init_server_sequence rnd ;;; server_after_init sched).
Proof. split; reflexivity. Qed.

(** X17: the client resends SYN at each of its turns and ignores every
    datagram whose flags are not exactly SYN|ACK; on the first SYN|ACK
    it takes the peer's sequence number as its [ack_number], sends one
    ACK, sets [remote_ack_number] to its own sequence number (whatever
    ack the SYN|ACK carried) and starts the receive thread. *)
Theorem client_handshake_completes (pre : list MatchEvent) (d : bytes)
  (rest : list MatchEvent) (s : State) :
  unmatched (Z.lor SYN ACK) pre ->
  flags_field (firstn (Z.to_nat HEADER) d) = Z.lor SYN ACK ->
  encodable s ->
  let peer := seq_field (firstn (Z.to_nat HEADER) d) in
  exists s',
    client_after_init (pre ++ Incoming d :: rest) s = Ok rest s' /\
    ack_number s' = peer /\ remote_sequence_number s' = peer /\
    remote_ack_number s' = sequence_number s /\
    sequence_number s' = sequence_number s /\
    receiver_alive s' = true /\
    wire s'
    = wire s ++ repeat (SendTo (control_segment SYN s)) (turns pre)
      ++ [SendTo (segment (sequence_number s) peer ACK (window_size s) [])].
Proof.
  intros Hun Hf He peer.
  unfold client_after_init, _wait_for_syn_ack. unfold bind at 1 2.
  rewrite (syn_ack_loop_matches pre d rest s Hun Hf He).
  unfold _finalize_client_connection. munfold.
  unfold matched_on, resent. fields. fold peer.
  destruct He as (Hs & Ha & Hw).
  pose proof (seq_field_bound (firstn (Z.to_nat HEADER) d)) as Hp.
  fold peer in Hp.
  rewrite send_flags_fits;
    [|unfold encodable; fields; repeat split; lia|exact ACK_fits].
  eexists. split; [reflexivity|]. fields. unfold control_segment. fields.
  rewrite <- app_assoc. repeat split.
Qed.

Lemma client_handshake_completes_witness :
  exists s',
    client_after_init
      [JoinExpire; Incoming (segment 0 0 ACK 1250 []);
       Incoming (segment 500 41 (Z.lor SYN ACK) 1250 [])]
      (set_sequence_number 40 (init_state true))
    = Ok [] s' /\ ack_number s' = 500.
Proof.
  destruct (client_handshake_completes
              [JoinExpire; Incoming (segment 0 0 ACK 1250 [])]
              (segment 500 41 (Z.lor SYN ACK) 1250 []) []
              (set_sequence_number 40 (init_state true)))
    as (s' & H1 & H2 & _);
    [vm_compute; repeat split; congruence ..|].
  exists s'. split; [exact H1|]. rewrite H2. vm_compute. reflexivity.
Defined.

(** X18: the server blocks until the first SYN, sending nothing, and
    takes its sequence number as [ack_number]; then it resends SYN|ACK
    at each of its turns until the first plain ACK, whose numbers it
    does not look at, and starts the receive thread. *)
Theorem server_handshake_completes (pre1 pre2 : list MatchEvent)
  (syn ack : bytes) (rest : list MatchEvent) (s : State) :
  unmatched SYN pre1 ->
  flags_field (firstn (Z.to_nat HEADER) syn) = SYN ->
  unmatched ACK pre2 ->
  flags_field (firstn (Z.to_nat HEADER) ack) = ACK ->
  0 <= sequence_number s < 2 ^ 32 -> 0 <= window_size s < 2 ^ 16 ->
  let peer := seq_field (firstn (Z.to_nat HEADER) syn) in
  exists s',
    server_after_init
      (pre1 ++ Incoming syn :: pre2 ++ Incoming ack :: rest) s
    = Ok rest s' /\
    ack_number s' = peer /\ remote_sequence_number s' = peer /\
    remote_ack_number s' = sequence_number s /\
    sequence_number s' = sequence_number s /\
    receiver_alive s' = true /\
    wire s'
    = wire s
      ++ repeat (SendTo (segment (sequence_number s) peer (Z.lor SYN ACK)
                           (window_size s) [])) (turns pre2).
Proof.
  intros Hun1 Hf1 Hun2 Hf2 Hs Hw peer.
  unfold server_after_init, _wait_for_syn. unfold bind at 1 2.
  rewrite (recv_flags_matches SYN pre1 syn _ s Hun1 Hf1).
  munfold. unfold matched_on at 1. fields. fold peer.
  pose proof (seq_field_bound (firstn (Z.to_nat HEADER) syn)) as Hp.
  fold peer in Hp.
  rewrite wait_for_ack_matches;
    [|exact Hun2|exact Hf2
     |unfold encodable, matched_on; fields; repeat split; lia].
  unfold _finalize_server_connection. munfold.
  unfold matched_on, resent, control_segment. fields.
  eexists. split; [reflexivity|]. fields. repeat split.
Qed.

Lemma server_handshake_completes_witness :
  exists s',
    server_after_init
      [JoinExpire; Incoming (segment 40 0 SYN 1250 []); JoinExpire;
       Incoming (segment 40 500 ACK 1250 [])]
      (set_sequence_number 500 (init_state true))
    = Ok [] s' /\ ack_number s' = 40.
Proof.
  destruct (server_handshake_completes [JoinExpire] [JoinExpire]
              (segment 40 0 SYN 1250 []) (segment 40 500 ACK 1250 []) []
              (set_sequence_number 500 (init_state true)))
    as (s' & H1 & H2 & _);
    [vm_compute; repeat split; congruence ..|].
  exists s'. split; [exact H1|]. rewrite H2. vm_compute. reflexivity.
Defined.

Lemma firstn_header_control (seq ack flags window : Z) :
  firstn (Z.to_nat HEADER) (segment seq ack flags window [])
  = segment seq ack flags window [].
Proof.
  apply firstn_all2.
  pose proof (segment_length seq ack flags window []) as H.
  change (len []) with 0 in H. unfold len in H. unfold HEADER in *. lia.
Qed.

(** X19: the three segments of the handshake, each as the code of one
    side builds it, bring both sides to agree: the client's SYN, the
    server's SYN|ACK answering it and the client's ACK make both
    handshakes return, with each side's [ack_number] equal to the
    other's sequence number, each [remote_ack_number] equal to the own
    sequence number, and both receive threads started. *)
Theorem handshake_synchronizes (c v : State) :
  encodable c -> encodable v ->
  let d1 := control_segment SYN c in
  let d2 := segment (sequence_number v) (sequence_number c) (Z.lor SYN ACK)
              (window_size v) [] in
  let d3 := segment (sequence_number c) (sequence_number v) ACK
              (window_size c) [] in
  exists c' v',
    client_after_init [JoinExpire; Incoming d2] c = Ok [] c' /\
    server_after_init [Incoming d1; JoinExpire; Incoming d3] v = Ok [] v' /\
    wire c' = wire c ++ [SendTo d1; SendTo d3] /\
    wire v' = wire v ++ [SendTo d2] /\
    ack_number c' = sequence_number v' /\
    ack_number v' = sequence_number c' /\
    remote_ack_number c' = sequence_number c' /\
    remote_ack_number v' = sequence_number v' /\
    receiver_alive c' = true /\ receiver_alive v' = true.
Proof.
  intros Hc Hv d1 d2 d3.
  destruct Hc as (Hcs & Hca & Hcw). destruct Hv as (Hvs & Hva & Hvw).
  destruct (segment_fields (sequence_number c) (ack_number c) SYN
              (window_size c) [] Hcs Hca SYN_fits) as (A1 & _ & A3 & _).
  destruct (segment_fields (sequence_number v) (sequence_number c)
              (Z.lor SYN ACK) (window_size v) [] Hvs Hcs SYN_ACK_fits)
    as (B1 & _ & B3 & _).
  destruct (segment_fields (sequence_number c) (sequence_number v) ACK
              (window_size c) [] Hcs Hvs ACK_fits) as (C1 & _ & C3 & _).
  fold (control_segment SYN c) in A1, A3. fold d1 in A1, A3.
  fold d2 in B1, B3. fold d3 in C1, C3.
  assert (E1 : firstn (Z.to_nat HEADER) d1 = d1)
    by apply firstn_header_control.
  assert (E2 : firstn (Z.to_nat HEADER) d2 = d2)
    by apply firstn_header_control.
  assert (E3 : firstn (Z.to_nat HEADER) d3 = d3)
    by apply firstn_header_control.
  (* the client *)
  assert (Hclient : exists c',
    client_after_init [JoinExpire; Incoming d2] c = Ok [] c' /\
    wire c' = wire c ++ [SendTo d1; SendTo d3] /\
    ack_number c' = sequence_number v /\
    sequence_number c' = sequence_number c /\
    remote_ack_number c' = sequence_number c /\
    receiver_alive c' = true).
  { change [JoinExpire; Incoming d2]
      with ([JoinExpire] ++ Incoming d2 :: []).
    unfold client_after_init, _wait_for_syn_ack. unfold bind at 1 2.
    rewrite (syn_ack_loop_matches [JoinExpire] d2 [] c);
      [|exact I|now rewrite E2|exact (conj Hcs (conj Hca Hcw))].
    unfold _finalize_client_connection. munfold.
    unfold matched_on, resent. fields. rewrite E2, B1.
    rewrite send_flags_fits;
      [|unfold encodable; fields; repeat split; lia|exact ACK_fits].
    eexists. split; [reflexivity|]. fields.
    unfold control_segment. fields. cbn [turns repeat].
    rewrite <- app_assoc. repeat split. }
  (* the server *)
  assert (Hserver : exists v',
    server_after_init [Incoming d1; JoinExpire; Incoming d3] v = Ok [] v' /\
    wire v' = wire v ++ [SendTo d2] /\
    ack_number v' = sequence_number c /\
    sequence_number v' = sequence_number v /\
    remote_ack_number v' = sequence_number v /\
    receiver_alive v' = true).
  { change [Incoming d1; JoinExpire; Incoming d3]
      with ([] ++ Incoming d1 :: ([JoinExpire] ++ Incoming d3 :: [])).
    unfold server_after_init, _wait_for_syn. unfold bind at 1 2.
    rewrite (recv_flags_matches SYN [] d1 ([JoinExpire] ++ Incoming d3 :: [])
               v);
      [|exact I|now rewrite E1].
    munfold. unfold matched_on at 1. fields. rewrite E1, A1.
    rewrite (wait_for_ack_matches [JoinExpire] d3 []);
      [|exact I|now rewrite E3
       |unfold encodable, matched_on; fields; repeat split; lia].
    unfold _finalize_server_connection. munfold.
    unfold matched_on, resent, control_segment. fields.
    eexists. split; [reflexivity|]. fields. cbn [turns repeat].
    repeat split. }
  destruct Hclient as (c' & K1 & K2 & K3 & K4 & K5 & K6).
  destruct Hserver as (v' & L1 & L2 & L3 & L4 & L5 & L6).
  exists c', v'. rewrite K3, K4, K5, L3, L4, L5.
  repeat split; assumption.
Qed.

Lemma handshake_synchronizes_witness :
  exists c' v',
    client_after_init
      [JoinExpire; Incoming (segment 500 40 (Z.lor SYN ACK) 1250 [])]
      (set_sequence_number 40 (init_state true)) = Ok [] c' /\
    server_after_init
      [Incoming (segment 40 0 SYN 1250 []); JoinExpire;
       Incoming (segment 40 500 ACK 1250 [])]
      (set_sequence_number 500 (init_state true)) = Ok [] v' /\
    ack_number c' = sequence_number v' /\
    ack_number v' = sequence_number c'.
Proof.
  destruct (handshake_synchronizes
              (set_sequence_number 40 (init_state true))
              (set_sequence_number 500 (init_state true)))
    as (c' & v' & H1 & H2 & _ & _ & H3 & H4 & _);
    [repeat split; vm_compute; congruence ..|].
  exists c', v'. repeat split; assumption.
Defined.

Lemma syn_ack_loop_unmatched (sched : list MatchEvent) :
  forall s,
    unmatched (Z.lor SYN ACK) sched -> encodable s ->
    kind (syn_ack_loop sched s) = Blocks /\
    wire (final_state (syn_ack_loop sched s))
    = wire s ++ repeat (SendTo (control_segment SYN s)) (turns sched) /\
    receiver_alive (final_state (syn_ack_loop sched s)) = receiver_alive s /\
    connection_alive (final_state (syn_ack_loop sched s))
    = connection_alive s.
Proof.
  induction sched as [|[d|] sched IH]; intros s Hun He;
    cbn [syn_ack_loop turns unmatched repeat] in *.
  - cbn. now rewrite app_nil_r.
  - destruct Hun as [Hne Hun]. unfold bind.
    rewrite recv_flags_step_other by exact Hne. cbn beta iota.
    destruct (IH (set_received_data (firstn (Z.to_nat HEADER) d) s) Hun He)
      as (H1 & H2 & H3 & H4).
    rewrite H1, H2, H3, H4. repeat split.
  - unfold bind. rewrite (send_flags_fits SYN s He SYN_fits).
    destruct (IH (set_wire (wire s ++ [SendTo (control_segment SYN s)]) s)
                Hun He) as (H1 & H2 & H3 & H4).
    rewrite H1, H2, H3, H4. fields.
    change (control_segment SYN (set_wire _ s)) with (control_segment SYN s).
    rewrite <- app_assoc. repeat split.
Qed.

(** X20: a client that is never sent a SYN|ACK does not get connected:
    whatever else comes in (the SYN or ACK of another client, data),
    it goes on resending SYN, one at each turn, the handshake does not
    return and the receive thread is not started. *)
Theorem client_needs_a_server (sched : list MatchEvent) (s : State) :
  unmatched (Z.lor SYN ACK) sched -> encodable s ->
  kind (client_after_init sched s) = Blocks /\
  wire (final_state (client_after_init sched s))
  = wire s ++ repeat (SendTo (control_segment SYN s)) (turns sched) /\
  receiver_alive (final_state (client_after_init sched s))
  = receiver_alive s /\
  connection_thread (client_after_init sched) s
  = final_state (client_after_init sched s) /\
  connection_alive (connection_thread (client_after_init sched) s)
  = connection_alive s.
Proof.
  intros Hun He.
  destruct (syn_ack_loop_unmatched sched s Hun He) as (H1 & H2 & H3 & H4).
  destruct (syn_ack_loop sched s) as [r s1|e s1|s1|s1] eqn:E;
    cbn in H1; try discriminate H1.
  assert (Hc : client_after_init sched s = Blocked s1).
  { unfold client_after_init, _wait_for_syn_ack, bind. now rewrite E. }
  unfold connection_thread. rewrite Hc.
  cbn [final_state kind] in *. repeat split; assumption.
Qed.

Lemma client_needs_a_server_witness :
  kind (client_after_init
          [JoinExpire; Incoming (segment 77 0 SYN 1250 []); JoinExpire]
          (set_sequence_number 40 (init_state true)))
  = Blocks.
Proof.
  apply (client_needs_a_server
           [JoinExpire; Incoming (segment 77 0 SYN 1250 []); JoinExpire]
           (set_sequence_number 40 (init_state true)));
    repeat split; vm_compute; congruence.
Defined.

(** X21: an endpoint is the server exactly when its own port is the
    smaller one: two endpoints with different ports get opposite
    roles, and two with the same port are both clients. *)
Theorem roles_follow_the_ports (p q : Z) :
  (role p q = Server <-> p < q) /\
  (p <> q -> role p q <> role q p) /\
  (p = q -> role p q = Client /\ role q p = Client).
Proof.
  unfold role. split; [|split].
  - destruct (p <? q) eqn:E.
    + apply Z.ltb_lt in E. tauto.
    + apply Z.ltb_ge in E. split; [discriminate|lia].
  - intros Hne. destruct (p <? q) eqn:E1; destruct (q <? p) eqn:E2;
      try discriminate;
      try apply Z.ltb_lt in E1; try apply Z.ltb_lt in E2;
      try apply Z.ltb_ge in E1; try apply Z.ltb_ge in E2; lia.
  - intros ->. rewrite Z.ltb_irrefl. split; reflexivity.
Qed.

Lemma roles_follow_the_ports_witness :
  role 5000 6000 = Server /\ role 6000 5000 = Client.
Proof.
  destruct (roles_follow_the_ports 5000 6000) as (H1 & _ & _).
  split; [apply H1; lia|reflexivity].
Defined.

(** ** Closing the connection *)

Lemma stop_receiving_loop_dead (sched : list MatchEvent) (s : State) :
  receiver_alive s = false -> _stop_receiving_loop sched s = Ok sched s.
Proof.
  intros H. destruct sched; cbn [_stop_receiving_loop]; now rewrite H.
Qed.

Lemma deliver_after_stop (d : bytes) (s : State) :
  receiver_alive s = true -> stop_receiving s = true ->
  receiver_alive (deliver d s) = false.
Proof.
  intros Ha Hs. unfold deliver, receiving_body. munfold. rewrite Ha.
  destruct (_ =? ACK); [|destruct (_ =? 0); [|destruct (_ =? FIN)]];
    cbn; rewrite ?Hs; reflexivity.
Qed.

Lemma stop_receiving_loop_live (d : bytes) (rest : list MatchEvent)
  (k : nat) :
  forall s,
    receiver_alive s = true -> stop_receiving s = true -> encodable s ->
    _stop_receiving_loop (repeat JoinExpire k ++ Incoming d :: rest) s
    = Ok rest (deliver d (resent FIN k s)).
Proof.
  induction k as [|k IH]; intros s Ha Hs He;
    cbn [repeat app _stop_receiving_loop]; rewrite Ha.
  - rewrite resent_zero. apply stop_receiving_loop_dead.
    now apply deliver_after_stop.
  - unfold bind. rewrite (send_flags_fits FIN s He FIN_fits).
    rewrite IH by assumption. now rewrite resent_succ.
Qed.

(** X22: the active closer sets [stop_receiving] and resends FIN at each
    of its turns while the receive thread is alive; the thread still
    dispatches the next datagram that comes in (an ACK still raises
    [remote_ack_number], a data segment still replaces the pending one)
    and only then ends, which lets the closer go on. *)
Theorem stop_receiving_dispatches_once (k : nat) (d : bytes)
  (rest : list MatchEvent) (s : State) :
  receiver_alive s = true -> encodable s ->
  let s' := deliver d (resent FIN k (set_stop_receiving true s)) in
  _stop_receiving_thread (repeat JoinExpire k ++ Incoming d :: rest) s
  = Ok rest s' /\
  receiver_alive s' = false /\
  wire s' = wire s ++ repeat (SendTo (control_segment FIN s)) k /\
  (flags_field (firstn (Z.to_nat MTU) d) = ACK ->
   remote_ack_number s'
   = Z.max (remote_ack_number s) (ack_field (firstn (Z.to_nat MTU) d))).
Proof.
  intros Ha He s'. unfold _stop_receiving_thread. munfold.
  rewrite stop_receiving_loop_live
    by first [exact Ha | reflexivity | exact He].
  fold s'.
  split; [reflexivity|]. split.
  - apply deliver_after_stop; reflexivity || exact Ha.
  - split.
    + unfold s'. destruct (deliver_frame d (resent FIN k
                             (set_stop_receiving true s))) as (_ & -> & _).
      reflexivity.
    + intros Hf. unfold s', deliver, receiving_body. unfold resent. fields.
      rewrite Ha. fold (flags_field (firstn (Z.to_nat MTU) d)).
      rewrite Hf. reflexivity.
Qed.

Lemma stop_receiving_dispatches_once_witness :
  remote_ack_number
    (final_state
       (_stop_receiving_thread
          [JoinExpire; JoinExpire; Incoming (segment 100 900 ACK 1250 [])]
          (established 7 100)))
  = 900.
Proof.
  destruct (stop_receiving_dispatches_once 2 (segment 100 900 ACK 1250 [])
              [] (established 7 100)) as (H1 & _ & _ & H4);
    [reflexivity|repeat split; vm_compute; congruence|].
  change [JoinExpire; JoinExpire; Incoming (segment 100 900 ACK 1250 [])]
    with (repeat JoinExpire 2 ++ [Incoming (segment 100 900 ACK 1250 [])]).
  rewrite H1. cbn [final_state]. rewrite H4; vm_compute; reflexivity.
Defined.



(** X24: the two closes fit together.  Let the active side have its
    receive thread stopped, and let both sides be in step (each
    [ack_number] is the other's sequence number).  The active side's FIN
    ends the passive side's dispatch loop; the FIN|ACK the passive close
    then sends is the one the active close waits for; the final ACK of
    the active close is the one the passive close waits for; both
    return, each with its sequence number advanced by 1. *)
Theorem close_sequences_agree (a p0 : State) :
  receiver_alive a = false ->
  receiver_alive p0 = true -> is_alive (sender p0) = false ->
  ack_number a = sequence_number p0 -> ack_number p0 = sequence_number a ->
  0 <= sequence_number a -> sequence_number a + 1 < 2 ^ 32 ->
  0 <= sequence_number p0 -> sequence_number p0 + 1 < 2 ^ 32 ->
  0 <= window_size a < 2 ^ 16 -> 0 <= window_size p0 < 2 ^ 16 ->
  let fin := control_segment FIN a in
  let finack := segment (sequence_number p0 + 1) (ack_number p0)
                  (Z.lor FIN ACK) (window_size p0) [] in
  let ack := segment (sequence_number a + 1) (ack_number a + 1) ACK
               (window_size a) [] in
  let p := deliver fin p0 in
  exists a' p',
    receiver_alive p = false /\ termination_started p = true /\
    terminate_client [JoinExpire; Incoming finack] a = Ok [] a' /\
    terminate_server [Peer JoinExpire; Peer (Incoming ack)] p = Ok [] p' /\
    wire a' = wire a ++ [SendTo fin; SendTo ack; SendTo ack; SendTo ack;
                         Sleep timeout_duration] /\
    wire p' = wire p0 ++ [SendTo finack] /\
    sequence_number a' = sequence_number a + 1 /\
    sequence_number p' = sequence_number p0 + 1 /\
    ack_number a' = sequence_number p'.
Proof.
  intros Har Hpr Hps Hsa Hsp Ha0 Ha1 Hp0 Hp1 Haw Hpw fin finack ack p.
  assert (Efin : firstn (Z.to_nat HEADER) fin = fin)
    by apply firstn_header_control.
  assert (Efinack : firstn (Z.to_nat HEADER) finack = finack)
    by apply firstn_header_control.
  assert (Eack : firstn (Z.to_nat HEADER) ack = ack)
    by apply firstn_header_control.
  destruct (segment_fields (sequence_number a) (ack_number a) FIN
              (window_size a) []) as (_ & _ & A3 & _);
    [lia|lia|exact FIN_fits|].
  fold (control_segment FIN a) in A3. fold fin in A3.
  destruct (segment_fields (sequence_number p0 + 1) (ack_number p0)
              (Z.lor FIN ACK) (window_size p0) []) as (B1 & _ & B3 & _);
    [lia|lia|exact FIN_ACK_fits|].
  fold finack in B1, B3.
  destruct (segment_fields (sequence_number a + 1) (ack_number a + 1) ACK
              (window_size a) []) as (C1 & _ & C3 & _);
    [lia|lia|exact ACK_fits|].
  fold ack in C1, C3.
  (* the FIN at the passive side *)
  assert (Hp : p = set_receiver_alive false (set_termination_started true p0)).
  { unfold p, deliver, receiving_body. rewrite Hpr.
    assert (Hcut : firstn (Z.to_nat MTU) fin = fin).
    { apply firstn_MTU_id. unfold fin, control_segment.
      rewrite segment_length. change (len []) with 0.
      unfold MTU, MSS, HEADER. lia. }
    rewrite Hcut. fold (flags_field fin). rewrite A3. reflexivity. }
  (* the active close *)
  assert (Hactive : exists a',
    terminate_client [JoinExpire; Incoming finack] a = Ok [] a' /\
    wire a' = wire a ++ [SendTo fin; SendTo ack; SendTo ack; SendTo ack;
                         Sleep timeout_duration] /\
    sequence_number a' = sequence_number a + 1 /\
    ack_number a' = sequence_number p0 + 1).
  { change [JoinExpire; Incoming finack]
      with ([JoinExpire] ++ Incoming finack :: []).
    unfold terminate_client. unfold bind at 1.
    rewrite (stop_receiving_thread_dead _ a Har).
    unfold _wait_for_fin_ack. unfold bind at 1 2.
    rewrite fin_ack_loop_matches;
      [|exact I|now rewrite Efinack
       |unfold encodable; fields; repeat split; lia].
    rewrite Efinack, B1. fields.
    replace (sequence_number p0 + 1 =? ack_number a + 1) with true
      by (symmetry; apply Z.eqb_eq; lia).
    munfold. unfold matched_on, resent. fields. rewrite Efinack, B1.
    rewrite send_final_client_ack_fits
      by (unfold encodable; fields; repeat split; lia).
    eexists. split; [reflexivity|].
    unfold finalized. fields. cbn [turns repeat].
    unfold ack, fin, control_segment. fields. rewrite Hsa.
    rewrite <- !app_assoc. repeat split. }
  (* the passive close *)
  assert (Hpassive : exists p',
    terminate_server [Peer JoinExpire; Peer (Incoming ack)] p = Ok [] p' /\
    wire p' = wire p0 ++ [SendTo finack] /\
    sequence_number p' = sequence_number p0 + 1).
  { change [Peer JoinExpire; Peer (Incoming ack)]
      with (map Peer [JoinExpire] ++ Peer (Incoming ack) :: []).
    unfold terminate_server. rewrite Hp. fields. rewrite Hps.
    unfold _send_server_fin_ack. munfold.
    rewrite server_fin_ack_loop_matches;
      [|exact I|now rewrite Eack
       |unfold encodable; fields; repeat split; lia].
    unfold server_fin_ack_test, matched_on, resent. fields.
    rewrite Eack, C1.
    replace (sequence_number a + 1 =? ack_number p0 + 1) with true
      by (symmetry; apply Z.eqb_eq; lia).
    eexists. split; [reflexivity|].
    unfold matched_on, resent, control_segment, finack. fields.
    cbn [turns repeat]. repeat split. }
  destruct Hactive as (a' & K1 & K2 & K3 & K4).
  destruct Hpassive as (p' & L1 & L2 & L3).
  exists a', p'. rewrite Hp at 1 2. fields. rewrite K3, K4, L3.
  repeat split; assumption.
Qed.

Lemma close_sequences_agree_witness :
  exists a' p',
    terminate_client
      [JoinExpire; Incoming (segment 501 40 (Z.lor FIN ACK) 1250 [])]
      (set_receiver_alive false (established 40 500)) = Ok [] a' /\
    terminate_server
      [Peer JoinExpire; Peer (Incoming (segment 41 501 ACK 1250 []))]
      (deliver (control_segment FIN
                  (set_receiver_alive false (established 40 500)))
         (established 500 40)) = Ok [] p' /\
    ack_number a' = sequence_number p'.
Proof.
  destruct (close_sequences_agree
              (set_receiver_alive false (established 40 500))
              (established 500 40))
    as (a' & p' & _ & _ & H1 & H2 & _ & _ & _ & _ & H3);
    [vm_compute; repeat split; congruence ..|].
  exists a', p'. repeat split; assumption.
Defined.

(** ** From [send] to the peer's [recv] *)

Lemma chunks_of_concat (fuel : nat) :
  forall data, (length data <= fuel)%nat ->
    concat (chunks_of fuel data) = data.
Proof.
  induction fuel as [|f IH]; intros data H.
  - destruct data; [reflexivity|cbn in H; lia].
  - destruct data as [|b data]; [reflexivity|].
    cbn [chunks_of concat]. rewrite IH.
    + apply firstn_skipn.
    + rewrite length_skipn. cbn [length] in *. unfold MSS. lia.
Qed.

Lemma chunks_of_sizes (fuel : nat) :
  forall data, Forall (fun c => 0 < len c <= MSS) (chunks_of fuel data).
Proof.
  induction fuel as [|f IH]; intros data; [constructor|].
  destruct data as [|b data]; [constructor|].
  cbn [chunks_of]. constructor; [|apply IH].
  unfold len. rewrite length_firstn. cbn [length]. unfold MSS. lia.
Qed.

Lemma pyslice_inside (a b : Z) (l : bytes) :
  0 <= a <= b -> b <= len l ->
  pyslice a b l = firstn (Z.to_nat (b - a)) (skipn (Z.to_nat a) l).
Proof.
  intros [Ha Hab] Hb. unfold pyslice, norm_index.
  destruct (a <? 0) eqn:Ea; [apply Z.ltb_lt in Ea; lia|].
  destruct (b <? 0) eqn:Eb; [apply Z.ltb_lt in Eb; lia|].
  replace (Z.max 0 (Z.min (len l) a)) with a by lia.
  replace (Z.max 0 (Z.min (len l) b)) with b by lia.
  reflexivity.
Qed.

Lemma firstn_capped (n : nat) (l : bytes) :
  firstn n l = firstn (Nat.min n (length l)) l.
Proof.
  destruct (Nat.le_gt_cases n (length l)) as [H|H].
  - now rewrite Nat.min_l.
  - rewrite Nat.min_r by lia. rewrite firstn_all. apply firstn_all2. lia.
Qed.

Lemma in_order_arrivals (a w : Z) (cs : list bytes) :
  forall ack, in_order a w ack cs = arrivals (segments a w ack cs).
Proof.
  induction cs as [|c cs IH]; intros ack; [reflexivity|].
  cbn [in_order segments arrivals flat_map app]. f_equal. f_equal. apply IH.
Qed.

(** The sender, with the window open for the whole buffer and no
    acknowledgment coming in, sends the rest of the buffer chunk by
    chunk, one data segment at each quantum. *)
Lemma sender_burst (start : Z) (data : bytes) (fuel : nat) :
  forall off s,
    (length (skipn (Z.to_nat off) data) <= fuel)%nat ->
    0 <= off <= len data ->
    sender s = SInner start data ->
    sequence_number s = start + off ->
    remote_ack_number s = start ->
    len data <= window_size s ->
    0 <= start -> start + len data < 2 ^ 32 ->
    0 <= ack_number s < 2 ^ 32 -> window_size s < 2 ^ 16 ->
    let cs := chunks_of fuel (skipn (Z.to_nat off) data) in
    let s' := run (repeat SenderRun (length cs)) s in
    wire s'
    = wire s
      ++ map SendTo (segments (ack_number s) (window_size s) (start + off) cs)
    /\ sequence_number s' = start + len data.
Proof.
  induction fuel as [|f IH];
    intros off s Hfuel Hoff Hpc Hseq Hra Hwin Hs0 Hs1 Hack Hw.
  - cbn. rewrite app_nil_r. split; [reflexivity|].
    rewrite length_skipn in Hfuel. unfold len in *. lia.
  - destruct (skipn (Z.to_nat off) data) as [|b sfx] eqn:Esfx.
    + cbn. rewrite app_nil_r. split; [reflexivity|].
      assert (length (skipn (Z.to_nat off) data) = 0%nat)
        by (now rewrite Esfx).
      rewrite length_skipn in H. unfold len in *. lia.
    + assert (Hlt : off < len data).
      { assert (length (skipn (Z.to_nat off) data) <> 0%nat)
          by (rewrite Esfx; discriminate).
        rewrite length_skipn in H. unfold len in *. lia. }
      cbn [chunks_of length repeat]. rewrite <- Esfx.
      set (c := firstn (Z.to_nat MSS) (skipn (Z.to_nat off) data)).
      set (k := Z.min MSS (len data - off)).
      assert (Hk : 0 < k <= MSS /\ k <= len data - off)
        by (unfold k, MSS; lia).
      assert (Hc : pyslice off (off + k) data = c).
      { rewrite pyslice_inside by lia. unfold c.
        rewrite (firstn_capped (Z.to_nat MSS)). f_equal.
        rewrite length_skipn. unfold k, len. lia. }
      assert (Hlen : len c = k).
      { rewrite <- Hc. rewrite pyslice_exact; lia. }
      assert (Hsb : send_bytes_of start data s = k).
      { unfold send_bytes_of, k. rewrite Hseq, Hra. lia. }
      rewrite run_cons. cbn [sys_step].
      rewrite (sender_step_transmit s start data Hpc) by lia.
      cbv zeta. rewrite Hsb, Hseq.
      replace (start + off + k - start - k) with off by lia.
      replace (start + off + k - start) with (off + k) by lia.
      rewrite Hc.
      rewrite send_data_fits
        by (unfold encodable; fields; repeat split; lia).
      fields.
      set (s1 := set_wire _ _).
      destruct (IH (off + k) s1) as [IH1 IH2];
        try (unfold s1; fields; first [assumption|lia]).
      { replace (Z.to_nat (off + k)) with (Z.to_nat k + Z.to_nat off)%nat
          by lia.
        rewrite <- skipn_skipn. rewrite length_skipn.
        rewrite Esfx in *. cbn [length] in *. lia. }
      cbv zeta in IH1, IH2.
      replace (skipn (Z.to_nat (off + k)) data)
        with (skipn (Z.to_nat MSS) (skipn (Z.to_nat off) data)) in IH1, IH2.
      2:{ replace (Z.to_nat (off + k)) with (Z.to_nat k + Z.to_nat off)%nat
            by lia.
          rewrite <- skipn_skipn.
          destruct (Z.le_gt_cases MSS (len data - off)) as [Hle|Hgt].
          - replace k with MSS by (unfold k; lia). reflexivity.
          - replace k with (len data - off) by (unfold k; lia).
            rewrite !skipn_all2; [reflexivity| |];
              rewrite length_skipn; unfold len, MSS in *; lia. }
      rewrite IH1, IH2. unfold s1. fields. cbn [segments map].
      rewrite Hlen. rewrite <- app_assoc.
      replace (start + off + k) with (start + (off + k)) by lia.
      split; reflexivity.
Qed.

(** X25: end to end.  A buffer that fits the window is passed to
    [send]; the sender thread cuts it into pieces of at most [MSS]
    bytes and sends them as data segments.  When these segments reach
    a peer that expects the sender's sequence number, in the order they
    were sent, the peer's [recv] of the buffer's length returns the
    buffer, and its [ack_number] is the sender's new sequence number. *)
Theorem send_then_recv_returns_the_buffer (data : bytes) (s r : State) :
  is_alive (sender s) = false -> connection_alive s = false ->
  send_queue s = [] ->
  remote_ack_number s = sequence_number s ->
  len data <= window_size s ->
  0 <= sequence_number s -> sequence_number s + len data < 2 ^ 32 ->
  0 <= ack_number s < 2 ^ 32 -> window_size s < 2 ^ 16 ->
  connection_alive r = false ->
  receiver_alive r = true -> stop_receiving r = false ->
  ack_number r = sequence_number s ->
  0 <= sequence_number r < 2 ^ 32 -> 0 <= window_size r < 2 ^ 16 ->
  let sent_now := segments (ack_number s) (window_size s)
                    (sequence_number s) (chunks data) in
  let s' := run (AppSend data :: SenderRun :: SenderRun
                 :: repeat SenderRun (length (chunks data))) s in
  exists r',
    wire s' = wire s ++ map SendTo sent_now /\
    sequence_number s' = sequence_number s + len data /\
    recv (len data) (arrivals sent_now) r = Ok (data, []) r' /\
    ack_number r' = sequence_number s'.
Proof.
  intros Hd Hc Hq Hra Hwin Hs0 Hs1 Hack Hw Hrc Hrr Hrs Hsync Hrq Hrw
         sent_now s'.
  (* the sending side *)
  assert (Hsend : wire s' = wire s ++ map SendTo sent_now /\
                  sequence_number s' = sequence_number s + len data).
  { unfold s'.
    change (AppSend data :: SenderRun :: SenderRun
            :: repeat SenderRun (length (chunks data)))
      with ([AppSend data; SenderRun; SenderRun]
            ++ repeat SenderRun (length (chunks data))).
    rewrite run_app.
    destruct (send_restarts_sender data s Hd Hc Hq) as [_ ->].
    destruct (sender_burst (sequence_number s) data (length data) 0
                (set_sender (SInner (sequence_number s) data) s))
      as [B1 B2];
      try (fields; first [reflexivity|assumption|lia]).
    { pose proof (len_nonneg data). lia. }
    cbv zeta in B1, B2. cbn [Z.to_nat skipn] in B1, B2.
    fold (chunks data) in B1, B2. fields.
    rewrite Z.add_0_r in B1. split; [exact B1|exact B2]. }
  destruct Hsend as [Hw1 Hseq1].
  (* the receiving side *)
  destruct (recv_loop_in_order (ack_number s) (window_size s) (chunks data)
              [] 0 r) as (r' & Hrecv & Hackr);
    try assumption.
  { apply chunks_of_sizes. }
  { lia. }
  { unfold chunks. rewrite chunks_of_concat by lia. lia. }
  unfold chunks in Hrecv, Hackr.
  rewrite chunks_of_concat in Hrecv, Hackr by lia.
  fold (chunks data) in Hrecv.
  change (len []) with 0 in Hrecv. rewrite Z.add_0_l in Hrecv.
  rewrite in_order_arrivals, Hsync in Hrecv. fold sent_now in Hrecv.
  exists r'. split; [exact Hw1|]. split; [exact Hseq1|].
  split; [unfold recv; rewrite Hrc; exact Hrecv|].
  rewrite Hackr, Hseq1, Hsync. reflexivity.
Qed.

Lemma send_then_recv_returns_the_buffer_witness :
  exists r',
    recv 11
      (arrivals (segments 100 1250 1000 (chunks hello_world)))
      (established 100 1000)
    = Ok (hello_world, []) r'.
Proof.
  destruct (send_then_recv_returns_the_buffer hello_world
              (established 1000 100) (established 100 1000))
    as (r' & _ & _ & H & _);
    [try reflexivity; vm_compute; repeat split; congruence ..|].
  exists r'. exact H.
Defined.

(** ** Loss and duplication at the receiver *)

(** X26: a gap makes the receiver ask again.  When the receive thread
    hands over a data segment whose sequence number lies beyond the
    expected offset, the iteration of [recv] appends nothing, keeps
    [ack_number], sends at once one ACK that carries [ack_number] and
    resets the unacked counter. *)
Theorem gap_triggers_ack (d data : bytes) (not_ack : Z) (s : State) :
  receiver_alive s = true -> stop_receiving s = false ->
  let d' := firstn (Z.to_nat MTU) d in
  flags_field d' = 0 ->
  ack_number s + (len d' - HEADER) < seq_field d' ->
  encodable s -> 0 < window_size s ->
  recv_iteration data not_ack (deliver d s)
  = Ok (data, 0)
       (set_wire (wire s ++ [SendTo (control_segment ACK s)])
          (set_data_received_event false (deliver d s))) /\
  ack_field (control_segment ACK s) = ack_number s /\
  flags_field (control_segment ACK s) = ACK.
Proof.
  intros Ha Hs d' Hf Hgap He Hw.
  assert (Hd : deliver d s
               = set_data_received_event true
                   (set_remote_sequence_number (seq_field d')
                      (set_received_data d' s)))
    by (now apply deliver_data).
  destruct (control_segment_fields ACK s He ACK_fits) as (_ & F2 & F3).
  split; [|split; assumption].
  rewrite (recv_iteration_ahead data not_ack (deliver d s)).
  - rewrite Hd. reflexivity.
  - rewrite Hd. reflexivity.
  - rewrite Hd. unfold expected_seq. fields. lia.
  - rewrite Hd. exact He.
  - rewrite Hd. exact Hw.
Qed.

Lemma gap_triggers_ack_witness :
  recv_iteration [] 0
    (deliver (segment 300 7 0 1250 hello) (established 7 100))
  = Ok ([], 0)
       (set_wire [SendTo (segment 7 100 ACK 1250 [])]
          (set_data_received_event false
             (deliver (segment 300 7 0 1250 hello) (established 7 100)))).
Proof.
  apply (gap_triggers_ack (segment 300 7 0 1250 hello) [] 0
           (established 7 100));
    try reflexivity; try (vm_compute; reflexivity);
    repeat split; vm_compute; congruence.
Defined.

(** The iteration on a chunk that has just been accepted and is handed
    over a second time: nothing happens. *)
Lemma recv_iteration_duplicate (a w : Z) (c data : bytes) (not_ack : Z)
  (s : State) :
  receiver_alive s = true -> stop_receiving s = false ->
  0 < len c <= MSS -> 0 <= a < 2 ^ 32 ->
  0 <= ack_number s < 2 ^ 32 ->
  not_ack < window_size s ->
  let d := segment (ack_number s) a 0 w c in
  recv_iteration data not_ack (deliver d s)
  = Ok (data, not_ack) (set_data_received_event false (deliver d s)).
Proof.
  intros Ha Hs Hc Hpa Hack Hna d.
  destruct (segment_fields (ack_number s) a 0 w c)
    as (F1 & _ & F3 & _); [lia|lia|split; [lia|reflexivity]|].
  fold d in F1, F3.
  assert (Hlen : len d = HEADER + len c) by apply segment_length.
  assert (Hcut : firstn (Z.to_nat MTU) d = d).
  { apply firstn_MTU_id. unfold MTU, HEADER, MSS in *. lia. }
  assert (Hd : deliver d s
               = set_data_received_event true
                   (set_remote_sequence_number (ack_number s)
                      (set_received_data d s))).
  { rewrite deliver_data; rewrite ?Hcut; auto. now rewrite F1. }
  rewrite (recv_iteration_behind data not_ack (deliver d s)).
  - reflexivity.
  - rewrite Hd. reflexivity.
  - rewrite Hd. unfold expected_seq. fields. lia.
  - rewrite Hd. exact Hna.
Qed.

(** The iteration on the next chunk, with the counter it leaves. *)
Lemma recv_iteration_chunk_counter (a w : Z) (c data : bytes) (not_ack : Z)
  (s : State) :
  receiver_alive s = true -> stop_receiving s = false ->
  0 < len c <= MSS -> 0 <= a < 2 ^ 32 ->
  0 <= sequence_number s < 2 ^ 32 -> 0 < window_size s < 2 ^ 16 ->
  0 <= ack_number s -> ack_number s + len c < 2 ^ 32 ->
  exists na' s',
    recv_iteration data not_ack
      (deliver (segment (ack_number s + len c) a 0 w c) s)
    = Ok (data ++ c, na') s' /\
    na' < window_size s /\
    ack_number s' = ack_number s + len c /\
    receiver_alive s' = true /\ stop_receiving s' = false /\
    sequence_number s' = sequence_number s /\
    window_size s' = window_size s.
Proof.
  intros Ha Hs Hc Hpa Hseq Hw Hack0 Hack1.
  set (d := segment (ack_number s + len c) a 0 w c).
  destruct (segment_fields (ack_number s + len c) a 0 w c)
    as (F1 & F2 & F3 & F4); [lia|lia|split; [lia|reflexivity]|].
  fold d in F1, F2, F3, F4.
  assert (Hlen : len d = HEADER + len c) by apply segment_length.
  assert (Hcut : firstn (Z.to_nat MTU) d = d).
  { apply firstn_MTU_id. unfold MTU, HEADER, MSS in *. lia. }
  rewrite deliver_data by (rewrite ?Hcut; assumption).
  rewrite Hcut, F1.
  set (s0 := set_data_received_event true _).
  destruct (recv_iteration_in_place data not_ack s0) as [H1 H2].
  { reflexivity. }
  { unfold expected_seq, s0. fields. lia. }
  unfold s0 in H1, H2. fields. fold s0 in H1, H2.
  rewrite F4 in H1, H2.
  destruct (Z_lt_le_dec (not_ack + (len d - HEADER)) (window_size s))
    as [Hlt|Hge].
  - rewrite (H1 Hlt). do 2 eexists. split; [reflexivity|].
    unfold s0. fields. repeat split; try assumption; lia.
  - rewrite (H2 Hge).
    + do 2 eexists. split; [reflexivity|].
      unfold s0. fields. repeat split; try assumption; lia.
    + unfold encodable, s0. fields. repeat split; lia.
Qed.

Lemma recv_loop_twice (a w : Z) (chunks : list bytes) :
  forall data not_ack s,
    receiver_alive s = true -> stop_receiving s = false ->
    Forall (fun c => 0 < len c <= MSS) chunks ->
    0 <= a < 2 ^ 32 ->
    0 <= sequence_number s < 2 ^ 32 -> 0 < window_size s < 2 ^ 16 ->
    not_ack < window_size s ->
    0 <= ack_number s -> ack_number s + len (concat chunks) < 2 ^ 32 ->
    exists rest s',
      recv_loop (len data + len (concat chunks))
        (arrivals_twice (segments a w (ack_number s) chunks))
        data not_ack s
      = Ok (data ++ concat chunks, rest) s' /\
      ack_number s' = ack_number s + len (concat chunks).
Proof.
  induction chunks as [|c cs IH];
    intros data not_ack s Ha Hs Hall Hpa Hseq Hw Hna Hack0 Hack1.
  - cbn [concat segments arrivals_twice flat_map] in *.
    change (len []) with 0 in *.
    rewrite recv_loop_done by lia. munfold.
    rewrite send_final_acks_fits by (repeat split; lia).
    do 2 eexists. split; [now rewrite app_nil_r|]. fields. lia.
  - inversion Hall as [|? ? Hc Hcs]; subst.
    cbn [concat segments arrivals_twice flat_map app] in *.
    fold (arrivals_twice (segments a w (ack_number s + len c) cs)).
    rewrite len_app in *.
    pose proof (len_nonneg (concat cs)) as Hn.
    rewrite recv_loop_deliver by lia.
    rewrite recv_loop_wake by lia. unfold bind.
    destruct (recv_iteration_chunk_counter a w c data not_ack s)
      as (na1 & s1 & Hit & Hna1 & Hack & Ha1 & Hs1 & Hseq1 & Hw1);
      try assumption; try lia.
    rewrite Hit. cbn [fst snd].
    destruct cs as [|c2 cs].
    + (* the last chunk: [recv] is done, its second copy is not used *)
      cbn [concat] in *. change (len []) with 0 in *.
      rewrite recv_loop_done by (rewrite len_app; lia). munfold.
      rewrite send_final_acks_fits
        by (unfold encodable; rewrite Hack, Hseq1, Hw1; repeat split; lia).
      do 2 eexists. split; [now rewrite app_nil_r|]. fields. lia.
    + assert (Hpos : 0 < len (concat (c2 :: cs))).
      { inversion Hcs; subst. cbn [concat]. rewrite len_app.
        pose proof (len_nonneg (concat cs)). lia. }
      rewrite recv_loop_deliver by (rewrite len_app; lia).
      rewrite recv_loop_wake by (rewrite len_app; lia). unfold bind.
      pose proof (recv_iteration_duplicate a w c (data ++ c) na1 s1) as Hdup.
      cbv zeta in Hdup. rewrite Hack in Hdup.
      rewrite Hdup; try assumption; try lia. cbn [fst snd].
      set (s2 := set_data_received_event false _).
      assert (Hs2 : ack_number s2 = ack_number s + len c /\
                    receiver_alive s2 = true /\ stop_receiving s2 = false /\
                    sequence_number s2 = sequence_number s /\
                    window_size s2 = window_size s).
      { assert (Fd : flags_field
                       (firstn (Z.to_nat MTU)
                          (segment (ack_number s + len c) a 0 w c)) = 0).
        { rewrite firstn_MTU_id
            by (rewrite segment_length; unfold MTU, HEADER, MSS in *; lia).
          apply segment_fields; [lia|lia|split; [lia|reflexivity]]. }
        unfold s2. rewrite deliver_data by assumption. fields.
        repeat split; assumption. }
      destruct Hs2 as (K1 & K2 & K3 & K4 & K5).
      destruct (IH (data ++ c) na1 s2) as (rest & s' & Hrun & Hack');
        try assumption; try (rewrite ?K1, ?K4, ?K5; lia).
      rewrite len_app, K1 in Hrun.
      replace (len data + (len c + len (concat (c2 :: cs))))
        with (len data + len c + len (concat (c2 :: cs))) by lia.
      rewrite Hrun. exists rest, s'. split; [now rewrite <- app_assoc|].
      rewrite Hack', K1. lia.
Qed.

(** X27: duplicates do no harm.  When every data segment of the peer
    arrives twice, in order, [recv] still returns the concatenation of
    the chunks, each of them once, and leaves [ack_number] advanced by
    their total length. *)
Theorem recv_ignores_duplicates (a w : Z) (chunks : list bytes) (s : State) :
  connection_alive s = false ->
  receiver_alive s = true -> stop_receiving s = false ->
  Forall (fun c => 0 < len c <= MSS) chunks ->
  0 <= a < 2 ^ 32 ->
  0 <= sequence_number s < 2 ^ 32 -> 0 < window_size s < 2 ^ 16 ->
  0 <= ack_number s -> ack_number s + len (concat chunks) < 2 ^ 32 ->
  exists rest s',
    recv (len (concat chunks))
      (arrivals_twice (segments a w (ack_number s) chunks)) s
    = Ok (concat chunks, rest) s' /\
    ack_number s' = ack_number s + len (concat chunks).
Proof.
  intros Hc Ha Hs Hall Hpa Hseq Hw Hack0 Hack1.
  unfold recv. rewrite Hc.
  destruct (recv_loop_twice a w chunks [] 0 s) as (rest & s' & H & Hack);
    try assumption; try lia.
  change (len []) with 0 in H. rewrite Z.add_0_l in H.
  exists rest, s'. split; assumption.
Qed.

Lemma recv_ignores_duplicates_witness :
  exists rest s',
    recv 11
      (arrivals_twice
         (segments 7 1250 100 [hello; list_byte_of_string " world"]))
      (established 7 100)
    = Ok (hello_world, rest) s' /\ ack_number s' = 111.
Proof.
  apply (recv_ignores_duplicates 7 1250
           [hello; list_byte_of_string " world"] (established 7 100));
    try reflexivity; try (vm_compute; split; congruence);
    try (vm_compute; congruence).
  repeat constructor; vm_compute; congruence.
Defined.

(** ** The window *)

Lemma firstn_skipn_firstn (k off n : nat) (l : bytes) :
  (k + off <= n)%nat ->
  firstn k (skipn off (firstn n l)) = firstn k (skipn off l).
Proof.
  intros H. rewrite skipn_firstn_comm, firstn_firstn.
  f_equal. lia.
Qed.

(** The sender with no acknowledgment coming in: it sends the part of
    the buffer that lies inside the window, chunk by chunk. *)
Lemma sender_burst_in_window (start : Z) (data : bytes) (fuel : nat) :
  forall off s,
    let inwin := firstn (Z.to_nat (window_size s)) data in
    (length (skipn (Z.to_nat off) inwin) <= fuel)%nat ->
    0 <= off <= len inwin ->
    sender s = SInner start data ->
    sequence_number s = start + off ->
    remote_ack_number s = start ->
    0 <= start -> start + len inwin < 2 ^ 32 ->
    0 <= ack_number s < 2 ^ 32 -> 0 <= window_size s < 2 ^ 16 ->
    let cs := chunks_of fuel (skipn (Z.to_nat off) inwin) in
    let s' := run (repeat SenderRun (length cs)) s in
    wire s'
    = wire s
      ++ map SendTo (segments (ack_number s) (window_size s) (start + off) cs)
    /\ sequence_number s' = start + len inwin
    /\ sender s' = SInner start data
    /\ remote_ack_number s' = start
    /\ window_size s' = window_size s.
Proof.
  induction fuel as [|f IH];
    intros off s inwin Hfuel Hoff Hpc Hseq Hra Hs0 Hs1 Hack Hw.
  - cbn. rewrite app_nil_r. split; [reflexivity|].
    rewrite length_skipn in Hfuel. unfold len in *.
    repeat split; try assumption; lia.
  - destruct (skipn (Z.to_nat off) inwin) as [|b sfx] eqn:Esfx.
    + cbn. rewrite app_nil_r. split; [reflexivity|].
      assert (length (skipn (Z.to_nat off) inwin) = 0%nat)
        by (now rewrite Esfx).
      rewrite length_skipn in H. unfold len in *.
      repeat split; try assumption; lia.
    + assert (Hlt : off < len inwin).
      { assert (length (skipn (Z.to_nat off) inwin) <> 0%nat)
          by (rewrite Esfx; discriminate).
        rewrite length_skipn in H. unfold len in *. lia. }
      assert (Hin : len inwin = Z.min (window_size s) (len data)).
      { unfold inwin, len. rewrite length_firstn. lia. }
      cbn [chunks_of length repeat]. rewrite <- Esfx.
      set (c := firstn (Z.to_nat MSS) (skipn (Z.to_nat off) inwin)).
      set (k := Z.min MSS (len inwin - off)).
      assert (Hk : 0 < k <= MSS /\ k <= len inwin - off)
        by (unfold k, MSS; lia).
      assert (Hc : pyslice off (off + k) data = c).
      { rewrite pyslice_inside by lia. unfold c.
        rewrite (firstn_capped (Z.to_nat MSS)).
        rewrite length_skipn.
        replace (Nat.min (Z.to_nat MSS)
                   (length inwin - Z.to_nat off))
          with (Z.to_nat k) by (unfold k, len; lia).
        replace (Z.to_nat (off + k - off)) with (Z.to_nat k) by lia.
        unfold inwin. symmetry. apply firstn_skipn_firstn.
        unfold len in *. lia. }
      assert (Hlen : len c = k).
      { rewrite <- Hc. rewrite pyslice_exact; lia. }
      assert (Hsb : send_bytes_of start data s = k).
      { unfold send_bytes_of, k. rewrite Hseq, Hra, Hin. lia. }
      rewrite run_cons. cbn [sys_step].
      rewrite (sender_step_transmit s start data Hpc) by lia.
      cbv zeta. rewrite Hsb, Hseq.
      replace (start + off + k - start - k) with off by lia.
      replace (start + off + k - start) with (off + k) by lia.
      rewrite Hc.
      rewrite send_data_fits
        by (unfold encodable; fields; repeat split; lia).
      fields.
      set (s1 := set_wire _ _).
      destruct (IH (off + k) s1) as (IH1 & IH2 & IH3 & IH4 & IH5);
        try (unfold s1; fields; fold inwin; first [assumption|lia]).
      { unfold s1. fields. fold inwin.
        replace (Z.to_nat (off + k)) with (Z.to_nat k + Z.to_nat off)%nat
          by lia.
        rewrite <- skipn_skipn. rewrite length_skipn.
        rewrite Esfx in *. cbn [length] in *. lia. }
      cbv zeta in IH1, IH2, IH3, IH4, IH5.
      assert (Hsk : skipn (Z.to_nat (off + k)) inwin
                    = skipn (Z.to_nat MSS) (skipn (Z.to_nat off) inwin)).
      { replace (Z.to_nat (off + k)) with (Z.to_nat k + Z.to_nat off)%nat
          by lia.
        rewrite <- skipn_skipn.
        destruct (Z.le_gt_cases MSS (len inwin - off)) as [Hle|Hgt].
        - replace k with MSS by (unfold k; lia). reflexivity.
        - replace k with (len inwin - off) by (unfold k; lia).
          rewrite !skipn_all2; [reflexivity| |];
            rewrite length_skipn; unfold len, MSS in *; lia. }
      change (firstn (Z.to_nat (window_size s1)) data) with inwin
        in IH1, IH2, IH3, IH4, IH5.
      rewrite Hsk in IH1, IH2, IH3, IH4, IH5.
      rewrite IH1, IH2, IH3, IH4, IH5. unfold s1. fields.
      cbn [segments map]. rewrite Hlen. rewrite <- app_assoc.
      replace (start + off + k) with (start + (off + k)) by lia.
      repeat split.
Qed.

(** X28: the window bounds what is in flight.  After [send], with no
    acknowledgment coming in, the sender thread sends exactly the part
    of the buffer that lies inside the window (the first [window_size]
    bytes, in pieces of at most [MSS] bytes) and then blocks in the wait
    for an acknowledgment; further quanta of the thread send nothing. *)
Theorem window_bounds_the_burst (data : bytes) (s : State) (j : nat) :
  is_alive (sender s) = false -> connection_alive s = false ->
  send_queue s = [] ->
  remote_ack_number s = sequence_number s ->
  0 < len data ->
  let inwin := firstn (Z.to_nat (window_size s)) data in
  0 <= sequence_number s -> sequence_number s + len inwin < 2 ^ 32 ->
  0 <= ack_number s < 2 ^ 32 -> 0 <= window_size s < 2 ^ 16 ->
  let s' := run ([AppSend data; SenderRun; SenderRun]
                 ++ repeat SenderRun (length (chunks inwin))
                 ++ [SenderRun]) s in
  wire s'
  = wire s ++ map SendTo (segments (ack_number s) (window_size s)
                            (sequence_number s) (chunks inwin)) /\
  sequence_number s' = sequence_number s + len inwin /\
  len inwin = Z.min (window_size s) (len data) /\
  sender s' = SWait (sequence_number s) data /\
  run (repeat SenderRun j) s' = s'.
Proof.
  intros Hd Hc Hq Hra Hpos inwin Hs0 Hs1 Hack Hw s'.
  assert (Hin : len inwin = Z.min (window_size s) (len data)).
  { unfold inwin, len. rewrite length_firstn. lia. }
  unfold s'. rewrite !run_app.
  destruct (send_restarts_sender data s Hd Hc Hq) as [_ ->].
  set (s0 := set_sender (SInner (sequence_number s) data) s).
  destruct (sender_burst_in_window (sequence_number s) data
              (length inwin) 0 s0) as (B1 & B2 & B3 & B4 & B5);
    try (unfold s0; fields; fold inwin; first [reflexivity|assumption|lia]).
  cbv zeta in B1, B2, B3, B4, B5.
  unfold s0 in B1, B2, B3, B4, B5. fields. fold inwin in B1, B2, B3, B4, B5.
  fold s0 in B1, B2, B3, B4, B5.
  cbn [Z.to_nat skipn] in B1, B2, B3, B4, B5.
  fold (chunks inwin) in B1, B2, B3, B4, B5.
  set (s1 := run (repeat SenderRun (length (chunks inwin))) s0) in *.
  rewrite Z.add_0_r in B1.
  rewrite run_cons, run_nil. cbn [sys_step].
  rewrite (sender_step_wait s1 (sequence_number s) data B3) by lia.
  fields. rewrite B1, B2. split; [reflexivity|]. split; [reflexivity|].
  split; [exact Hin|]. split; [reflexivity|].
  induction j as [|j IHj]; [reflexivity|].
  cbn [repeat]. rewrite run_cons. cbn [sys_step].
  unfold sender_step at 1. fields. exact IHj.
Qed.

Lemma window_bounds_the_burst_witness :
  sequence_number
    (run ([AppSend hello_world; SenderRun; SenderRun]
          ++ repeat SenderRun
               (length (chunks (firstn 4 hello_world))) ++ [SenderRun])
         (mkState 4 1000 100 100 1000 [] [] false false false false SDead
            true false []))
  = 1004.
Proof.
  destruct (window_bounds_the_burst hello_world
              (mkState 4 1000 100 100 1000 [] [] false false false false
                 SDead true false []) 0)
    as (_ & H & _);
    [try reflexivity; vm_compute; repeat split; congruence ..|].
  etransitivity; [exact H|]. vm_compute. reflexivity.
Defined.
